(** * dials.algorithms.scaling.scaling_utilities

    A shallow embedding of the reflection-normalisation pipeline
    ([calc_normE2], [set_wilson_outliers]) and of the crystal-frame vector
    transform ([calc_crystal_frame_vectors], [align_rotation_axis_along_z])
    of [algorithms/scaling/scaling_utilities.py], and of the functions of
    that module that split, identify and select datasets
    ([parse_multiple_datasets], [_get_next_unique_id],
    [assign_unique_identifiers], [select_datasets_on_ids]) and that build
    the spherical-harmonic table ([sph_harm_table]).

    - Python floats and the elements of [flex.double] are IEEE-754 binary64
      numbers: Rocq's primitive floats.  Arithmetic on [flex] arrays is the
      element-wise C++ arithmetic with the default (non-trapping) IEEE
      results, so [1.0 / 0.0] is [infinity]; a division of two Python floats
      raises [ZeroDivisionError] on a zero divisor.
    - A reflection table is a dictionary from column names to equally long
      columns: a [gmap] from strings to columns together with the row count.
      The flag words live in the column ["flags"].
    - Exceptions are a result type; the in-place mutation of the table is
      explicit state passing; the logger is the list of emitted records.
    - Code that the module imports from other libraries (the cctbx symmetry
      classifier and resolution binner, the vector rotator of the scaling
      extension, libm's [acos] and [pow], the numeric values of the flag
      masks) is taken as section variables. *)

From Stdlib Require Import ZArith List Floats Lia Bool.
From Stdlib Require OrderedTypeEx.
From stdpp Require Import base gmap strings list pretty sorting.

Set Warnings "-inexact-float,-abstract-large-number,-clear-no-such-hyp".
Set Default Proof Using "Type".

(** ** Python results *)

Inductive exn : Type :=
| KeyError (key : string)
| TypeError
| IndexError
| ValueError
| ZeroDivisionError
| OverflowError
| RuntimeError.

Inductive result (A : Type) : Type :=
| OK (a : A)
| Raise (e : exn).

Arguments OK {A} a.
Arguments Raise {A} e.

Definition bind {A B : Type} (r : result A) (k : A -> result B) : result B :=
  match r with
  | OK a => k a
  | Raise e => Raise e
  end.

Notation "x <- r ;; k" := (bind r (fun x => k))
  (at level 100, r at next level, right associativity, only parsing).

Definition result_map {A B : Type} (f : A -> B) (r : result A) : result B :=
  match r with
  | OK a => OK (f a)
  | Raise e => Raise e
  end.

Notation "f <$$> r" := (result_map f r) (at level 61, left associativity).

(** The call returned. *)
Definition is_ok {A : Type} (r : result A) : bool :=
  match r with OK _ => true | Raise _ => false end.

(** ** Python floats *)

(** [math.pi]. *)
Definition math_pi : float := 3.141592653589793%float.

(** [x ** 2] on a Python float: the correctly rounded square; CPython raises
    [OverflowError] when a finite operand gives an infinite power. *)
Definition float_pow2 (x : float) : result float :=
  let r := (x * x)%float in
  if is_infinity r && negb (is_infinity x) then Raise OverflowError else OK r.

(** [s ** 0.5] for the sum of squares, which is never negative. *)
Definition float_pow_half (s : float) : float := PrimFloat.sqrt s.

(** [x / y] on Python floats. *)
Definition float_div (x y : float) : result float :=
  if (y =? 0)%float then Raise ZeroDivisionError else OK (x / y)%float.

(** Python's built-in [max] and [min] over an iterable: the running
    candidate is replaced when [item > candidate] (resp. [item < candidate]);
    an empty iterable raises [ValueError]. *)
Definition builtin_max (xs : list float) : result float :=
  match xs with
  | [] => Raise ValueError
  | x :: rest => OK (fold_left (fun m item => if (m <? item)%float then item else m) rest x)
  end.

Definition builtin_min (xs : list float) : result float :=
  match xs with
  | [] => Raise ValueError
  | x :: rest => OK (fold_left (fun m item => if (item <? m)%float then item else m) rest x)
  end.

(** A Python list index [l[i]] with [0 <= i]. *)
Definition list_index {A : Type} (l : list A) (i : nat) : result A :=
  match l !! i with
  | Some x => OK x
  | None => Raise IndexError
  end.

(** The slice [l[1:-1]]. *)
Definition slice_1_m1 {A : Type} (l : list A) : list A :=
  removelast (tail l).

(** ** flex arrays *)

Definition vec3 : Type := float * float * float.
Definition miller_index : Type := Z * Z * Z.

Inductive column : Type :=
| flex_double (xs : list float)
| flex_bool (bs : list bool)
| flex_size_t (ns : list Z)
| flex_vec3_double (vs : list vec3)
| flex_miller_index (hs : list miller_index).

Definition column_size (c : column) : nat :=
  match c with
  | flex_double xs => length xs
  | flex_bool bs => length bs
  | flex_size_t ns => length ns
  | flex_vec3_double vs => length vs
  | flex_miller_index hs => length hs
  end.

(** [a.select(flags)]: the elements whose flag is set, in order. *)
Fixpoint select {A : Type} (xs : list A) (flags : list bool) : list A :=
  match xs, flags with
  | x :: xs', b :: flags' =>
      if b then x :: select xs' flags' else select xs' flags'
  | _, _ => []
  end.

(** [a.set_selected(flags, value)] with a scalar value. *)
Fixpoint set_selected_value {A : Type} (xs : list A) (flags : list bool) (v : A) : list A :=
  match xs, flags with
  | x :: xs', b :: flags' => (if b then v else x) :: set_selected_value xs' flags' v
  | _, _ => xs
  end.

(** [a.set_selected(flags, new_values)] with one new value per set flag,
    consumed in order.  [None] is the failed size assertion of flex. *)
Fixpoint set_selected_packed {A : Type} (xs : list A) (flags : list bool) (vs : list A)
  : option (list A) :=
  match xs, flags with
  | [], [] => match vs with [] => Some [] | _ :: _ => None end
  | x :: xs', true :: flags' =>
      match vs with
      | v :: vs' => cons v <$> set_selected_packed xs' flags' vs'
      | [] => None
      end
  | x :: xs', false :: flags' => cons x <$> set_selected_packed xs' flags' vs
  | _, _ => None
  end.

Definition set_selected {A : Type} (xs : list A) (flags : list bool) (vs : list A)
  : result (list A) :=
  match set_selected_packed xs flags vs with
  | Some ys => OK ys
  | None => Raise RuntimeError
  end.

(** [flags.count(True)]. *)
Fixpoint count_flags (flags : list bool) : nat :=
  match flags with
  | [] => 0
  | b :: flags' => (if b then 1 else 0) + count_flags flags'
  end.

Definition count_true (flags : list bool) : Z := Z.of_nat (count_flags flags).

(** Element-wise [a & b] and [~a]. *)
Definition flex_and (a b : list bool) : list bool := zip_with andb a b.
Definition flex_not (a : list bool) : list bool := map negb a.

Definition column_select (c : column) (flags : list bool) : column :=
  match c with
  | flex_double xs => flex_double (select xs flags)
  | flex_bool bs => flex_bool (select bs flags)
  | flex_size_t ns => flex_size_t (select ns flags)
  | flex_vec3_double vs => flex_vec3_double (select vs flags)
  | flex_miller_index hs => flex_miller_index (select hs flags)
  end.

(** ** Reflection tables *)

Record flex_reflection_table : Type := {
  nrows : nat;
  columns : gmap string column
}.

(** Every column of a table has as many entries as the table has rows. *)
Definition table_wf (t : flex_reflection_table) : Prop :=
  map_Forall (fun _ c => column_size c = nrows t) (columns t).

Definition getitem (t : flex_reflection_table) (key : string) : result column :=
  match columns t !! key with
  | Some c => OK c
  | None => Raise (KeyError key)
  end.

Definition get_double (t : flex_reflection_table) (key : string) : result (list float) :=
  c <- getitem t key ;;
  match c with flex_double xs => OK xs | _ => Raise TypeError end.

Definition get_bool (t : flex_reflection_table) (key : string) : result (list bool) :=
  c <- getitem t key ;;
  match c with flex_bool bs => OK bs | _ => Raise TypeError end.

Definition get_size_t (t : flex_reflection_table) (key : string) : result (list Z) :=
  c <- getitem t key ;;
  match c with flex_size_t ns => OK ns | _ => Raise TypeError end.

Definition get_vec3_double (t : flex_reflection_table) (key : string) : result (list vec3) :=
  c <- getitem t key ;;
  match c with flex_vec3_double vs => OK vs | _ => Raise TypeError end.

Definition get_miller_index (t : flex_reflection_table) (key : string)
  : result (list miller_index) :=
  c <- getitem t key ;;
  match c with flex_miller_index hs => OK hs | _ => Raise TypeError end.

(** [table[key] = column]: the column must have one entry per row. *)
Definition setitem (t : flex_reflection_table) (key : string) (c : column)
  : result flex_reflection_table :=
  if decide (column_size c = nrows t)
  then OK {| nrows := nrows t; columns := <[key := c]> (columns t) |}
  else Raise RuntimeError.

(** [del table[key]]: erasing a column that is not there does nothing
    ([calc_normE2] deletes ['intensity_for_norm'] from a table it never
    added it to). *)
Definition delitem (t : flex_reflection_table) (key : string) : flex_reflection_table :=
  {| nrows := nrows t; columns := delete key (columns t) |}.

(** [table.select(flags)]: a new table holding the flagged rows. *)
Definition table_select (t : flex_reflection_table) (flags : list bool)
  : result flex_reflection_table :=
  if decide (length flags = nrows t)
  then OK {| nrows := count_flags flags;
             columns := (fun c => column_select c flags) <$> columns t |}
  else Raise RuntimeError.

(** [table.get_flags(value, all=False)]: some bit of [value] is set. *)
Definition get_flags_any (t : flex_reflection_table) (value : Z) : result (list bool) :=
  fl <- get_size_t t "flags" ;;
  OK (map (fun f => negb (Z.land f value =? 0)%Z) fl).

(** [table.get_flags(value)]: every bit of [value] is set. *)
Definition get_flags_all (t : flex_reflection_table) (value : Z) : result (list bool) :=
  fl <- get_size_t t "flags" ;;
  OK (map (fun f => (Z.land f value =? value)%Z) fl).

(** [table.set_flags(selection, value)]: [value] is OR-ed into the flag word
    of every selected row.  The method takes the ["flags"] column through
    the writing access of the table, which gives a table that has no such
    column one with the flag word 0 in every row. *)
Definition set_flags (t : flex_reflection_table) (sel : list bool) (value : Z)
  : result flex_reflection_table :=
  fl <- match columns t !! "flags" with
        | Some _ => get_size_t t "flags"
        | None => OK (replicate (nrows t) 0%Z)
        end ;;
  if decide (length sel = nrows t)
  then setitem t "flags"
         (flex_size_t (zip_with (fun f (b : bool) => if b then Z.lor f value else f) fl sel))
  else Raise RuntimeError.

(** In-place write through the reference [table[key]] (such as
    [table['d'].set_selected(...)]): the column's storage is the table's. *)
Definition replace_column (t : flex_reflection_table) (key : string) (c : column)
  : flex_reflection_table :=
  {| nrows := nrows t; columns := <[key := c]> (columns t) |}.

(** ** Experiment models *)

Definition unit_cell_parameters : Type := float * float * float * float * float * float.

Record crystal_symmetry (space_group : Type) : Type := {
  unit_cell : unit_cell_parameters;
  space_group_of : space_group
}.

Arguments unit_cell {space_group} _.
Arguments space_group_of {space_group} _.

(** What the two functions read of [experiments]: the beam vector, the
    goniometer's rotation axis, and the crystal's unit cell and space group. *)
Record experiment (space_group : Type) : Type := {
  beam_get_s0 : vec3;
  goniometer_get_rotation_axis : vec3;
  crystal_get_unit_cell_parameters : unit_cell_parameters;
  crystal_get_space_group : space_group
}.

Arguments beam_get_s0 {space_group} _.
Arguments goniometer_get_rotation_axis {space_group} _.
Arguments crystal_get_unit_cell_parameters {space_group} _.
Arguments crystal_get_space_group {space_group} _.

(** ** The logger *)

Inductive log_message : Type :=
| Calculating_normalised_intensities
| Negative_intensities_set_to_zero
| No_normalised_intensities_calculated
| Resolution_bins_used (n_centrics n_acentrics n_refl_shells : Z)
| Outliers_identified (n_outliers : Z) (centric_cutoff acentric_cutoff : float).

Inductive log_record : Type :=
| Log_info (msg : log_message)
| Log_debug (msg : log_message).

(** [for i in range(0, n): t = body(i, t)], stopping at the first exception. *)
Fixpoint for_range {T : Type} (body : nat -> T -> result T) (start n : nat) (t : T)
  : result T :=
  match n with
  | O => OK t
  | S n' => t' <- body start t ;; for_range body (S start) n' t'
  end.

(** [==] on two 3-tuples of floats (so [-0.0] equals [0.0], and NaN
    equals nothing). *)
Definition vec3_eqb (a b : vec3) : bool :=
  let '(a0, a1, a2) := a in
  let '(b0, b1, b2) := b in
  ((a0 =? b0) && (a1 =? b1) && (a2 =? b2))%float.

(** The integer shell count as a Python float divisor. *)
Definition float_of_Z (n : Z) : float := PrimFloat.of_uint63 (Uint63.of_Z n).

(** ** Datasets

    What the dataset functions (lines 35-143) work on. *)

(** A failed [assert] beside the outcomes of [result]. *)
Inductive outcome (A : Type) : Type :=
| Returned (a : A)
| Raised (e : exn)
| AssertionError.

Arguments Returned {A} a.
Arguments Raised {A} e.
Arguments AssertionError {A}.

Definition outcome_bind {A B : Type} (r : outcome A) (k : A -> outcome B) : outcome B :=
  match r with
  | Returned a => k a
  | Raised e => Raised e
  | AssertionError => AssertionError
  end.

Notation "x <~ r ;; k" := (outcome_bind r (fun x => k))
  (at level 100, r at next level, right associativity, only parsing).

Definition outcome_of {A : Type} (r : result A) : outcome A :=
  match r with
  | OK a => Returned a
  | Raise e => Raised e
  end.

(** [assert condition]. *)
Definition assert (condition : bool) : outcome unit :=
  if condition then Returned tt else AssertionError.

(** A reflection table as the dataset functions use it: the [flex.int]
    column ['id'] (absent, or one dataset id per row), the map
    [experiment_identifiers()] from dataset ids to identifier strings, and
    the other columns. *)
Record dataset_table : Type := {
  table_id : option (list Z);
  table_experiment_identifiers : gmap Z string;
  table_data : flex_reflection_table
}.

(** [table.size()]. *)
Definition table_size (t : dataset_table) : nat := nrows (table_data t).

(** [table['id']]. *)
Definition get_id (t : dataset_table) : result (list Z) :=
  match table_id t with
  | Some ids => OK ids
  | None => Raise (KeyError "id")
  end.

(** [table['id'] = flex.int(table.size(), i)]. *)
Definition set_id (t : dataset_table) (i : Z) : dataset_table :=
  {| table_id := Some (replicate (table_size t) i);
     table_experiment_identifiers := table_experiment_identifiers t;
     table_data := table_data t |}.

(** [table.experiment_identifiers()[i] = identifier]. *)
Definition set_experiment_identifier (t : dataset_table) (i : Z) (identifier : string)
  : dataset_table :=
  {| table_id := table_id t;
     table_experiment_identifiers := <[i := identifier]> (table_experiment_identifiers t);
     table_data := table_data t |}.

(** An experiment of an experiment list: its [identifier] and its models. *)
Record dataset_experiment (space_group : Type) : Type := {
  identifier : string;
  models : experiment space_group
}.

Arguments identifier {space_group} _.
Arguments models {space_group} _.

(** [exp.identifier = strid]. *)
Definition set_identifier {space_group : Type}
    (exp : dataset_experiment space_group) (strid : string)
  : dataset_experiment space_group :=
  {| identifier := strid; models := models exp |}.

(** [str(i)] and ['%i' % i] for an integer. *)
Definition str (i : Z) : string := pretty i.

(** The records of the dataset functions in the log. *)
Inductive dataset_log_message : Type :=
| Multi_dataset_table_detected (n_datasets : Z)
| Duplicate_dataset_ids_found
| Removing_dataset (id_ : string)
| Using_dataset_for_scaling (id_ : string).

Inductive dataset_log_record : Type :=
| Dataset_info (msg : dataset_log_message)
| Dataset_warn (msg : dataset_log_message).

(** [for item in items: state = body(state, item)], stopping at the first
    exception. *)
Fixpoint for_each {S A : Type} (body : S -> A -> result S) (items : list A) (state : S)
  : result S :=
  match items with
  | [] => OK state
  | item :: rest => state' <- body state item ;; for_each body rest state'
  end.

(** [l.index(x)]: the first position of [x], [ValueError] without one. *)
Fixpoint list_index_of (l : list string) (x : string) : result nat :=
  match l with
  | [] => Raise ValueError
  | y :: l' => if String.eqb y x then OK 0 else S <$$> list_index_of l' x
  end.

(** [del l[i]] with [0 <= i]. *)
Definition del_index {A : Type} (l : list A) (i : nat) : result (list A) :=
  if decide (i < length l) then OK (delete i l) else Raise IndexError.

(** [sorted(l, reverse=True)] on strings, which Python orders byte by
    byte. *)
Definition string_ge (a b : string) : Prop := String.leb b a = true.

#[local] Instance string_ge_dec (a b : string) : Decision (string_ge a b) :=
  decide (String.leb b a = true).

Definition sorted_reverse (l : list string) : list string := merge_sort string_ge l.

(** The truth value of an optional list argument: [None] and the empty
    list are false. *)
Definition truthy {A : Type} (l : option (list A)) : bool :=
  match l with
  | Some (_ :: _) => true
  | _ => false
  end.

(** [x in l] on strings. *)
Definition string_in (x : string) (l : list string) : bool := bool_decide (x ∈ l).

(** ** The functions of [scaling_utilities.py] *)

Section ScalingUtilities.

(** cctbx: the space-group type, the centric test of
    [miller.array.centric_flags()] for one index, and the resolution binner
    ([setup_binner_d_star_sq_step], [binner.limits()], and the per-bin
    [.data] of [mean(use_binning=...)], in which an empty bin is [None]). *)
Variable space_group : Type.
Variable is_centric : crystal_symmetry space_group -> miller_index -> bool.
Variable binner : Type.
Variable setup_binner_d_star_sq_step :
  crystal_symmetry space_group -> list miller_index -> float -> result binner.
Variable binner_limits : binner -> list float.
Variable mean_use_binning : binner -> list miller_index -> list float -> list (option float).

(** dials_scaling_ext: [rotate_vectors_about_axis(axis, vectors, angles)]. *)
Variable rotate_vectors_about_axis : list vec3 -> list vec3 -> list float -> list vec3.

(** libm's arc cosine on [-1, 1]. *)
Variable libm_acos : float -> float.

(** libm's [pow], which the element-wise [**] of a [flex.double] calls; it
    is not the correctly rounded power for every argument. *)
Variable libm_pow : float -> float -> float.

(** The flag masks [reflection_table.flags.bad_for_scaling] and
    [reflection_table.flags.outlier_in_scaling]. *)
Variable bad_for_scaling : Z.
Variable outlier_in_scaling : Z.

(** The order in which Python iterates over a set of integers; it is the
    same each time the set is iterated. *)
Variable set_iter : gset Z -> list Z.

(** dials: what [table.select(flags)] makes of the map
    [experiment_identifiers()], given the ['id'] column of the selection;
    [table.are_experiment_identifiers_consistent()]. *)
Variable select_experiment_identifiers : gmap Z string -> option (list Z) -> gmap Z string.
Variable are_experiment_identifiers_consistent : dataset_table -> bool.

(** The number of frames the interpreter's recursion limit leaves for
    [_get_next_unique_id]. *)
Variable recursion_limit : nat.

(** [dxtbx.model.experiment_list.ExperimentList.identifiers()]. *)
Definition identifiers (experiments : list (dataset_experiment space_group)) : list string :=
  map identifier experiments.

(** *** [parse_multiple_datasets] (lines 35-56) *)

(** [refl_table.select(flags)] on a table with an ['id'] column. *)
Definition dataset_table_select (t : dataset_table) (flags : list bool)
  : result dataset_table :=
  data <- table_select (table_data t) flags ;;
  let id' := (fun ids => select ids flags) <$> table_id t in
  OK {| table_id := id';
        table_experiment_identifiers :=
          select_experiment_identifiers (table_experiment_identifiers t) id';
        table_data := data |}.

(** Line 40: [set(refl_table['id']).difference(set([-1]))]. *)
Definition dataset_ids_of (ids : list Z) : gset Z := list_to_set ids ∖ {[(-1)%Z]}.

(** Lines 46-48: one table per dataset id, in the set's order. *)
Fixpoint split_datasets (refl_table : dataset_table) (dataset_ids : list Z)
  : result (list dataset_table) :=
  match dataset_ids with
  | [] => OK []
  | dataset_id :: rest =>
      ids <- get_id refl_table ;;
      single_refl_table <-
        dataset_table_select refl_table (map (fun x => (x =? dataset_id)%Z) ids) ;;
      tables <- split_datasets refl_table rest ;;
      OK (single_refl_table :: tables)
  end.

(** Line 51: [len(dataset_id_list) != len(set(dataset_id_list))]. *)
Definition has_duplicates (dataset_id_list : list Z) : bool :=
  negb (length dataset_id_list =? size (list_to_set dataset_id_list : gset Z)).

(** Lines 40-55: one turn of the loop over the reflection tables. *)
Definition parse_dataset
    (state : list dataset_table * list Z * list dataset_log_record)
    (refl_table : dataset_table)
  : result (list dataset_table * list Z * list dataset_log_record) :=
  let '(single_reflection_tables, dataset_id_list, log) := state in
  ids <- get_id refl_table ;;
  let dataset_ids := dataset_ids_of ids in
  let n_datasets := size dataset_ids in
  let dataset_id_list := dataset_id_list ++ set_iter dataset_ids in
  tables_log <-
    (if 1 <? n_datasets
     then
       tables <- split_datasets refl_table (set_iter dataset_ids) ;;
       OK (single_reflection_tables ++ tables,
           log ++ [Dataset_info (Multi_dataset_table_detected (Z.of_nat n_datasets))])
     else OK (single_reflection_tables ++ [refl_table], log)) ;;
  let '(single_reflection_tables, log) := tables_log in
  if has_duplicates dataset_id_list
  then OK (single_reflection_tables,
           map Z.of_nat (seq 0 (length dataset_id_list)),
           log ++ [Dataset_warn Duplicate_dataset_ids_found])
  else OK (single_reflection_tables, dataset_id_list, log).

Definition parse_multiple_datasets (reflections : list dataset_table)
  : result (list dataset_table * list Z * list dataset_log_record) :=
  for_each parse_dataset reflections ([], [], []).

(** *** [_get_next_unique_id] (lines 58-67)

    One frame of the recursion per id tried; with no frame left the
    interpreter raises its recursion-depth [RuntimeError]. *)
Fixpoint _get_next_unique_id (depth : nat) (unique_id : Z) (used_ids : list string)
  : result Z :=
  match depth with
  | O => Raise RuntimeError
  | S depth' =>
      if negb (string_in (str unique_id) used_ids)
      then OK unique_id
      else _get_next_unique_id depth' (unique_id + 1) used_ids
  end.

(** *** [assign_unique_identifiers] (lines 69-107)

    The experiments of the list are distinct objects, and so are the
    tables: an assignment to one changes no other. *)

(** Lines 80-83: the identifiers that are set, each table of an identified
    experiment being asserted consistent. *)
Fixpoint collect_used_ids
    (experiments : list (dataset_experiment space_group)) (reflections : list dataset_table)
    (used_ids : list string) : outcome (list string) :=
  match experiments, reflections with
  | exp :: experiments', refl :: reflections' =>
      if negb (String.eqb (identifier exp) "")
      then
        _ <~ assert (are_experiment_identifiers_consistent refl) ;;
        collect_used_ids experiments' reflections' (used_ids ++ [identifier exp])
      else collect_used_ids experiments' reflections' used_ids
  | _, _ => Returned used_ids
  end.

(** Lines 86-88: every experiment has an identifier of its own. *)
Fixpoint assign_all_set (i : nat)
    (experiments : list (dataset_experiment space_group)) (reflections : list dataset_table)
  : list dataset_table :=
  match experiments, reflections with
  | exp :: experiments', refl :: reflections' =>
      let refl := set_experiment_identifier refl (Z.of_nat i) (identifier exp) in
      let refl := set_id refl (Z.of_nat i) in
      refl :: assign_all_set (S i) experiments' reflections'
  | _, _ => reflections
  end.

(** Lines 90-100: some identifiers are set. *)
Fixpoint assign_some_set (used_ids : list string) (i : nat) (unique_id : Z)
    (experiments : list (dataset_experiment space_group)) (reflections : list dataset_table)
  : result (list (dataset_experiment space_group) * list dataset_table) :=
  match experiments, reflections with
  | exp :: experiments', refl :: reflections' =>
      if negb (String.eqb (identifier exp) "")
      then
        let refl := set_experiment_identifier refl (Z.of_nat i) (identifier exp) in
        let refl := set_id refl (Z.of_nat i) in
        rest <- assign_some_set used_ids (S i) unique_id experiments' reflections' ;;
        OK (exp :: rest.1, refl :: rest.2)
      else
        unique_id <- _get_next_unique_id recursion_limit unique_id used_ids ;;
        let strid := str unique_id in
        let exp := set_identifier exp strid in
        let refl := set_experiment_identifier refl (Z.of_nat i) strid in
        let unique_id := (unique_id + 1)%Z in
        let refl := set_id refl (Z.of_nat i) in
        rest <- assign_some_set used_ids (S i) unique_id experiments' reflections' ;;
        OK (exp :: rest.1, refl :: rest.2)
  | _, _ => OK (experiments, reflections)
  end.

(** Lines 102-106: no identifier is set. *)
Fixpoint assign_none_set (i : nat)
    (experiments : list (dataset_experiment space_group)) (reflections : list dataset_table)
  : list (dataset_experiment space_group) * list dataset_table :=
  match experiments, reflections with
  | exp :: experiments', refl :: reflections' =>
      let strid := str (Z.of_nat i) in
      let exp := set_identifier exp strid in
      let refl := set_experiment_identifier refl (Z.of_nat i) strid in
      let refl := set_id refl (Z.of_nat i) in
      let rest := assign_none_set (S i) experiments' reflections' in
      (exp :: rest.1, refl :: rest.2)
  | _, _ => (experiments, reflections)
  end.

Definition assign_unique_identifiers
    (experiments : list (dataset_experiment space_group)) (reflections : list dataset_table)
  : outcome (list (dataset_experiment space_group) * list dataset_table) :=
  used_ids <~ collect_used_ids experiments reflections [] ;;
  if size (list_to_set used_ids : gset string) =? length reflections
  then Returned (experiments, assign_all_set 0 experiments reflections)
  else
    match used_ids with
    | _ :: _ => outcome_of (assign_some_set used_ids 0 0 experiments reflections)
    | [] => Returned (assign_none_set 0 experiments reflections)
    end.

(** *** [select_datasets_on_ids] (lines 109-143) *)

(** Lines 122-126, with [unique_identifiers] as it was before the first
    deletion. *)
Fixpoint remove_datasets (unique_identifiers reverse_ids : list string)
    (experiments : list (dataset_experiment space_group)) (reflections : list dataset_table)
    (log : list dataset_log_record)
  : result (list (dataset_experiment space_group) * list dataset_table
            * list dataset_log_record) :=
  match reverse_ids with
  | [] => OK (experiments, reflections, log)
  | id_ :: rest =>
      let log := log ++ [Dataset_info (Removing_dataset id_)] in
      index <- list_index_of unique_identifiers id_ ;;
      experiments <- del_index experiments index ;;
      reflections <- del_index reflections index ;;
      remove_datasets unique_identifiers rest experiments reflections log
  end.

(** Lines 135-139. *)
Fixpoint keep_datasets (unique_identifiers use_datasets : list string)
    (experiments : list (dataset_experiment space_group)) (reflections : list dataset_table)
    (new_experiments : list (dataset_experiment space_group))
    (new_reflections : list dataset_table) (log : list dataset_log_record)
  : result (list (dataset_experiment space_group) * list dataset_table
            * list dataset_log_record) :=
  match use_datasets with
  | [] => OK (new_experiments, new_reflections, log)
  | id_ :: rest =>
      let log := log ++ [Dataset_info (Using_dataset_for_scaling id_)] in
      index <- list_index_of unique_identifiers id_ ;;
      exp <- list_index experiments index ;;
      let new_experiments := new_experiments ++ [exp] in
      refl <- list_index reflections index ;;
      let new_reflections := new_reflections ++ [refl] in
      keep_datasets unique_identifiers rest experiments reflections
        new_experiments new_reflections log
  end.

(** The branch [elif use_datasets:] of line 129 is written as the [else] it
    is: one of the two arguments is true at line 114 and [exclude_datasets]
    is not. *)
Definition select_datasets_on_ids
    (experiments : list (dataset_experiment space_group)) (reflections : list dataset_table)
    (exclude_datasets use_datasets : option (list string))
  : outcome (list (dataset_experiment space_group) * list dataset_table
             * list dataset_log_record) :=
  let unique_identifiers := identifiers experiments in
  if truthy use_datasets || truthy exclude_datasets
  then
    _ <~ assert (negb (truthy use_datasets && truthy exclude_datasets)) ;;
    if truthy exclude_datasets
    then
      let exclude_datasets := default [] exclude_datasets in
      _ <~ assert (forallb (fun i => string_in i unique_identifiers) exclude_datasets) ;;
      let reverse_ids := sorted_reverse exclude_datasets in
      outcome_of (remove_datasets unique_identifiers reverse_ids experiments reflections [])
    else
      let use_datasets := default [] use_datasets in
      _ <~ assert (forallb (fun i => string_in i unique_identifiers) use_datasets) ;;
      outcome_of (keep_datasets unique_identifiers use_datasets experiments reflections
                    [] [] [])
  else Returned (experiments, reflections, []).

(** *** The crystal-frame transform (lines 154-179) *)

(** [math.acos]: a [ValueError] outside the domain, NaN for NaN. *)
Definition math_acos (x : float) : result float :=
  if is_nan x then OK x
  else if (abs x <=? 1)%float then OK (libm_acos x)
  else Raise ValueError.

(** Line 176:
    [+1.0 * acos(uz/((ux**2 + uy**2 + uz**2)**0.5))]. *)
Definition angle_between_u_z (ux uy uz : float) : result float :=
  ux2 <- float_pow2 ux ;;
  uy2 <- float_pow2 uy ;;
  uz2 <- float_pow2 uz ;;
  q <- float_div uz (float_pow_half (ux2 + uy2 + uz2)%float) ;;
  a <- math_acos q ;;
  OK (1.0 * a)%float.

(** Lines 170-179. *)
Definition align_rotation_axis_along_z (exp_rot_axis : list vec3) (vectors : list vec3)
  : result (list vec3) :=
  if match exp_rot_axis with
     | [u] => vec3_eqb u (0.0, 0.0, 1.0)%float
     | _ => false
     end
  then OK vectors
  else
    u <- list_index exp_rot_axis 0 ;;
    let '(ux, uy, uz) := u in
    let cross_prod_uz := [(uy, (-1.0 * ux)%float, 0.0%float)] in
    a <- angle_between_u_z ux uy uz ;;
    let phi := replicate (length vectors) a in
    let new_vectors := rotate_vectors_about_axis cross_prod_uz vectors phi in
    OK new_vectors.

(** Line 159: [reflection_table['phi'] * -1.0 * pi / 180]. *)
Definition inverse_rotation_angles (phi : list float) : list float :=
  map (fun p => (p * -1.0 * math_pi / 180)%float) phi.

(** Lines 154-168. *)
Definition calc_crystal_frame_vectors
    (reflection_table : flex_reflection_table) (experiments : experiment space_group)
  : result flex_reflection_table :=
  t <- setitem reflection_table "s0"
         (flex_vec3_double (replicate (nrows reflection_table) (beam_get_s0 experiments))) ;;
  let rot_axis := [goniometer_get_rotation_axis experiments] in
  phi <- get_double t "phi" ;;
  let angles := inverse_rotation_angles phi in
  s1 <- get_vec3_double t "s1" ;;
  t <- setitem t "s1c" (flex_vec3_double (rotate_vectors_about_axis rot_axis s1 angles)) ;;
  s0 <- get_vec3_double t "s0" ;;
  t <- setitem t "s0c" (flex_vec3_double (rotate_vectors_about_axis rot_axis s0 angles)) ;;
  s1c <- get_vec3_double t "s1c" ;;
  s1c' <- align_rotation_axis_along_z rot_axis s1c ;;
  t <- setitem t "s1c" (flex_vec3_double s1c') ;;
  s0c <- get_vec3_double t "s0c" ;;
  s0c' <- align_rotation_axis_along_z rot_axis s0c ;;
  t <- setitem t "s0c" (flex_vec3_double s0c') ;;
  OK t.

(** *** [sph_harm_table] (lines 181-188)

    [calc_theta_phi] and [create_sph_harm_table] are functions of the
    scaling extension.  The table is the caller's: it is returned beside
    the value, with the columns [calc_crystal_frame_vectors] wrote. *)
Section SphericalHarmonics.

Variable calc_theta_phi : list vec3 -> list (float * float).
Variable sparse_matrix : Type.
Variable create_sph_harm_table :
  list (float * float) -> list (float * float) -> Z -> sparse_matrix.

Definition sph_harm_table
    (reflection_table : flex_reflection_table) (experiments : experiment space_group)
    (lmax : Z)
  : result (sparse_matrix * flex_reflection_table) :=
  reflection_table <- calc_crystal_frame_vectors reflection_table experiments ;;
  s0c <- get_vec3_double reflection_table "s0c" ;;
  let theta_phi := calc_theta_phi s0c in
  s1c <- get_vec3_double reflection_table "s1c" ;;
  let theta_phi_2 := calc_theta_phi s1c in
  let sph_h_t := create_sph_harm_table theta_phi theta_phi_2 lmax in
  OK (sph_h_t, reflection_table).

End SphericalHarmonics.

(** *** [calc_normE2]

    The function is given in the order of its source, one definition per
    part: the statistics subset (lines 200-220), the choice of the shell
    count (222-237) with the fallback branch (226-235), the bin averages of
    the two classes (239-256) and the pass over the full table (258-288). *)

(** [1.0/table['d']**2], element by element. *)
Definition resolution_of_d (d : list float) : list float :=
  map (fun x => (1.0 / libm_pow x 2.0)%float) d.

(** [copy.deepcopy] of a [flex.double].  The copy is made by pickling the
    array, and the pickled form keeps every finite value other than zero
    and gives 0.0 for all others: an infinity, a NaN, a negative zero. *)
Definition copy_deepcopy (xs : list float) : list float :=
  map (fun x => if is_nan x || is_infinity x || is_zero x then 0.0%float else x) xs.

(** [miller.set(crystal_symmetry, indices)] and [miller.array(set, data)]. *)
Record miller_set : Type := {
  set_crystal_symmetry : crystal_symmetry space_group;
  set_indices : list miller_index
}.

Record miller_array : Type := {
  array_set : miller_set;
  array_data : list float
}.

(** [miller_array.centric_flags().data()]. *)
Definition centric_flags (ms : miller_set) : list bool :=
  map (is_centric (set_crystal_symmetry ms)) (set_indices ms).

(** Lines 205-207: [crystal.symmetry(unit_cell=..., space_group=...)]. *)
Definition crystal_symmetry_of (experiments : experiment space_group)
  : crystal_symmetry space_group :=
  {| unit_cell := crystal_get_unit_cell_parameters experiments;
     space_group_of := crystal_get_space_group experiments |}.

(** Lines 200-220: the statistics subset with its working columns, the
    miller array built over it, and [n_centrics] and [n_acentrics]. *)
Definition statistics_subset
    (reflection_table : flex_reflection_table) (experiments : experiment space_group)
  : result (flex_reflection_table * miller_array * Z * Z) :=
  bad_refl_sel <- get_flags_any reflection_table bad_for_scaling ;;
  rt_subset <- table_select reflection_table (flex_not bad_refl_sel) ;;
  let crystal_symmetry := crystal_symmetry_of experiments in
  indices <- get_miller_index rt_subset "miller_index" ;;
  let miller_set := {| set_crystal_symmetry := crystal_symmetry; set_indices := indices |} in
  d <- get_double rt_subset "d" ;;
  rt_subset <- setitem rt_subset "resolution" (flex_double (resolution_of_d d)) ;;
  intensity <- get_double rt_subset "intensity" ;;
  rt_subset <- setitem rt_subset "intensity_for_norm"
                 (flex_double (copy_deepcopy intensity)) ;;
  intensity_for_norm <- get_double rt_subset "intensity_for_norm" ;;
  intensity <- get_double rt_subset "intensity" ;;
  let rt_subset := replace_column rt_subset "intensity_for_norm"
    (flex_double (set_selected_value intensity_for_norm
                    (map (fun x => (x <? 0.0)%float) intensity) 0.0%float)) in
  data <- get_double rt_subset "intensity_for_norm" ;;
  let miller_array := {| array_set := miller_set; array_data := data |} in
  rt_subset <- setitem rt_subset "centric_flag"
                 (flex_bool (centric_flags (array_set miller_array))) ;;
  centric_flag <- get_bool rt_subset "centric_flag" ;;
  let n_centrics := count_true centric_flag in
  let n_acentrics := (Z.of_nat (nrows rt_subset) - n_centrics)%Z in
  OK (rt_subset, miller_array, n_centrics, n_acentrics).

(** Lines 222-237: the shell count, [None] being the fallback branch. *)
Definition n_refl_shells (n_acentrics n_centrics : Z) : option Z :=
  if ((20000 <? n_acentrics) || (20000 <? n_centrics))%Z then Some 20%Z
  else if ((15000 <? n_acentrics) || (15000 <? n_centrics))%Z then Some 15%Z
  else if (n_acentrics <? 10000)%Z then None
  else Some 10%Z.

(** Lines 226-235: the insufficient-data branch. *)
Definition insufficient_data_fallback (reflection_table : flex_reflection_table)
  : result flex_reflection_table :=
  t <- setitem reflection_table "Esq"
         (flex_double (replicate (nrows reflection_table) 1.0%float)) ;;
  let t := delitem t "intensity_for_norm" in
  let t := delitem t "centric_flag" in
  let t := delitem t "resolution" in
  OK t.

(** Lines 242-256 for one class: [select_centric()] / [select_acentric()],
    the binner over the class, its interior bin means ([.data[1:-1]]) and
    its limits. *)
Definition class_bin_means (ma : miller_array) (class_sel : list bool) (step : float)
  : result (list (option float) * list float) :=
  let class_indices := select (set_indices (array_set ma)) class_sel in
  let class_data := select (array_data ma) class_sel in
  class_binner <- setup_binner_d_star_sq_step
                    (set_crystal_symmetry (array_set ma)) class_indices step ;;
  let mean_values := slice_1_m1 (mean_use_binning class_binner class_indices class_data) in
  OK (mean_values, binner_limits class_binner).

(** Lines 239-256: the bin width and, for each class with a member, the
    interior bin means and the bin limits. *)
Definition bin_averages
    (rt_subset : flex_reflection_table) (miller_array : miller_array)
    (n_centrics n_acentrics n_shells : Z)
  : result (option (list (option float) * list float)
            * option (list (option float) * list float)) :=
  resolution <- get_double rt_subset "resolution" ;;
  res_max <- builtin_max resolution ;;
  resolution <- get_double rt_subset "resolution" ;;
  res_min <- builtin_min resolution ;;
  let step := ((res_max - res_min + 1e-8) / float_of_Z n_shells)%float in
  centric_means <-
    (if (n_centrics =? 0)%Z then OK None
     else Some <$$> class_bin_means miller_array
                      (centric_flags (array_set miller_array)) step) ;;
  acentric_means <-
    (if (n_acentrics =? 0)%Z then OK None
     else Some <$$> class_bin_means miller_array
                      (flex_not (centric_flags (array_set miller_array))) step) ;;
  OK (centric_means, acentric_means).

(** One turn of the loops of lines 270-275 and 278-283. *)
Definition normalise_shell
    (sel1 : list bool) (bin_limits : list float) (mean_values : list (option float))
    (i : nat) (t : flex_reflection_table) : result flex_reflection_table :=
  resolution <- get_double t "resolution" ;;
  lower <- list_index bin_limits i ;;
  let sel2 := map (fun r => (lower <? r)%float) resolution in
  upper <- list_index bin_limits (i + 1) ;;
  let sel3 := map (fun r => (r <=? upper)%float) resolution in
  let sel := flex_and (flex_and sel1 sel2) sel3 in
  intensity <- get_double t "intensity" ;;
  let intensities := select intensity sel in
  esq <- get_double t "Esq" ;;
  m <- list_index mean_values i ;;
  match m with
  | None => Raise TypeError
  | Some mean_value =>
      esq' <- set_selected esq sel (map (fun x => (x / mean_value)%float) intensities) ;;
      OK (replace_column t "Esq" (flex_double esq'))
  end.

(** The loop [for i in range(0, len(bin_limits)-1)]. *)
Definition normalise_class
    (sel1 : list bool) (bin_limits : list float) (mean_values : list (option float))
    (t : flex_reflection_table) : result flex_reflection_table :=
  for_range (normalise_shell sel1 bin_limits mean_values) 0 (length bin_limits - 1) t.

(** Lines 258-288: the normalised intensities of the full table. *)
Definition normalise_full_table
    (crystal_symmetry : crystal_symmetry space_group)
    (centric_means acentric_means : option (list (option float) * list float))
    (reflection_table : flex_reflection_table)
  : result flex_reflection_table :=
  indices <- get_miller_index reflection_table "miller_index" ;;
  let miller_set := {| set_crystal_symmetry := crystal_symmetry; set_indices := indices |} in
  t <- setitem reflection_table "Esq"
         (flex_double (replicate (nrows reflection_table) 0.0%float)) ;;
  t <- setitem t "centric_flag" (flex_bool (centric_flags miller_set)) ;;
  d <- get_double t "d" ;;
  let d0_sel := map (fun x => (x =? 0.0)%float) d in
  d <- get_double t "d" ;;
  let t := replace_column t "d" (flex_double (set_selected_value d d0_sel 1.0%float)) in
  d <- get_double t "d" ;;
  t <- setitem t "resolution" (flex_double (resolution_of_d d)) ;;
  t <- match centric_means with
       | None => OK t
       | Some (mean_centric_values, centric_bin_limits) =>
           sel1 <- get_bool t "centric_flag" ;;
           normalise_class sel1 centric_bin_limits mean_centric_values t
       end ;;
  t <- match acentric_means with
       | None => OK t
       | Some (mean_acentric_values, acentric_bin_limits) =>
           centric_flag <- get_bool t "centric_flag" ;;
           normalise_class (flex_not centric_flag)
             acentric_bin_limits mean_acentric_values t
       end ;;
  let t := delitem t "intensity_for_norm" in
  let t := delitem t "centric_flag" in
  let t := delitem t "resolution" in
  d <- get_double t "d" ;;
  let t := replace_column t "d" (flex_double (set_selected_value d d0_sel 0.0%float)) in
  esq <- get_double t "Esq" ;;
  let t := replace_column t "Esq" (flex_double (set_selected_value esq d0_sel 0.0%float)) in
  OK t.

(** Lines 191-293. *)
Definition calc_normE2
    (reflection_table : flex_reflection_table) (experiments : experiment space_group)
  : result (flex_reflection_table * list log_record) :=
  let log := [Log_info Calculating_normalised_intensities;
              Log_debug Negative_intensities_set_to_zero] in
  subset <- statistics_subset reflection_table experiments ;;
  let '(rt_subset, miller_array, n_centrics, n_acentrics) := subset in
  match n_refl_shells n_acentrics n_centrics with
  | None =>
      t <- insufficient_data_fallback reflection_table ;;
      OK (t, log ++ [Log_info No_normalised_intensities_calculated])
  | Some n_shells =>
      means <- bin_averages rt_subset miller_array n_centrics n_acentrics n_shells ;;
      let '(centric_means, acentric_means) := means in
      t <- normalise_full_table (set_crystal_symmetry (array_set miller_array))
             centric_means acentric_means reflection_table ;;
      OK (t, log ++ [Log_debug (Resolution_bins_used n_centrics n_acentrics n_shells)])
  end.

(** *** [set_wilson_outliers] (lines 295-318) *)

Definition centric_cutoff : float := 23.91%float.
Definition acentric_cutoff : float := 13.82%float.

Definition set_wilson_outliers (reflection_table : flex_reflection_table)
  : result (flex_reflection_table * list log_record) :=
  sel1 <- get_bool reflection_table "centric_flag" ;;
  esq <- get_double reflection_table "Esq" ;;
  let sel2 := map (fun x => (centric_cutoff <? x)%float) esq in
  t <- set_flags reflection_table (flex_and sel1 sel2) outlier_in_scaling ;;
  centric_flag <- get_bool t "centric_flag" ;;
  let sel1 := flex_not centric_flag in
  esq <- get_double t "Esq" ;;
  let sel2 := map (fun x => (acentric_cutoff <? x)%float) esq in
  t <- set_flags t (flex_and sel1 sel2) outlier_in_scaling ;;
  outliers <- get_flags_all t outlier_in_scaling ;;
  OK (t, [Log_info (Outliers_identified (count_true outliers) centric_cutoff acentric_cutoff)]).


(** ** Statement vocabulary *)

(** The axis cross the reference axis (0,0,1), as line 175 builds it. *)
Definition cross_prod_uz (u : vec3) : vec3 :=
  let '(ux, uy, _) := u in (uy, (-1.0 * ux)%float, 0.0%float).

(** The axes [calc_crystal_frame_vectors] can align: the canonical one, or
    one whose angle to the reference axis line 176 can compute. *)
Definition axis_alignable (u : vec3) : Prop :=
  vec3_eqb u (0.0, 0.0, 1.0)%float = true
  \/ is_ok (let '(ux, uy, uz) := u in angle_between_u_z ux uy uz) = true.

(** The rows gathered for statistics: those with no bit of
    [bad_for_scaling] set. *)
Definition scaling_subset_sel (flags : list Z) : list bool :=
  flex_not (map (fun f => negb (Z.land f bad_for_scaling =? 0)%Z) flags).

(** The resolution the full-table pass computes for a row with distance
    [d]: the sentinel 1.0 stands in for [d == 0] (lines 264-266). *)
Definition sentinel_resolution (d : float) : float :=
  let d' := if (d =? 0.0)%float then 1.0%float else d in (1.0 / libm_pow d' 2.0)%float.

(** Row [j], of resolution [r] and intensity [I], was assigned to a shell
    of the class selected by [sel1], and [x] is its intensity over that
    shell's mean. *)
Definition shell_hit
    (sel1 : list bool) (bin_limits : list float) (mean_values : list (option float))
    (j : nat) (r I x : float) : Prop :=
  exists (i : nat) (lower upper m : float),
    bin_limits !! i = Some lower /\ bin_limits !! (i + 1) = Some upper
    /\ mean_values !! i = Some (Some m)
    /\ sel1 !! j = Some true
    /\ (lower <? r)%float = true /\ (r <=? upper)%float = true
    /\ x = (I / m)%float.

Definition class_hit
    (class_means : option (list (option float) * list float)) (sel1 : list bool)
    (j : nat) (r I x : float) : Prop :=
  exists mean_values bin_limits,
    class_means = Some (mean_values, bin_limits)
    /\ shell_hit sel1 bin_limits mean_values j r I x.

(** Some interior shell of the class holds the resolution [r]. *)
Definition in_some_shell
    (class_means : option (list (option float) * list float)) (r : float) : Prop :=
  exists mean_values bin_limits (i : nat) (lower upper : float),
    class_means = Some (mean_values, bin_limits)
    /\ bin_limits !! i = Some lower /\ bin_limits !! (i + 1) = Some upper
    /\ (lower <? r)%float = true /\ (r <=? upper)%float = true.

(** The test of lines 271-272 and 279-280 for shell [i]: the resolution
    [r] is above the shell's lower limit and not above its upper limit. *)
Definition in_shell (bin_limits : list float) (i : nat) (r : float) : bool :=
  match bin_limits !! i, bin_limits !! (i + 1) with
  | Some lower, Some upper => (lower <? r)%float && (r <=? upper)%float
  | _, _ => false
  end.

(** Every interior bin mean of the class is a positive finite number. *)
Definition means_positive_finite
    (class_means : option (list (option float) * list float)) : Prop :=
  forall mean_values bin_limits (i : nat) (m : float),
    class_means = Some (mean_values, bin_limits) ->
    mean_values !! i = Some (Some m) ->
    (0 <? m)%float = true /\ (m <? infinity)%float = true.

(** The flag words [fl] of a table as [set_flags] finds them: those of its
    ["flags"] column, or 0 in every row when the table has no such
    column. *)
Definition flag_words (t : flex_reflection_table) (fl : list Z) : Prop :=
  columns t !! "flags" = Some (flex_size_t fl)
  \/ columns t !! "flags" = None /\ fl = replicate (nrows t) 0%Z.

(** The condition of lines 299-309 for one row. *)
Definition wilson_outlier (centric : bool) (esq : float) : bool :=
  (centric && (23.91 <? esq)%float) || (negb centric && (13.82 <? esq)%float).

(** The branch records of a run: the shell count [n] was used, or the
    fallback was taken. *)
Definition shells_used
    (t : flex_reflection_table) (rt : flex_reflection_table) (ma : miller_array)
    (nc na n : Z) (t' : flex_reflection_table) (log : list log_record) : Prop :=
  exists cm am,
    bin_averages rt ma nc na n = OK (cm, am)
    /\ normalise_full_table (set_crystal_symmetry (array_set ma)) cm am t = OK t'
    /\ Log_debug (Resolution_bins_used nc na n) ∈ log.

Definition fallback_taken
    (t t' : flex_reflection_table) (log : list log_record) : Prop :=
  insufficient_data_fallback t = OK t'
  /\ Log_info No_normalised_intensities_calculated ∈ log.

(** Every shell between two consecutive limits of the class has a mean. *)
Definition class_means_complete
    (class_means : option (list (option float) * list float)) : Prop :=
  forall mean_values bin_limits (i : nat),
    class_means = Some (mean_values, bin_limits) ->
    i + 1 < length bin_limits ->
    exists m : float, mean_values !! i = Some (Some m).

(** The binner's mean list has an entry, a mean or [None], for every shell
    between two consecutive limits of the class. *)
Definition class_means_listed
    (class_means : option (list (option float) * list float)) : Prop :=
  forall mean_values bin_limits (i : nat),
    class_means = Some (mean_values, bin_limits) ->
    i + 1 < length bin_limits -> is_Some (mean_values !! i).

(** Some shell of the class is an empty bin. *)
Definition class_has_empty_shell
    (class_means : option (list (option float) * list float)) : Prop :=
  exists mean_values bin_limits (i : nat),
    class_means = Some (mean_values, bin_limits)
    /\ i + 1 < length bin_limits /\ mean_values !! i = Some None.

(** The row carries every bit of [outlier_in_scaling] once
    [set_wilson_outliers] is through: it met the condition, or it had the
    bits before. *)
Definition flagged_outlier (centric : bool) (esq : float) (flags : Z) : bool :=
  wilson_outlier centric esq || (Z.land flags outlier_in_scaling =? outlier_in_scaling)%Z.

(** The columns [calc_normE2] works in, and those of them it leaves in the
    table. *)
Definition working_columns : gset string :=
  {["intensity_for_norm"; "centric_flag"; "resolution"]}.
Definition written_columns : gset string := {["Esq"; "d"]}.

(** A proof that never calls a collaborator drops those it does not name
    from its context, which keeps the solvers from trying them. *)
Ltac without_collaborators :=
  try clear mean_use_binning; try clear binner_limits;
  try clear setup_binner_d_star_sq_step; try clear binner;
  try clear rotate_vectors_about_axis; try clear libm_acos; try clear libm_pow;
  try clear bad_for_scaling; try clear outlier_in_scaling;
  try clear set_iter; try clear select_experiment_identifiers;
  try clear are_experiment_identifiers_consistent; try clear recursion_limit.

(** The identifiers that are set among the experiments that have a table
    at their position. *)
Definition given_identifiers
    (experiments : list (dataset_experiment space_group)) (reflections : list dataset_table)
  : list string :=
  filter (fun s => s <> "") (identifiers (take (length reflections) experiments)).

(** The table of position [i] once it is stamped with its position and
    with the identifier [strid]. *)
Definition stamped (i : nat) (strid : string) (refl : dataset_table) : dataset_table :=
  set_id (set_experiment_identifier refl (Z.of_nat i) strid) (Z.of_nat i).

(** [j] is the first position of [x] in [l]: what [l.index(x)] returns. *)
Definition first_position (l : list string) (x : string) (j : nat) : Prop :=
  l !! j = Some x /\ forall j' : nat, j' < j -> l !! j' <> Some x.

(** The log of lines 123 and 136. *)
Definition removing_log (ids : list string) : list dataset_log_record :=
  map (fun id_ => Dataset_info (Removing_dataset id_)) ids.
Definition using_log (ids : list string) : list dataset_log_record :=
  map (fun id_ => Dataset_info (Using_dataset_for_scaling id_)) ids.

(** The deletions of lines 124-126 on one of the two lists. *)
Fixpoint delete_each {A : Type} (keys reverse_ids : list string) (l : list A)
  : result (list A) :=
  match reverse_ids with
  | [] => OK l
  | id_ :: rest =>
      index <- list_index_of keys id_ ;;
      l <- del_index l index ;;
      delete_each keys rest l
  end.

(** The entries of [l] whose key, the entry of [keys] at the same
    position, is not among [ids]. *)
Definition without_keys {A : Type} (keys ids : list string) (l : list A) : list A :=
  (filter (fun kx : string * A => kx.1 ∉ ids) (zip keys l)).*2.

(** In [keys], [y] comes before [x] wherever the two are. *)
Definition position_gt (keys : list string) (x y : string) : Prop :=
  forall px py : nat, keys !! px = Some x -> keys !! py = Some y -> py < px.

(** The dataset ids of a table: the values of its ['id'] column other
    than -1. *)
Definition table_dataset_ids (t : dataset_table) : gset Z :=
  dataset_ids_of (default [] (table_id t)).

(** The table has an ['id'] column with one entry per row. *)
Definition dataset_table_wf (t : dataset_table) : Prop :=
  exists ids : list Z, table_id t = Some ids /\ length ids = table_size t.

(** ** Concrete collaborators and tables

    Instances of the section variables, used to run the functions on
    concrete tables. *)

(** Two space groups: in P1 no reflection is centric; in P 1 2 1 (unique
    axis b) the centric reflections are the h0l zone. *)
Inductive example_space_group : Type := P1 | P121.

Definition example_is_centric
    (cs : crystal_symmetry example_space_group) (h : miller_index) : bool :=
  match space_group_of cs with
  | P1 => false
  | P121 => let '(_, k, _) := h in (k =? 0)%Z
  end.

(** d*^2 of an index in a cell with right angles:
    h^2/a^2 + k^2/b^2 + l^2/c^2. *)
Definition orthogonal_d_star_sq (uc : unit_cell_parameters) (h : miller_index) : float :=
  let '(a, b, c, _, _, _) := uc in
  let '(h0, k0, l0) := h in
  (float_of_Z (h0 * h0) / (a * a) + float_of_Z (k0 * k0) / (b * b)
   + float_of_Z (l0 * l0) / (c * c))%float.

(** Bin limits from [current] upwards in steps of [step] until [upper] is
    covered. *)
Fixpoint limits_from (fuel : nat) (upper step current : float) : list float :=
  current ::
  (if (current <? upper)%float
   then match fuel with
        | O => []
        | S fuel' => limits_from fuel' upper step (current + step)%float
        end
   else []).

(** A binner of uniform d*^2 steps over the range of its members. *)
Record uniform_binner : Type := {
  ub_unit_cell : unit_cell_parameters;
  ub_limits : list float
}.

Definition uniform_setup_binner
    (cs : crystal_symmetry example_space_group) (indices : list miller_index) (step : float)
  : result uniform_binner :=
  if negb (0 <? step)%float then Raise RuntimeError
  else
    let q := map (orthogonal_d_star_sq (unit_cell cs)) indices in
    lower <- builtin_min q ;;
    upper <- builtin_max q ;;
    OK {| ub_unit_cell := unit_cell cs; ub_limits := limits_from 64 upper step lower |}.

Definition flex_mean (xs : list float) : option float :=
  match xs with
  | [] => None
  | _ :: _ =>
      Some (fold_left PrimFloat.add xs 0%float / float_of_Z (Z.of_nat (length xs)))%float
  end.

(** The mean over the members of the bin [lower <= d*^2 < upper]; [None]
    for an empty bin. *)
Definition bin_mean (q data : list float) (lower upper : float) : option float :=
  flex_mean (select data (map (fun x => (lower <=? x)%float && (x <? upper)%float) q)).

Fixpoint interior_means (q data : list float) (limits : list float)
  : list (option float) :=
  match limits with
  | lower :: (upper :: _) as rest => bin_mean q data lower upper :: interior_means q data rest
  | _ => []
  end.

(** One entry per bin, the first and the last being the two bins outside
    the limits. *)
Definition uniform_mean
    (b : uniform_binner) (indices : list miller_index) (data : list float)
  : list (option float) :=
  let q := map (orthogonal_d_star_sq (ub_unit_cell b)) indices in
  [None] ++ interior_means q data (ub_limits b) ++ [None].

(** A rotator: Rodrigues' formula about the normalised axis, with the
    sine and cosine from their power series. *)
Definition cos_series (x : float) : float :=
  let x2 := (x * x)%float in
  (1 - x2 / 2 * (1 - x2 / 12 * (1 - x2 / 30 * (1 - x2 / 56))))%float.

Definition sin_series (x : float) : float :=
  let x2 := (x * x)%float in
  (x * (1 - x2 / 6 * (1 - x2 / 20 * (1 - x2 / 42 * (1 - x2 / 72)))))%float.

Definition rodrigues (u v : vec3) (angle : float) : vec3 :=
  let '(ux, uy, uz) := u in
  let '(vx, vy, vz) := v in
  let c := cos_series angle in
  let s := sin_series angle in
  let dot := (ux * vx + uy * vy + uz * vz)%float in
  ((vx * c + (uy * vz - uz * vy) * s + ux * dot * (1 - c))%float,
   (vy * c + (uz * vx - ux * vz) * s + uy * dot * (1 - c))%float,
   (vz * c + (ux * vy - uy * vx) * s + uz * dot * (1 - c))%float).

Definition example_rotate (axis vectors : list vec3) (angles : list float) : list vec3 :=
  match axis with
  | (ux, uy, uz) :: _ =>
      let modulus := PrimFloat.sqrt (ux * ux + uy * uy + uz * uz)%float in
      zip_with (rodrigues ((ux / modulus)%float, (uy / modulus)%float, (uz / modulus)%float))
        vectors angles
  | [] => vectors
  end.

(** An arc cosine: pi/2 minus the arc sine series. *)
Definition example_acos (x : float) : float :=
  let x2 := (x * x)%float in
  (math_pi / 2 - x * (1 + x2 / 6 * (1 + x2 * 9 / 20 * (1 + x2 * 25 / 42))))%float.

(** A power function for the one exponent the module uses: the correctly
    rounded square for the exponent 2.0, and NaN for every other. *)
Definition example_pow (x y : float) : float :=
  if (y =? 2.0)%float then (x * x)%float else nan.

(** Flag masks: three scaling bits and their union. *)
Definition example_outlier_in_scaling : Z := 8388608.
Definition example_bad_for_scaling : Z := 4194304 + 8388608 + 16777216.

Definition example_experiment (sg : example_space_group) (axis : vec3)
  : experiment example_space_group :=
  {| beam_get_s0 := (0.0, 0.0, -1.0)%float;
     goniometer_get_rotation_axis := axis;
     crystal_get_unit_cell_parameters := (1.0, 1.0, 1.0, 90.0, 90.0, 90.0)%float;
     crystal_get_space_group := sg |}.

(** A table from its rows: flag word, miller index, d and intensity. *)
Definition table_of_rows (rows : list (Z * miller_index * float * float))
  : flex_reflection_table :=
  {| nrows := length rows;
     columns :=
       <["flags" := flex_size_t (map (fun r => r.1.1.1) rows)]>
       (<["miller_index" := flex_miller_index (map (fun r => r.1.1.2) rows)]>
       (<["d" := flex_double (map (fun r => r.1.2) rows)]>
       (<["intensity" := flex_double (map (fun r => r.2) rows)]> ∅))) |}.

(** The distance of an index in the unit cube cell. *)
Definition d_of_index (h : miller_index) : float :=
  (1 / PrimFloat.sqrt
         (orthogonal_d_star_sq (1.0, 1.0, 1.0, 90.0, 90.0, 90.0)%float h))%float.

Definition good_row (h : miller_index) (intensity : float) : Z * miller_index * float * float :=
  (0%Z, h, d_of_index h, intensity).

(** 25 reflections, 5 of them centric in P 1 2 1. *)
Definition small_rows : list (Z * miller_index * float * float) :=
  map (fun h => good_row (h, 0, 1)%Z 3.0%float) [1; 2; 3; 4; 5]%Z
  ++ map (fun h => good_row (h, 1, 0)%Z 3.0%float) (map Z.of_nat (seq 1 20)).

Definition small_table : flex_reflection_table := table_of_rows small_rows.

(** One unflagged reflection with [d = 0]. *)
Definition zero_distance_table : flex_reflection_table :=
  table_of_rows [(0%Z, (1, 0, 0)%Z, 0.0%float, 1.0%float)].

(** Ten resolution shells between d*^2 = 64 and d*^2 = 256, each with 1000
    centric (h0l) and 1000 acentric (0kl) reflections of intensity 0.5;
    then a centric reflection of intensity -2.0, a flagged centric
    reflection of intensity 1.7e308, and a flagged reflection with d = 0. *)
Definition shell_indices : list (Z * Z) :=
  [(8, 0); (10, 0); (11, 0); (8, 8); (12, 0); (13, 0); (14, 0); (14, 2); (15, 0); (16, 0)]%Z.

Definition large_rows : list (Z * miller_index * float * float) :=
  concat (map (fun hl : Z * Z => replicate 1000 (good_row (hl.1, 0, hl.2)%Z 0.5%float))
            shell_indices)
  ++ concat (map (fun hl : Z * Z => replicate 1000 (good_row (0, hl.1, hl.2)%Z 0.5%float))
               shell_indices)
  ++ [good_row (12, 0, 0)%Z (-2.0)%float;
      (example_outlier_in_scaling, (13, 0, 0)%Z, d_of_index (13, 0, 0)%Z, 1.7e308%float);
      (example_bad_for_scaling, (0, 0, 0)%Z, 0.0%float, 5.0%float)].

Definition large_table : flex_reflection_table := table_of_rows large_rows.

(** The bin limits and the centric and acentric bin means that the uniform
    binner gives for [large_table] with 10 shells. *)
Definition large_limits : list float :=
  Eval vm_compute in limits_from 64 256 ((256 - 64 + 1e-8) / 10)%float 64%float.

Definition large_centric_means : list (option float) :=
  [Some 0.5; Some 0.5; Some 0.5; Some 0.5; Some (500 / 1001); Some 0.5; Some 0.5;
   Some 0.5; Some 0.5; Some 0.5]%float.

Definition large_acentric_means : list (option float) := replicate 10 (Some 0.5%float).

(** Entry [j] of the [flex.double] column [key]. *)
Definition double_entry (t : flex_reflection_table) (key : string) (j : nat)
  : option float :=
  match columns t !! key with
  | Some (flex_double xs) => xs !! j
  | _ => None
  end.

(** Two reflections with their rotation angles and diffracted beams. *)
Definition frame_table : flex_reflection_table :=
  {| nrows := 2;
     columns :=
       <["phi" := flex_double [0.0; 90.0]%float]>
       (<["s1" := flex_vec3_double [(1.0, 0.0, 0.0); (0.0, 1.0, 0.0)]%float]>
       (<["intensity" := flex_double [1.0; 2.0]%float]> ∅)) |}.

(** The same table after an earlier pass left an [s0] column behind. *)
Definition frame_table_with_s0 : flex_reflection_table :=
  {| nrows := 2;
     columns := <["s0" := flex_vec3_double [(1.0, 0.0, 0.0); (1.0, 0.0, 0.0)]%float]>
                  (columns frame_table) |}.

(** Four reflections with their normalised intensities and flag words. *)
Definition outlier_table : flex_reflection_table :=
  {| nrows := 4;
     columns :=
       <["centric_flag" := flex_bool [true; true; false; false]]>
       (<["Esq" := flex_double [24.0; 20.0; 14.0; 13.0]%float]>
       (<["flags" := flex_size_t [0; example_outlier_in_scaling; 1; 1]%Z]> ∅)) |}.

(** The same reflections in a table that has no ["flags"] column. *)
Definition unflagged_outlier_table : flex_reflection_table :=
  {| nrows := 4;
     columns :=
       <["centric_flag" := flex_bool [true; true; false; false]]>
       (<["Esq" := flex_double [24.0; 20.0; 14.0; 13.0]%float]> ∅) |}.

(** *** Concrete collaborators and inputs of the dataset functions *)

(** A set is iterated in the order of its [elements]. *)
Definition example_set_iter (s : gset Z) : list Z := elements s.

(** A selection keeps the identifiers of the ids it holds. *)
Definition example_select_identifiers (m : gmap Z string) (ids : option (list Z))
  : gmap Z string :=
  filter (fun kv : Z * string => kv.1 ∈ default [] ids) m.

(** A table is consistent when its map is empty or has an identifier for
    every id of its column. *)
Definition example_consistent (t : dataset_table) : bool :=
  bool_decide (table_experiment_identifiers t = ∅)
  || forallb (fun i => bool_decide (is_Some (table_experiment_identifiers t !! i)))
       (default [] (table_id t)).

Definition example_recursion_limit : nat := 1000.

(** A table from its ['id'] column and its identifiers, with one intensity
    per row. *)
Definition dataset_table_of (ids : list Z) (m : gmap Z string) : dataset_table :=
  {| table_id := Some ids;
     table_experiment_identifiers := m;
     table_data :=
       {| nrows := length ids;
          columns := {["intensity" := flex_double (map float_of_Z ids)]} |} |}.

Definition example_dataset_experiment (strid : string) (axis : vec3)
  : dataset_experiment example_space_group :=
  {| identifier := strid; models := example_experiment P1 axis |}.

(** Experiments with the identifiers given, each with an axis of its
    own. *)
Definition experiments_of (strids : list string)
  : list (dataset_experiment example_space_group) :=
  imap (fun i strid =>
          example_dataset_experiment strid (0.0, 0.0, float_of_Z (Z.of_nat i + 1))%float)
    strids.

(** One single-dataset table for each of [n] experiments. *)
Definition tables_of (n : nat) : list dataset_table :=
  map (fun i => dataset_table_of [Z.of_nat i; Z.of_nat i] ∅) (seq 0 n).

(** The angles of a vector, and a table of spherical harmonics that
    records what it was built from. *)
Definition example_calc_theta_phi (vectors : list vec3) : list (float * float) :=
  map (fun v : vec3 => let '(x, y, z) := v in (example_acos z, (y / x)%float)) vectors.

Definition example_sparse_matrix : Type := list (float * float) * list (float * float) * Z.

Definition example_create_sph_harm_table
    (theta_phi theta_phi_2 : list (float * float)) (lmax : Z) : example_sparse_matrix :=
  (theta_phi, theta_phi_2, lmax).

(** 5000 acentric reflections at d*^2 = 64 and 5000 at d*^2 = 256: of the
    ten shells between, eight are empty. *)
Definition gap_rows : list (Z * miller_index * float * float) :=
  replicate 5000 (good_row (0, 8, 0)%Z 0.5%float)
  ++ replicate 5000 (good_row (0, 16, 0)%Z 0.5%float).

Definition gap_table : flex_reflection_table := table_of_rows gap_rows.

Definition gap_means : list (option float) :=
  [Some 0.5%float] ++ replicate 8 None ++ [Some 0.5%float].

(** Three experiments, the second of which has the identifier "0", with
    their tables. *)
Definition three_experiments : list (dataset_experiment example_space_group) :=
  experiments_of [""; "0"; ""].

Definition three_tables : list dataset_table :=
  [dataset_table_of [7; 7]%Z ∅; dataset_table_of [0; 0; 0]%Z {[0%Z := "0"]};
   dataset_table_of [] ∅].

(** Twelve experiments with the identifiers "0" to "11", as
    [assign_unique_identifiers] gives them, and their tables. *)
Definition twelve_experiments : list (dataset_experiment example_space_group) :=
  experiments_of (map (fun i => str (Z.of_nat i)) (seq 0 12)).

Definition twelve_tables : list dataset_table := tables_of 12.

(** Tables for [parse_multiple_datasets]: one with the datasets 0 and 1
    and a row with id -1, and one with the dataset 1 again. *)
Definition mixed_tables : list dataset_table :=
  [dataset_table_of [0; 0; 1; -1]%Z ∅; dataset_table_of [1; 1]%Z ∅].

(** Tables with one dataset each, and tables with datasets of their own. *)
Definition single_tables : list dataset_table :=
  [dataset_table_of [0; 0; -1]%Z ∅; dataset_table_of [5]%Z ∅].

Definition disjoint_tables : list dataset_table :=
  [dataset_table_of [0; 0; 1]%Z ∅; dataset_table_of [2]%Z ∅].

(** A table whose column has the id 4 and whose map knows the id 0
    only. *)
Definition inconsistent_table : dataset_table := dataset_table_of [4; 4]%Z {[0%Z := "a"]}.

(** ** Results and table access *)

Lemma bind_ok_inv {A B : Type} (r : result A) (k : A -> result B) b :
  bind r k = OK b -> exists a, r = OK a /\ k a = OK b.
Proof. destruct r as [a|]; simpl; [by eauto|done]. Qed.

Lemma get_double_ok (t : flex_reflection_table) key xs :
  columns t !! key = Some (flex_double xs) -> get_double t key = OK xs.
Proof. unfold get_double, getitem. by intros ->. Qed.

Lemma get_bool_ok (t : flex_reflection_table) key bs :
  columns t !! key = Some (flex_bool bs) -> get_bool t key = OK bs.
Proof. unfold get_bool, getitem. by intros ->. Qed.

Lemma get_size_t_ok (t : flex_reflection_table) key ns :
  columns t !! key = Some (flex_size_t ns) -> get_size_t t key = OK ns.
Proof. unfold get_size_t, getitem. by intros ->. Qed.

Lemma get_vec3_double_ok (t : flex_reflection_table) key vs :
  columns t !! key = Some (flex_vec3_double vs) -> get_vec3_double t key = OK vs.
Proof. unfold get_vec3_double, getitem. by intros ->. Qed.

Lemma get_miller_index_ok (t : flex_reflection_table) key hs :
  columns t !! key = Some (flex_miller_index hs) -> get_miller_index t key = OK hs.
Proof. unfold get_miller_index, getitem. by intros ->. Qed.

Lemma setitem_ok (t : flex_reflection_table) key c :
  column_size c = nrows t ->
  setitem t key c = OK {| nrows := nrows t; columns := <[key := c]> (columns t) |}.
Proof. unfold setitem. intros H. by rewrite decide_True. Qed.

Lemma table_wf_column (t : flex_reflection_table) key c :
  table_wf t -> columns t !! key = Some c -> column_size c = nrows t.
Proof. intros Hwf H. exact (Hwf key c H). Qed.

(** ** flex array lemmas *)

Lemma list_lookup_map {A B : Type} (f : A -> B) (l : list A) (j : nat) :
  map f l !! j = f <$> (l !! j).
Proof. revert j. induction l as [|x l IH]; intros [|j]; simpl; auto. Qed.

Lemma select_length {A : Type} (xs : list A) (flags : list bool) :
  length xs = length flags ->
  length (select xs flags) = count_flags flags.
Proof.
  revert flags. induction xs as [|x xs IH]; intros [|b flags] H; simpl in *; try done.
  destruct b; simpl; rewrite IH by lia; done.
Qed.

Lemma set_selected_value_length {A : Type} (xs : list A) (flags : list bool) (v : A) :
  length (set_selected_value xs flags v) = length xs.
Proof.
  revert flags. induction xs as [|x xs IH]; intros [|b flags]; simpl; try done.
  by rewrite IH.
Qed.

Lemma set_selected_value_lookup {A : Type} (xs : list A) (flags : list bool) (v : A)
    (j : nat) (x : A) (b : bool) :
  xs !! j = Some x -> flags !! j = Some b ->
  set_selected_value xs flags v !! j = Some (if b then v else x).
Proof.
  revert flags j. induction xs as [|x0 xs IH]; intros [|b0 flags] [|j]; simpl; try done.
  - by intros [= ->] [= ->].
  - apply IH.
Qed.

(** [a.set_selected(flags, f(b.select(flags)))] writes [f b[j]] at the
    flagged rows and keeps [a[j]] elsewhere. *)
Lemma set_selected_packed_select {A B : Type} (f : B -> A) (xs : list A) (ys : list B)
    (flags : list bool) :
  length xs = length flags -> length ys = length flags ->
  set_selected_packed xs flags (map f (select ys flags))
  = Some (zip_with (fun x (by_ : bool * B) => if by_.1 then f by_.2 else x)
            xs (zip flags ys)).
Proof.
  revert ys flags. induction xs as [|x xs IH]; intros [|y ys] [|b flags] Hx Hy;
    simpl in *; try done.
  destruct b; simpl; rewrite IH by lia; done.
Qed.

Lemma set_selected_select_lookup {A B : Type} (f : B -> A) (xs : list A) (ys : list B)
    (flags : list bool) :
  length xs = length flags -> length ys = length flags ->
  exists zs : list A,
    set_selected xs flags (map f (select ys flags)) = OK zs
    /\ length zs = length xs
    /\ forall (j : nat) (x : A) (y : B) (b : bool),
         xs !! j = Some x -> ys !! j = Some y -> flags !! j = Some b ->
         zs !! j = Some (if b then f y else x).
Proof.
  intros Hx Hy. unfold set_selected. rewrite set_selected_packed_select by done.
  eexists. split; [done|]. split.
  - rewrite length_zip_with, length_zip. lia.
  - intros j x y b Hxj Hyj Hbj. rewrite lookup_zip_with, Hxj. simpl.
    rewrite lookup_zip_with, Hbj. simpl. rewrite Hyj. done.
Qed.

Lemma flex_and_lookup (a b : list bool) (j : nat) (x y : bool) :
  a !! j = Some x -> b !! j = Some y -> flex_and a b !! j = Some (x && y).
Proof.
  intros Ha Hb. unfold flex_and. by rewrite lookup_zip_with, Ha; simpl; rewrite Hb.
Qed.

Lemma flex_and_length (a b : list bool) :
  length a = length b -> length (flex_and a b) = length a.
Proof. intros H. unfold flex_and. rewrite length_zip_with. lia. Qed.

(** ** Results about the shell loops *)

Lemma normalise_shell_run sel1 bin_limits mean_values i t t' res ints esq :
  normalise_shell sel1 bin_limits mean_values i t = OK t' ->
  columns t !! "resolution" = Some (flex_double res) ->
  columns t !! "intensity" = Some (flex_double ints) ->
  columns t !! "Esq" = Some (flex_double esq) ->
  length sel1 = length esq -> length res = length esq -> length ints = length esq ->
  exists esq' : list float,
    t' = replace_column t "Esq" (flex_double esq')
    /\ length esq' = length esq
    /\ forall (j : nat) (x r I : float),
         esq !! j = Some x -> res !! j = Some r -> ints !! j = Some I ->
         exists x', esq' !! j = Some x'
                    /\ (x' = x \/ shell_hit sel1 bin_limits mean_values j r I x').
Proof.
  intros Hrun Hres Hints Hesq Lsel Lres Lints. unfold normalise_shell in Hrun.
  apply get_double_ok in Hres, Hints, Hesq.
  rewrite Hres in Hrun. cbn [bind] in Hrun.
  apply bind_ok_inv in Hrun as (lower & Hlower & Hrun).
  apply bind_ok_inv in Hrun as (upper & Hupper & Hrun).
  rewrite Hints in Hrun. cbn [bind] in Hrun.
  rewrite Hesq in Hrun. cbn [bind] in Hrun.
  apply bind_ok_inv in Hrun as (m & Hm & Hrun).
  destruct m as [m|]; [|done].
  apply bind_ok_inv in Hrun as (esq' & Hset & Hrun).
  injection Hrun as <-.
  set (sel := flex_and (flex_and sel1 (map (fun r => (lower <? r)%float) res))
                (map (fun r => (r <=? upper)%float) res)) in *.
  assert (Lsel' : length sel = length esq).
  { unfold sel. rewrite !flex_and_length; rewrite ?length_map; try congruence.
    rewrite flex_and_length; rewrite ?length_map; congruence. }
  destruct (set_selected_select_lookup (fun x => (x / m)%float) esq ints sel
              ltac:(congruence) ltac:(congruence)) as (zs & Hzs & Lzs & Hlook).
  rewrite Hzs in Hset. injection Hset as <-.
  exists zs. split; [done|]. split; [done|].
  intros j x r I Hx Hr HI.
  destruct (sel1 !! j) as [b|] eqn:Hb.
  2:{ apply lookup_ge_None in Hb. apply lookup_lt_Some in Hx. lia. }
  assert (Hsel : sel !! j = Some (b && (lower <? r)%float && (r <=? upper)%float)).
  { unfold sel. apply flex_and_lookup; [apply flex_and_lookup; [done|]|];
      by rewrite list_lookup_map, Hr. }
  specialize (Hlook j x I _ Hx HI Hsel).
  eexists. split; [exact Hlook|].
  destruct b; simpl; [|by left].
  destruct (lower <? r)%float eqn:E1; simpl; [|by left].
  destruct (r <=? upper)%float eqn:E2; simpl; [|by left].
  right. unfold list_index in Hlower, Hupper, Hm.
  destruct (bin_limits !! i) eqn:F1; [|done].
  destruct (bin_limits !! (i + 1)) eqn:F2; [|done].
  destruct (mean_values !! i) eqn:F3; [|done].
  injection Hlower as ->. injection Hupper as ->. injection Hm as ->.
  exists i, lower, upper, m. by rewrite F1, F2.
Qed.

Lemma normalise_class_run sel1 bin_limits mean_values n :
  forall start t t' res ints esq,
  for_range (normalise_shell sel1 bin_limits mean_values) start n t = OK t' ->
  columns t !! "resolution" = Some (flex_double res) ->
  columns t !! "intensity" = Some (flex_double ints) ->
  columns t !! "Esq" = Some (flex_double esq) ->
  length sel1 = length esq -> length res = length esq -> length ints = length esq ->
  exists esq' : list float,
    t' = replace_column t "Esq" (flex_double esq')
    /\ length esq' = length esq
    /\ forall (j : nat) (x r I : float),
         esq !! j = Some x -> res !! j = Some r -> ints !! j = Some I ->
         exists x', esq' !! j = Some x'
                    /\ (x' = x \/ shell_hit sel1 bin_limits mean_values j r I x').
Proof.
  induction n as [|n IH]; intros start t t' res ints esq Hrun Hres Hints Hesq L1 L2 L3.
  - simpl in Hrun. injection Hrun as <-. exists esq. split; [|split; [done|]].
    + destruct t as [nr cols]. unfold replace_column. simpl in *. f_equal.
      by rewrite insert_id.
    + intros j x r I Hx _ _. exists x. by split; [|left].
  - simpl in Hrun. apply bind_ok_inv in Hrun as (t1 & Hstep & Hrun).
    destruct (normalise_shell_run _ _ _ _ _ _ _ _ _ Hstep Hres Hints Hesq L1 L2 L3)
      as (esq1 & -> & Lesq1 & Hrow1).
    destruct (IH _ _ _ res ints esq1 Hrun) as (esq' & -> & Lesq' & Hrow');
      [by simpl; simplify_map_eq..|congruence|congruence|congruence|].
    exists esq'. split; [|split; [congruence|]].
    + unfold replace_column. simpl. f_equal. by rewrite insert_insert_eq.
    + intros j x r I Hx Hr HI.
      destruct (Hrow1 j x r I Hx Hr HI) as (x1 & Hx1 & H1).
      destruct (Hrow' j x1 r I Hx1 Hr HI) as (x' & Hx' & H').
      exists x'. split; [done|].
      destruct H' as [->|H']; [done|by right].
Qed.

Lemma normalise_class_ok_run sel1 bin_limits mean_values t t' res ints esq :
  normalise_class sel1 bin_limits mean_values t = OK t' ->
  columns t !! "resolution" = Some (flex_double res) ->
  columns t !! "intensity" = Some (flex_double ints) ->
  columns t !! "Esq" = Some (flex_double esq) ->
  length sel1 = length esq -> length res = length esq -> length ints = length esq ->
  exists esq' : list float,
    t' = replace_column t "Esq" (flex_double esq')
    /\ length esq' = length esq
    /\ forall (j : nat) (x r I : float),
         esq !! j = Some x -> res !! j = Some r -> ints !! j = Some I ->
         exists x', esq' !! j = Some x'
                    /\ (x' = x \/ shell_hit sel1 bin_limits mean_values j r I x').
Proof. apply normalise_class_run. Qed.

Lemma class_loop_run class_means sel1 t t' res ints esq :
  match class_means with
  | None => OK t
  | Some (mean_values, bin_limits) => normalise_class sel1 bin_limits mean_values t
  end = OK t' ->
  columns t !! "resolution" = Some (flex_double res) ->
  columns t !! "intensity" = Some (flex_double ints) ->
  columns t !! "Esq" = Some (flex_double esq) ->
  length sel1 = length esq -> length res = length esq -> length ints = length esq ->
  exists esq' : list float,
    t' = replace_column t "Esq" (flex_double esq')
    /\ length esq' = length esq
    /\ forall (j : nat) (x r I : float),
         esq !! j = Some x -> res !! j = Some r -> ints !! j = Some I ->
         exists x', esq' !! j = Some x'
                    /\ (x' = x \/ class_hit class_means sel1 j r I x').
Proof.
  intros Hrun Hres Hints Hesq L1 L2 L3.
  destruct class_means as [[mean_values bin_limits]|].
  - destruct (normalise_class_ok_run _ _ _ _ _ _ _ _ Hrun Hres Hints Hesq L1 L2 L3)
      as (esq' & -> & Lesq' & Hrow).
    exists esq'. split; [done|]. split; [done|].
    intros j x r I Hx Hr HI. destruct (Hrow j x r I Hx Hr HI) as (x' & Hx' & H).
    exists x'. split; [done|]. destruct H as [->|H]; [by left|].
    right. by exists mean_values, bin_limits.
  - injection Hrun as <-. exists esq. split; [|split; [done|]].
    + destruct t as [nr cols]. unfold replace_column. simpl in *. f_equal.
      by rewrite insert_id.
    + intros j x r I Hx _ _. exists x. by split; [|left].
Qed.

Lemma sentinel_resolution_lookup (ds : list float) (j : nat) (dj : float) :
  ds !! j = Some dj ->
  resolution_of_d (set_selected_value ds (map (fun x => (x =? 0.0)%float) ds) 1.0%float) !! j
  = Some (sentinel_resolution dj).
Proof.
  intros H. unfold resolution_of_d. rewrite list_lookup_map.
  erewrite set_selected_value_lookup; [|done|by rewrite list_lookup_map, H].
  done.
Qed.

(** The shape of a successful full-table pass. *)
Lemma normalise_full_table_run cs cm am t t' ds ints hs :
  normalise_full_table cs cm am t = OK t' ->
  table_wf t ->
  columns t !! "d" = Some (flex_double ds) ->
  columns t !! "intensity" = Some (flex_double ints) ->
  columns t !! "miller_index" = Some (flex_miller_index hs) ->
  let d0_sel := map (fun x => (x =? 0.0)%float) ds in
  let cflags := map (is_centric cs) hs in
  exists esq : list float,
    length esq = nrows t
    /\ nrows t' = nrows t
    /\ columns t'
       = <["Esq" := flex_double (set_selected_value esq d0_sel 0.0%float)]>
         (<["d" := flex_double
                     (set_selected_value (set_selected_value ds d0_sel 1.0%float)
                        d0_sel 0.0%float)]>
         (delete "resolution" (delete "centric_flag"
            (delete "intensity_for_norm" (columns t)))))
    /\ forall (j : nat) (dj I : float),
         ds !! j = Some dj -> ints !! j = Some I ->
         exists x, esq !! j = Some x
           /\ (x = 0.0%float
               \/ class_hit cm cflags j (sentinel_resolution dj) I x
               \/ class_hit am (flex_not cflags) j (sentinel_resolution dj) I x).
Proof.
  intros Hrun Hwf Hd Hints Hhs d0_sel cflags.
  pose proof (table_wf_column _ _ _ Hwf Hd) as Ld.
  pose proof (table_wf_column _ _ _ Hwf Hints) as Lints.
  pose proof (table_wf_column _ _ _ Hwf Hhs) as Lhs. simpl in Ld, Lints, Lhs.
  unfold normalise_full_table in Hrun.
  rewrite (get_miller_index_ok _ _ _ Hhs) in Hrun. cbn [bind] in Hrun.
  rewrite setitem_ok in Hrun by (simpl; apply length_replicate). cbn [bind] in Hrun.
  unfold centric_flags in Hrun. cbn [set_crystal_symmetry set_indices] in Hrun.
  fold cflags in Hrun.
  rewrite setitem_ok in Hrun by (simpl; unfold cflags; rewrite length_map; done).
  cbn [bind nrows columns] in Hrun.
  erewrite !get_double_ok in Hrun by (simpl; by simplify_map_eq).
  cbn [bind] in Hrun. fold d0_sel in Hrun.
  unfold replace_column at 1 2 in Hrun. cbn [nrows columns] in Hrun.
  erewrite get_double_ok in Hrun by (simpl; by simplify_map_eq).
  cbn [bind] in Hrun.
  set (d1 := set_selected_value ds d0_sel 1.0%float) in *.
  assert (Ld1 : length d1 = nrows t)
    by (unfold d1; by rewrite set_selected_value_length).
  rewrite setitem_ok in Hrun
    by (simpl; unfold resolution_of_d; rewrite length_map; done).
  cbn [bind nrows columns] in Hrun.
  apply bind_ok_inv in Hrun as (t5 & Hcentric & Hrun).
  apply bind_ok_inv in Hrun as (t6 & Hacentric & Hrun).
  set (t4 := {| nrows := nrows t; columns := _ |}) in Hcentric.
  assert (Hres4 : columns t4 !! "resolution" = Some (flex_double (resolution_of_d d1)))
    by (simpl; by simplify_map_eq).
  assert (Hints4 : columns t4 !! "intensity" = Some (flex_double ints))
    by (simpl; by simplify_map_eq).
  assert (Hesq4 : columns t4 !! "Esq"
                  = Some (flex_double (replicate (nrows t) 0.0%float)))
    by (simpl; by simplify_map_eq).
  assert (Hcf4 : columns t4 !! "centric_flag" = Some (flex_bool cflags))
    by (simpl; by simplify_map_eq).
  assert (Lres : length (resolution_of_d d1) = nrows t)
    by (unfold resolution_of_d; by rewrite length_map).
  assert (Lcf : length cflags = nrows t) by (unfold cflags; by rewrite length_map).
  (* the centric loop *)
  assert (Hcentric' :
    match cm with
    | None => OK t4
    | Some (mv, bl) => normalise_class cflags bl mv t4
    end = OK t5).
  { destruct cm as [[mv bl]|]; [|done].
    by rewrite (get_bool_ok _ _ _ Hcf4) in Hcentric. }
  destruct (class_loop_run _ _ _ _ _ _ _ Hcentric' Hres4 Hints4 Hesq4)
    as (esq5 & -> & Lesq5 & Hrow5); rewrite ?length_replicate; try congruence.
  (* the acentric loop *)
  set (t5 := replace_column t4 "Esq" (flex_double esq5)) in *.
  assert (Hacentric' :
    match am with
    | None => OK t5
    | Some (mv, bl) => normalise_class (flex_not cflags) bl mv t5
    end = OK t6).
  { destruct am as [[mv bl]|]; [|done].
    rewrite (get_bool_ok t5 "centric_flag" cflags) in Hacentric; [done|].
    unfold t5. simpl. by simplify_map_eq. }
  rewrite length_replicate in Lesq5.
  destruct (class_loop_run _ _ _ _ (resolution_of_d d1) ints esq5 Hacentric')
    as (esq6 & -> & Lesq6 & Hrow6);
    try (unfold t5; simpl; by simplify_map_eq);
    try (unfold flex_not; rewrite ?length_map; congruence).
  (* the tidy-up *)
  clear Hcentric Hacentric Hcentric' Hacentric'.
  unfold delitem, replace_column, t5, t4 in Hrun. cbn [nrows columns] in Hrun.
  erewrite get_double_ok in Hrun by (simpl; by simplify_map_eq).
  cbn [bind nrows columns] in Hrun.
  erewrite get_double_ok in Hrun by (simpl; by simplify_map_eq).
  cbn [bind nrows columns] in Hrun.
  injection Hrun as <-.
  exists esq6. split; [congruence|]. split; [done|]. split.
  - cbn [columns]. apply map_eq. intros k.
    destruct (decide (k = "Esq")) as [->|]; [by simplify_map_eq|].
    destruct (decide (k = "d")) as [->|]; [by simplify_map_eq|].
    destruct (decide (k = "resolution")) as [->|]; [by simplify_map_eq|].
    destruct (decide (k = "centric_flag")) as [->|]; [by simplify_map_eq|].
    destruct (decide (k = "intensity_for_norm")) as [->|]; [by simplify_map_eq|].
    by simplify_map_eq.
  - intros j dj I Hdj HI.
    pose proof (sentinel_resolution_lookup ds j dj Hdj) as Hr. fold d0_sel d1 in Hr.
    assert (Hz : replicate (nrows t) 0.0%float !! j = Some 0.0%float).
    { apply lookup_replicate_2. apply lookup_lt_Some in Hdj. lia. }
    destruct (Hrow5 j _ _ _ Hz Hr HI) as (x5 & Hx5 & H5).
    destruct (Hrow6 j _ _ _ Hx5 Hr HI) as (x6 & Hx6 & H6).
    exists x6. split; [done|].
    destruct H6 as [->|H6]; [|by right; right].
    destruct H5 as [->|H5]; [by left|by right; left].
Qed.
(** ** The shell that a row is assigned to *)

Lemma in_shell_limits bin_limits i r (lower upper : float) :
  bin_limits !! i = Some lower -> bin_limits !! (i + 1) = Some upper ->
  in_shell bin_limits i r = (lower <? r)%float && (r <=? upper)%float.
Proof. intros H1 H2. unfold in_shell. by rewrite H1, H2. Qed.

Lemma in_shell_lt bin_limits i r :
  in_shell bin_limits i r = true -> i + 1 < length bin_limits.
Proof.
  unfold in_shell. destruct (bin_limits !! i); [|done].
  destruct (bin_limits !! (i + 1)) eqn:H; [|done]. intros _.
  by apply lookup_lt_Some in H.
Qed.

(** One turn of the loop writes the intensity over the mean of shell [i]
    at the rows of the class that pass the test of the shell, and at no
    other row. *)
Lemma normalise_shell_exact sel1 bin_limits mean_values i t t' res ints esq :
  normalise_shell sel1 bin_limits mean_values i t = OK t' ->
  columns t !! "resolution" = Some (flex_double res) ->
  columns t !! "intensity" = Some (flex_double ints) ->
  columns t !! "Esq" = Some (flex_double esq) ->
  length sel1 = length esq -> length res = length esq -> length ints = length esq ->
  exists (esq' : list float) (m : float),
    t' = replace_column t "Esq" (flex_double esq')
    /\ length esq' = length esq
    /\ mean_values !! i = Some (Some m)
    /\ forall (j : nat) (x r I : float) (b : bool),
         esq !! j = Some x -> res !! j = Some r -> ints !! j = Some I ->
         sel1 !! j = Some b ->
         esq' !! j = Some (if b && in_shell bin_limits i r then (I / m)%float else x).
Proof.
  intros Hrun Hres Hints Hesq Lsel Lres Lints. unfold normalise_shell in Hrun.
  apply get_double_ok in Hres, Hints, Hesq.
  rewrite Hres in Hrun. cbn [bind] in Hrun.
  apply bind_ok_inv in Hrun as (lower & Hlower & Hrun).
  apply bind_ok_inv in Hrun as (upper & Hupper & Hrun).
  rewrite Hints in Hrun. cbn [bind] in Hrun.
  rewrite Hesq in Hrun. cbn [bind] in Hrun.
  apply bind_ok_inv in Hrun as (m & Hm & Hrun).
  destruct m as [m|]; [|done].
  apply bind_ok_inv in Hrun as (esq' & Hset & Hrun).
  injection Hrun as <-.
  unfold list_index in Hlower, Hupper, Hm.
  destruct (bin_limits !! i) eqn:F1; [|done].
  destruct (bin_limits !! (i + 1)) eqn:F2; [|done].
  destruct (mean_values !! i) eqn:F3; [|done].
  injection Hlower as ->. injection Hupper as ->. injection Hm as ->.
  set (sel := flex_and (flex_and sel1 (map (fun r => (lower <? r)%float) res))
                (map (fun r => (r <=? upper)%float) res)) in *.
  assert (Lsel' : length sel = length esq).
  { unfold sel. rewrite !flex_and_length; rewrite ?length_map; try congruence.
    rewrite flex_and_length; rewrite ?length_map; congruence. }
  destruct (set_selected_select_lookup (fun x => (x / m)%float) esq ints sel
              ltac:(congruence) ltac:(congruence)) as (zs & Hzs & Lzs & Hlook).
  rewrite Hzs in Hset. injection Hset as <-.
  exists zs, m. split; [done|]. split; [done|]. split; [done|].
  intros j x r I b Hx Hr HI Hb.
  assert (Hsel : sel !! j = Some (b && (lower <? r)%float && (r <=? upper)%float)).
  { unfold sel. apply flex_and_lookup; [apply flex_and_lookup; [done|]|];
      by rewrite list_lookup_map, Hr. }
  rewrite (Hlook j x I _ Hx HI Hsel).
  by rewrite (in_shell_limits _ _ _ _ _ F1 F2), andb_assoc.
Qed.

(** The loop over the shells [start], ..., [start + n - 1]: a row outside
    the class, or in none of these shells, keeps its value; a row of the
    class gets its intensity over the mean of the last of these shells that
    holds its resolution. *)
Lemma normalise_class_exact sel1 bin_limits mean_values n :
  forall start t t' res ints esq,
  for_range (normalise_shell sel1 bin_limits mean_values) start n t = OK t' ->
  columns t !! "resolution" = Some (flex_double res) ->
  columns t !! "intensity" = Some (flex_double ints) ->
  columns t !! "Esq" = Some (flex_double esq) ->
  length sel1 = length esq -> length res = length esq -> length ints = length esq ->
  exists esq' : list float,
    t' = replace_column t "Esq" (flex_double esq')
    /\ length esq' = length esq
    /\ forall (j : nat) (x r I : float) (b : bool),
         esq !! j = Some x -> res !! j = Some r -> ints !! j = Some I ->
         sel1 !! j = Some b ->
         ((b = false
           \/ forall i, start <= i < start + n -> in_shell bin_limits i r = false) ->
          esq' !! j = Some x)
         /\ forall i, b = true -> start <= i < start + n ->
              in_shell bin_limits i r = true ->
              (forall i', i < i' < start + n -> in_shell bin_limits i' r = false) ->
              exists m, mean_values !! i = Some (Some m) /\ esq' !! j = Some (I / m)%float.
Proof.
  induction n as [|n IH]; intros start t t' res ints esq Hrun Hres Hints Hesq L1 L2 L3.
  - simpl in Hrun. injection Hrun as <-. exists esq. split; [|split; [done|]].
    + destruct t as [nr cols]. unfold replace_column. simpl in *. f_equal.
      by rewrite insert_id.
    + intros j x r I b Hx _ _ _. split; [done|]. intros i _ Hi. lia.
  - simpl in Hrun. apply bind_ok_inv in Hrun as (t1 & Hstep & Hrun).
    destruct (normalise_shell_exact _ _ _ _ _ _ _ _ _ Hstep Hres Hints Hesq L1 L2 L3)
      as (esq1 & m0 & -> & Lesq1 & Hm0 & Hrow1).
    destruct (IH _ _ _ res ints esq1 Hrun) as (esq' & -> & Lesq' & Hrow');
      [by simpl; simplify_map_eq..|congruence|congruence|congruence|].
    exists esq'. split; [|split; [congruence|]].
    + unfold replace_column. simpl. f_equal. by rewrite insert_insert_eq.
    + intros j x r I b Hx Hr HI Hb.
      pose proof (Hrow1 j x r I b Hx Hr HI Hb) as Hx1.
      split.
      * intros Hout.
        assert (E : b && in_shell bin_limits start r = false).
        { destruct Hout as [->|Hout]; [done|].
          rewrite (Hout start) by lia. apply andb_false_r. }
        rewrite E in Hx1.
        apply (proj1 (Hrow' j x r I b Hx1 Hr HI Hb)).
        destruct Hout as [->|Hout]; [by left|right].
        intros i Hi. apply Hout. lia.
      * intros i -> Hi Hin Hlater.
        destruct (decide (i = start)) as [->|Hne].
        -- rewrite Hin in Hx1. cbn [andb] in Hx1.
           exists m0. split; [done|].
           apply (proj1 (Hrow' j _ r I true Hx1 Hr HI Hb)).
           right. intros i' Hi'. apply Hlater. lia.
        -- apply (proj2 (Hrow' j _ r I true Hx1 Hr HI Hb) i eq_refl); [lia|done|].
           intros i' Hi'. apply Hlater. lia.
Qed.

Lemma class_loop_exact class_means sel1 t t' res ints esq :
  match class_means with
  | None => OK t
  | Some (mean_values, bin_limits) => normalise_class sel1 bin_limits mean_values t
  end = OK t' ->
  columns t !! "resolution" = Some (flex_double res) ->
  columns t !! "intensity" = Some (flex_double ints) ->
  columns t !! "Esq" = Some (flex_double esq) ->
  length sel1 = length esq -> length res = length esq -> length ints = length esq ->
  exists esq' : list float,
    t' = replace_column t "Esq" (flex_double esq')
    /\ length esq' = length esq
    /\ forall (j : nat) (x r I : float) (b : bool),
         esq !! j = Some x -> res !! j = Some r -> ints !! j = Some I ->
         sel1 !! j = Some b ->
         (b = false -> esq' !! j = Some x)
         /\ forall mean_values bin_limits i,
              b = true -> class_means = Some (mean_values, bin_limits) ->
              in_shell bin_limits i r = true ->
              (forall i', i < i' -> in_shell bin_limits i' r = false) ->
              exists m, mean_values !! i = Some (Some m) /\ esq' !! j = Some (I / m)%float.
Proof.
  intros Hrun Hres Hints Hesq L1 L2 L3.
  destruct class_means as [[mean_values bin_limits]|].
  - destruct (normalise_class_exact _ _ _ _ _ _ _ _ _ _ Hrun Hres Hints Hesq L1 L2 L3)
      as (esq' & -> & Lesq' & Hrow).
    exists esq'. split; [done|]. split; [done|].
    intros j x r I b Hx Hr HI Hb. destruct (Hrow j x r I b Hx Hr HI Hb) as [Hkeep Hset].
    split; [intros ->; apply Hkeep; by left|].
    intros mv bl i -> [= <- <-] Hin Hlater.
    apply (Hset i eq_refl); [|done|intros i' Hi'; apply Hlater; lia].
    apply in_shell_lt in Hin. lia.
  - injection Hrun as <-. exists esq. split; [|split; [done|]].
    + destruct t as [nr cols]. unfold replace_column. simpl in *. f_equal.
      by rewrite insert_id.
    + intros j x r I b Hx _ _ _. split; [done|]. intros mv bl i _ H. discriminate H.
Qed.

(** The full-table pass gives a row with [d != 0] its intensity over the
    mean of the last shell of its own class that holds its resolution. *)
Lemma normalise_full_table_assigns cs cm am t t' ds ints hs :
  normalise_full_table cs cm am t = OK t' ->
  table_wf t ->
  columns t !! "d" = Some (flex_double ds) ->
  columns t !! "intensity" = Some (flex_double ints) ->
  columns t !! "miller_index" = Some (flex_miller_index hs) ->
  exists esq' : list float,
    columns t' !! "Esq" = Some (flex_double esq')
    /\ forall (j : nat) (hj : miller_index) (dj I : float) mean_values bin_limits (i : nat),
         hs !! j = Some hj -> ds !! j = Some dj -> ints !! j = Some I ->
         (dj =? 0.0)%float = false ->
         (if is_centric cs hj then cm else am) = Some (mean_values, bin_limits) ->
         in_shell bin_limits i (sentinel_resolution dj) = true ->
         (forall i', i < i' -> in_shell bin_limits i' (sentinel_resolution dj) = false) ->
         exists m, mean_values !! i = Some (Some m) /\ esq' !! j = Some (I / m)%float.
Proof.
  intros Hrun Hwf Hd Hints Hhs.
  set (d0_sel := map (fun x => (x =? 0.0)%float) ds).
  set (cflags := map (is_centric cs) hs).
  pose proof (table_wf_column _ _ _ Hwf Hd) as Ld.
  pose proof (table_wf_column _ _ _ Hwf Hints) as Lints.
  pose proof (table_wf_column _ _ _ Hwf Hhs) as Lhs. simpl in Ld, Lints, Lhs.
  unfold normalise_full_table in Hrun.
  rewrite (get_miller_index_ok _ _ _ Hhs) in Hrun. cbn [bind] in Hrun.
  rewrite setitem_ok in Hrun by (simpl; apply length_replicate). cbn [bind] in Hrun.
  unfold centric_flags in Hrun. cbn [set_crystal_symmetry set_indices] in Hrun.
  fold cflags in Hrun.
  rewrite setitem_ok in Hrun by (simpl; unfold cflags; rewrite length_map; done).
  cbn [bind nrows columns] in Hrun.
  erewrite !get_double_ok in Hrun by (simpl; by simplify_map_eq).
  cbn [bind] in Hrun. fold d0_sel in Hrun.
  unfold replace_column at 1 2 in Hrun. cbn [nrows columns] in Hrun.
  erewrite get_double_ok in Hrun by (simpl; by simplify_map_eq).
  cbn [bind] in Hrun.
  set (d1 := set_selected_value ds d0_sel 1.0%float) in *.
  assert (Ld1 : length d1 = nrows t)
    by (unfold d1; by rewrite set_selected_value_length).
  rewrite setitem_ok in Hrun
    by (simpl; unfold resolution_of_d; rewrite length_map; done).
  cbn [bind nrows columns] in Hrun.
  apply bind_ok_inv in Hrun as (t5 & Hcentric & Hrun).
  apply bind_ok_inv in Hrun as (t6 & Hacentric & Hrun).
  set (t4 := {| nrows := nrows t; columns := _ |}) in Hcentric.
  assert (Hres4 : columns t4 !! "resolution" = Some (flex_double (resolution_of_d d1)))
    by (simpl; by simplify_map_eq).
  assert (Hints4 : columns t4 !! "intensity" = Some (flex_double ints))
    by (simpl; by simplify_map_eq).
  assert (Hesq4 : columns t4 !! "Esq"
                  = Some (flex_double (replicate (nrows t) 0.0%float)))
    by (simpl; by simplify_map_eq).
  assert (Hcf4 : columns t4 !! "centric_flag" = Some (flex_bool cflags))
    by (simpl; by simplify_map_eq).
  assert (Lres : length (resolution_of_d d1) = nrows t)
    by (unfold resolution_of_d; by rewrite length_map).
  assert (Lcf : length cflags = nrows t) by (unfold cflags; by rewrite length_map).
  assert (Hcentric' :
    match cm with
    | None => OK t4
    | Some (mv, bl) => normalise_class cflags bl mv t4
    end = OK t5).
  { destruct cm as [[mv bl]|]; [|done].
    by rewrite (get_bool_ok _ _ _ Hcf4) in Hcentric. }
  destruct (class_loop_exact _ _ _ _ _ _ _ Hcentric' Hres4 Hints4 Hesq4)
    as (esq5 & -> & Lesq5 & Hrow5); rewrite ?length_replicate; try congruence.
  set (t5 := replace_column t4 "Esq" (flex_double esq5)) in *.
  assert (Hacentric' :
    match am with
    | None => OK t5
    | Some (mv, bl) => normalise_class (flex_not cflags) bl mv t5
    end = OK t6).
  { destruct am as [[mv bl]|]; [|done].
    rewrite (get_bool_ok t5 "centric_flag" cflags) in Hacentric; [done|].
    unfold t5. simpl. by simplify_map_eq. }
  rewrite length_replicate in Lesq5.
  destruct (class_loop_exact _ _ _ _ (resolution_of_d d1) ints esq5 Hacentric')
    as (esq6 & -> & Lesq6 & Hrow6);
    try (unfold t5; simpl; by simplify_map_eq);
    try (unfold flex_not; rewrite ?length_map; congruence).
  clear Hcentric Hacentric Hcentric' Hacentric'.
  unfold delitem, replace_column, t5, t4 in Hrun. cbn [nrows columns] in Hrun.
  erewrite get_double_ok in Hrun by (simpl; by simplify_map_eq).
  cbn [bind nrows columns] in Hrun.
  erewrite get_double_ok in Hrun by (simpl; by simplify_map_eq).
  cbn [bind nrows columns] in Hrun.
  injection Hrun as <-.
  eexists. split; [cbn [columns]; apply lookup_insert_eq|].
  intros j hj dj I mv bl i Hhj Hdj HI Hd0 Hown Hin Hlater.
  pose proof (sentinel_resolution_lookup ds j dj Hdj) as Hr. fold d0_sel d1 in Hr.
  assert (Hz : replicate (nrows t) 0.0%float !! j = Some 0.0%float).
  { apply lookup_replicate_2. apply lookup_lt_Some in Hdj. lia. }
  assert (Hc : cflags !! j = Some (is_centric cs hj))
    by (unfold cflags; by rewrite list_lookup_map, Hhj).
  assert (Hnc : flex_not cflags !! j = Some (negb (is_centric cs hj)))
    by (unfold flex_not; by rewrite list_lookup_map, Hc).
  assert (Hsel : d0_sel !! j = Some false)
    by (unfold d0_sel; by rewrite list_lookup_map, Hdj; simpl; rewrite Hd0).
  destruct (Hrow5 j _ _ _ _ Hz Hr HI Hc) as [Hkeep5 Hset5].
  destruct (is_centric cs hj) eqn:Ec.
  - destruct (Hset5 mv bl i eq_refl Hown Hin Hlater) as (m & Hm & Hx5).
    destruct (Hrow6 j _ _ _ _ Hx5 Hr HI Hnc) as [Hkeep6 _].
    exists m. split; [done|].
    by rewrite (set_selected_value_lookup _ _ 0.0%float _ _ _ (Hkeep6 eq_refl) Hsel).
  - pose proof (Hkeep5 eq_refl) as Hx5.
    destruct (Hrow6 j _ _ _ _ Hx5 Hr HI Hnc) as [_ Hset6].
    destruct (Hset6 mv bl i eq_refl Hown Hin Hlater) as (m & Hm & Hx6).
    exists m. split; [done|].
    by rewrite (set_selected_value_lookup _ _ 0.0%float _ _ _ Hx6 Hsel).
Qed.

(** ** The full-table pass returns when every shell has a mean *)

Lemma normalise_shell_returns sel1 bin_limits mean_values i t res ints esq m :
  columns t !! "resolution" = Some (flex_double res) ->
  columns t !! "intensity" = Some (flex_double ints) ->
  columns t !! "Esq" = Some (flex_double esq) ->
  length sel1 = length esq -> length res = length esq -> length ints = length esq ->
  i + 1 < length bin_limits ->
  mean_values !! i = Some (Some m) ->
  exists t', normalise_shell sel1 bin_limits mean_values i t = OK t'.
Proof.
  intros Hres Hints Hesq L1 L2 L3 Hi Hm. unfold normalise_shell.
  rewrite (get_double_ok _ _ _ Hres), (get_double_ok _ _ _ Hints),
    (get_double_ok _ _ _ Hesq). cbn [bind]. unfold list_index.
  destruct (lookup_lt_is_Some_2 bin_limits i ltac:(lia)) as [lower ->].
  destruct (lookup_lt_is_Some_2 bin_limits (i + 1) ltac:(lia)) as [upper ->].
  cbn [bind]. rewrite Hm. cbn [bind].
  set (sel := flex_and (flex_and sel1 (map (fun r => (lower <? r)%float) res))
                (map (fun r => (r <=? upper)%float) res)).
  assert (Lsel : length sel = length esq).
  { unfold sel. rewrite !flex_and_length; rewrite ?length_map; try congruence.
    rewrite flex_and_length; rewrite ?length_map; congruence. }
  destruct (set_selected_select_lookup (fun x => (x / m)%float) esq ints sel
              ltac:(congruence) ltac:(congruence)) as (zs & -> & _).
  cbn [bind]. by eexists.
Qed.

Lemma normalise_class_returns sel1 bin_limits mean_values n :
  forall start t res ints esq,
  columns t !! "resolution" = Some (flex_double res) ->
  columns t !! "intensity" = Some (flex_double ints) ->
  columns t !! "Esq" = Some (flex_double esq) ->
  length sel1 = length esq -> length res = length esq -> length ints = length esq ->
  start + n + 1 <= length bin_limits ->
  (forall i, i + 1 < length bin_limits -> exists m : float, mean_values !! i = Some (Some m)) ->
  exists t', for_range (normalise_shell sel1 bin_limits mean_values) start n t = OK t'.
Proof.
  induction n as [|n IH]; intros start t res ints esq Hres Hints Hesq L1 L2 L3 Hn Hm.
  - by eexists.
  - destruct (Hm start ltac:(lia)) as [m Hmi].
    destruct (normalise_shell_returns sel1 bin_limits mean_values start t res ints esq m
                Hres Hints Hesq L1 L2 L3 ltac:(lia) Hmi) as [t1 Hstep].
    simpl. rewrite Hstep. cbn [bind].
    destruct (normalise_shell_run _ _ _ _ _ _ _ _ _ Hstep Hres Hints Hesq L1 L2 L3)
      as (esq1 & -> & Lesq1 & _).
    apply (IH (S start) _ res ints esq1);
      try (by simpl; simplify_map_eq); try congruence; try lia; done.
Qed.

Lemma class_loop_returns class_means sel1 t res ints esq :
  columns t !! "resolution" = Some (flex_double res) ->
  columns t !! "intensity" = Some (flex_double ints) ->
  columns t !! "Esq" = Some (flex_double esq) ->
  length sel1 = length esq -> length res = length esq -> length ints = length esq ->
  class_means_complete class_means ->
  exists t',
    match class_means with
    | None => OK t
    | Some (mean_values, bin_limits) => normalise_class sel1 bin_limits mean_values t
    end = OK t'.
Proof.
  intros Hres Hints Hesq L1 L2 L3 Hc.
  destruct class_means as [[mv bl]|]; [|by eexists].
  unfold normalise_class.
  destruct (decide (length bl = 0)) as [->|Hlen]; [by eexists|].
  apply (normalise_class_returns _ _ _ _ 0 t res ints esq); try done; [lia|].
  intros i Hi. by apply (Hc mv bl i).
Qed.

Lemma normalise_full_table_returns cs cm am t ds ints hs :
  table_wf t ->
  columns t !! "d" = Some (flex_double ds) ->
  columns t !! "intensity" = Some (flex_double ints) ->
  columns t !! "miller_index" = Some (flex_miller_index hs) ->
  class_means_complete cm -> class_means_complete am ->
  exists t', normalise_full_table cs cm am t = OK t'.
Proof.
  intros Hwf Hd Hints Hhs Hcm Ham.
  pose proof (table_wf_column _ _ _ Hwf Hd) as Ld.
  pose proof (table_wf_column _ _ _ Hwf Hints) as Lints.
  pose proof (table_wf_column _ _ _ Hwf Hhs) as Lhs. simpl in Ld, Lints, Lhs.
  unfold normalise_full_table.
  rewrite (get_miller_index_ok _ _ _ Hhs). cbn [bind].
  rewrite setitem_ok by (simpl; apply length_replicate). cbn [bind].
  unfold centric_flags. cbn [set_crystal_symmetry set_indices].
  set (cflags := map (is_centric cs) hs).
  rewrite setitem_ok by (simpl; unfold cflags; rewrite length_map; done).
  cbn [bind nrows columns].
  erewrite !get_double_ok by (simpl; by simplify_map_eq).
  cbn [bind]. set (d0_sel := map (fun x => (x =? 0.0)%float) ds).
  unfold replace_column. cbn [nrows columns].
  erewrite get_double_ok by (simpl; by simplify_map_eq).
  cbn [bind].
  set (d1 := set_selected_value ds d0_sel 1.0%float).
  assert (Ld1 : length d1 = nrows t)
    by (unfold d1; by rewrite set_selected_value_length).
  rewrite setitem_ok by (simpl; unfold resolution_of_d; rewrite length_map; done).
  cbn [bind nrows columns].
  set (t4 := {| nrows := nrows t; columns := _ |}).
  assert (Hres4 : columns t4 !! "resolution" = Some (flex_double (resolution_of_d d1)))
    by (simpl; by simplify_map_eq).
  assert (Hints4 : columns t4 !! "intensity" = Some (flex_double ints))
    by (simpl; by simplify_map_eq).
  assert (Hesq4 : columns t4 !! "Esq"
                  = Some (flex_double (replicate (nrows t) 0.0%float)))
    by (simpl; by simplify_map_eq).
  assert (Hcf4 : columns t4 !! "centric_flag" = Some (flex_bool cflags))
    by (simpl; by simplify_map_eq).
  assert (Lres : length (resolution_of_d d1) = nrows t)
    by (unfold resolution_of_d; by rewrite length_map).
  assert (Lcf : length cflags = nrows t) by (unfold cflags; by rewrite length_map).
  pose proof (length_replicate (nrows t) 0.0%float) as Lz.
  destruct (class_loop_returns cm cflags t4 _ _ _ Hres4 Hints4 Hesq4
              ltac:(congruence) ltac:(congruence) ltac:(congruence) Hcm) as [t5 Hcentric].
  assert (Hcentric' :
    match cm with
    | None => OK t4
    | Some (mean_centric_values, centric_bin_limits) =>
        sel1 <- get_bool t4 "centric_flag" ;;
        normalise_class sel1 centric_bin_limits mean_centric_values t4
    end = OK t5).
  { destruct cm as [[mv bl]|]; [|done]. by rewrite (get_bool_ok _ _ _ Hcf4). }
  rewrite Hcentric'. cbn [bind].
  destruct (class_loop_run _ _ _ _ _ _ _ Hcentric Hres4 Hints4 Hesq4
              ltac:(congruence) ltac:(congruence) ltac:(congruence))
    as (esq5 & -> & Lesq5 & _).
  rewrite Lz in Lesq5.
  set (t5 := replace_column t4 "Esq" (flex_double esq5)) in *.
  assert (Hres5 : columns t5 !! "resolution" = Some (flex_double (resolution_of_d d1)))
    by (unfold t5; simpl; by simplify_map_eq).
  assert (Hints5 : columns t5 !! "intensity" = Some (flex_double ints))
    by (unfold t5; simpl; by simplify_map_eq).
  assert (Hesq5 : columns t5 !! "Esq" = Some (flex_double esq5))
    by (unfold t5; simpl; by simplify_map_eq).
  assert (Lnot : length (flex_not cflags) = length esq5)
    by (unfold flex_not; rewrite length_map; congruence).
  destruct (class_loop_returns am (flex_not cflags) t5 _ _ _ Hres5 Hints5 Hesq5
              Lnot ltac:(congruence) ltac:(congruence) Ham) as [t6 Hacentric].
  assert (Hacentric' :
    match am with
    | None => OK t5
    | Some (mean_acentric_values, acentric_bin_limits) =>
        centric_flag <- get_bool t5 "centric_flag" ;;
        normalise_class (flex_not centric_flag)
          acentric_bin_limits mean_acentric_values t5
    end = OK t6).
  { destruct am as [[mv bl]|]; [|done].
    rewrite (get_bool_ok t5 "centric_flag" cflags); [done|].
    unfold t5. simpl. by simplify_map_eq. }
  rewrite Hacentric'. cbn [bind].
  destruct (class_loop_run _ _ _ _ _ _ _ Hacentric Hres5 Hints5 Hesq5
              Lnot ltac:(congruence) ltac:(congruence))
    as (esq6 & -> & Lesq6 & _).
  unfold delitem, replace_column, t5, t4. cbn [nrows columns].
  erewrite get_double_ok by (simpl; by simplify_map_eq).
  cbn [bind nrows columns].
  erewrite get_double_ok by (simpl; by simplify_map_eq).
  cbn [bind]. by eexists.
Qed.

(** ** Results about the statistics subset and the branch taken *)

Lemma statistics_subset_run t e fl hs ds ints :
  table_wf t ->
  columns t !! "flags" = Some (flex_size_t fl) ->
  columns t !! "miller_index" = Some (flex_miller_index hs) ->
  columns t !! "d" = Some (flex_double ds) ->
  columns t !! "intensity" = Some (flex_double ints) ->
  let sel := scaling_subset_sel fl in
  let cflags := map (is_centric (crystal_symmetry_of e)) (select hs sel) in
  exists rt ma,
    statistics_subset t e
    = OK (rt, ma, count_true cflags, (Z.of_nat (count_flags sel) - count_true cflags)%Z)
    /\ nrows rt = count_flags sel
    /\ columns rt !! "resolution" = Some (flex_double (resolution_of_d (select ds sel)))
    /\ array_set ma = {| set_crystal_symmetry := crystal_symmetry_of e;
                         set_indices := select hs sel |}.
Proof.
  intros Hwf Hfl Hhs Hd Hints sel cflags.
  pose proof (table_wf_column _ _ _ Hwf Hfl) as Lfl.
  pose proof (table_wf_column _ _ _ Hwf Hhs) as Lhs.
  pose proof (table_wf_column _ _ _ Hwf Hd) as Ld.
  pose proof (table_wf_column _ _ _ Hwf Hints) as Lints. simpl in Lfl, Lhs, Ld, Lints.
  assert (Lsel : length sel = nrows t).
  { unfold sel, scaling_subset_sel, flex_not. by rewrite !length_map. }
  unfold statistics_subset, get_flags_any.
  rewrite (get_size_t_ok _ _ _ Hfl). cbn [bind].
  fold (scaling_subset_sel fl). fold sel.
  unfold table_select. rewrite decide_True by done. cbn [bind].
  set (rt0 := {| nrows := count_flags sel; columns := _ |}).
  assert (Hhs0 : columns rt0 !! "miller_index" = Some (flex_miller_index (select hs sel)))
    by (simpl; by rewrite lookup_fmap, Hhs).
  assert (Hd0 : columns rt0 !! "d" = Some (flex_double (select ds sel)))
    by (simpl; by rewrite lookup_fmap, Hd).
  assert (Hints0 : columns rt0 !! "intensity" = Some (flex_double (select ints sel)))
    by (simpl; by rewrite lookup_fmap, Hints).
  rewrite (get_miller_index_ok _ _ _ Hhs0). cbn [bind].
  rewrite (get_double_ok _ _ _ Hd0). cbn [bind].
  rewrite setitem_ok
    by (simpl; unfold resolution_of_d; rewrite length_map, select_length; congruence).
  cbn [bind nrows columns].
  erewrite get_double_ok by (simpl; by simplify_map_eq). cbn [bind].
  rewrite setitem_ok
    by (simpl; unfold copy_deepcopy; rewrite length_map, select_length; congruence).
  cbn [bind nrows columns].
  erewrite get_double_ok by (simpl; by simplify_map_eq). cbn [bind].
  erewrite get_double_ok by (simpl; by simplify_map_eq). cbn [bind].
  unfold replace_column. cbn [nrows columns].
  erewrite get_double_ok by (simpl; by simplify_map_eq). cbn [bind].
  unfold centric_flags. cbn [array_set set_crystal_symmetry set_indices].
  fold cflags.
  rewrite setitem_ok
    by (simpl; unfold cflags; rewrite length_map, select_length; congruence).
  cbn [bind nrows columns].
  erewrite get_bool_ok by (simpl; by simplify_map_eq). cbn [bind].
  eexists _, _. split; [reflexivity|]. split; [done|]. split; [|done].
  simpl. by simplify_map_eq.
Qed.

Lemma insufficient_data_fallback_run t :
  insufficient_data_fallback t
  = OK {| nrows := nrows t;
          columns := delete "resolution" (delete "centric_flag" (delete "intensity_for_norm"
                       (<["Esq" := flex_double (replicate (nrows t) 1.0%float)]> (columns t)))) |}.
Proof.
  unfold insufficient_data_fallback.
  rewrite setitem_ok by (simpl; apply length_replicate). done.
Qed.

(** A successful run went through the statistics subset and then through
    exactly one of the two branches. *)
Lemma calc_normE2_inv t e t' log :
  calc_normE2 t e = OK (t', log) ->
  exists rt ma nc na,
    statistics_subset t e = OK (rt, ma, nc, na)
    /\ ((n_refl_shells na nc = None
         /\ insufficient_data_fallback t = OK t'
         /\ log = [Log_info Calculating_normalised_intensities;
                   Log_debug Negative_intensities_set_to_zero;
                   Log_info No_normalised_intensities_calculated])
        \/ (exists n cm am,
              n_refl_shells na nc = Some n
              /\ bin_averages rt ma nc na n = OK (cm, am)
              /\ normalise_full_table (set_crystal_symmetry (array_set ma)) cm am t = OK t'
              /\ log = [Log_info Calculating_normalised_intensities;
                        Log_debug Negative_intensities_set_to_zero;
                        Log_debug (Resolution_bins_used nc na n)])).
Proof.
  unfold calc_normE2. intros H.
  apply bind_ok_inv in H as ([[[rt ma] nc] na] & Hsub & H).
  exists rt, ma, nc, na. split; [done|].
  destruct (n_refl_shells na nc) as [n|].
  - right. apply bind_ok_inv in H as ([cm am] & Hbin & H).
    apply bind_ok_inv in H as (t1 & Hfull & H). injection H as <- <-.
    by exists n, cm, am.
  - left. apply bind_ok_inv in H as (t1 & Hfb & H). by injection H as <- <-.
Qed.

Lemma statistics_subset_symmetry t e rt ma nc na :
  statistics_subset t e = OK (rt, ma, nc, na) ->
  set_crystal_symmetry (array_set ma) = crystal_symmetry_of e.
Proof.
  unfold statistics_subset. intros H.
  repeat (apply bind_ok_inv in H as (? & _ & H)).
  by injection H as <- <- <- <-.
Qed.

Lemma n_refl_shells_cases (na nc : Z) :
  n_refl_shells na nc
  = if decide (20000 < na \/ 20000 < nc)%Z then Some 20%Z
    else if decide (15000 < na \/ 15000 < nc)%Z then Some 15%Z
    else if decide (na < 10000)%Z then None
    else Some 10%Z.
Proof.
  unfold n_refl_shells.
  destruct (Z.ltb_spec 20000 na), (Z.ltb_spec 20000 nc),
    (Z.ltb_spec 15000 na), (Z.ltb_spec 15000 nc), (Z.ltb_spec na 10000);
    repeat case_decide; simpl; try done; lia.
Qed.

(** With the required columns in place, [calc_normE2] returns whenever the
    binner does and gives every shell a mean. *)
Lemma calc_normE2_returns t e fl hs ds ints rt ma nc na :
  table_wf t ->
  columns t !! "flags" = Some (flex_size_t fl) ->
  columns t !! "miller_index" = Some (flex_miller_index hs) ->
  columns t !! "d" = Some (flex_double ds) ->
  columns t !! "intensity" = Some (flex_double ints) ->
  statistics_subset t e = OK (rt, ma, nc, na) ->
  (forall n, n_refl_shells na nc = Some n ->
     exists cm am, bin_averages rt ma nc na n = OK (cm, am)
                   /\ class_means_complete cm /\ class_means_complete am) ->
  exists t' log, calc_normE2 t e = OK (t', log).
Proof.
  intros Hwf Hfl Hhs Hd Hints Hsub Hbin. unfold calc_normE2.
  rewrite Hsub. cbn [bind].
  destruct (n_refl_shells na nc) as [n|].
  - destruct (Hbin n eq_refl) as (cm & am & -> & Hcm & Ham). cbn [bind].
    destruct (normalise_full_table_returns (set_crystal_symmetry (array_set ma))
                cm am t ds ints hs Hwf Hd Hints Hhs Hcm Ham) as [t' ->].
    cbn [bind]. by eexists _, _.
  - rewrite insufficient_data_fallback_run. cbn [bind]. by eexists _, _.
Qed.

(** ** Results about the outlier flags *)

Lemma flag_words_length t fl : table_wf t -> flag_words t fl -> length fl = nrows t.
Proof.
  intros Hwf [Hfl|[_ ->]]; [|apply length_replicate].
  exact (table_wf_column _ _ _ Hwf Hfl).
Qed.

Lemma set_flags_run t sel value fl :
  flag_words t fl ->
  length fl = nrows t -> length sel = nrows t ->
  set_flags t sel value
  = OK {| nrows := nrows t;
          columns := <["flags" := flex_size_t
                         (zip_with (fun f (b : bool) => if b then Z.lor f value else f) fl sel)]>
                       (columns t) |}.
Proof.
  intros [Hfl|[Hfl ->]] Lfl Lsel; unfold set_flags; rewrite Hfl.
  - rewrite (get_size_t_ok _ _ _ Hfl). cbn [bind].
    rewrite decide_True by done.
    apply setitem_ok. simpl. rewrite length_zip_with. lia.
  - cbn [bind]. rewrite decide_True by done.
    apply setitem_ok. simpl. rewrite length_zip_with. lia.
Qed.

Lemma set_wilson_outliers_run t cf esq fl :
  table_wf t ->
  columns t !! "centric_flag" = Some (flex_bool cf) ->
  columns t !! "Esq" = Some (flex_double esq) ->
  flag_words t fl ->
  exists log (fl' : list Z),
    set_wilson_outliers t
    = OK ({| nrows := nrows t;
             columns := <["flags" := flex_size_t fl']> (columns t) |}, log)
    /\ length fl' = length fl
    /\ forall (j : nat) (c : bool) (x : float) (f : Z),
         cf !! j = Some c -> esq !! j = Some x -> fl !! j = Some f ->
         fl' !! j = Some (if wilson_outlier c x then Z.lor f outlier_in_scaling else f).
Proof.
  intros Hwf Hcf Hesq Hfl.
  pose proof (table_wf_column _ _ _ Hwf Hcf) as Lcf.
  pose proof (table_wf_column _ _ _ Hwf Hesq) as Lesq.
  pose proof (flag_words_length _ _ Hwf Hfl) as Lfl. simpl in Lcf, Lesq.
  unfold set_wilson_outliers.
  rewrite (get_bool_ok _ _ _ Hcf), (get_double_ok _ _ _ Hesq). cbn [bind].
  set (sel_c := flex_and cf (map (fun x => (centric_cutoff <? x)%float) esq)).
  assert (Lsel_c : length sel_c = nrows t).
  { unfold sel_c. rewrite flex_and_length; rewrite ?length_map; congruence. }
  rewrite (set_flags_run _ _ _ fl Hfl Lfl Lsel_c). cbn [bind].
  set (fl1 := zip_with _ fl sel_c).
  assert (Lfl1 : length fl1 = nrows t) by (unfold fl1; rewrite length_zip_with; lia).
  erewrite get_bool_ok by (simpl; by simplify_map_eq). cbn [bind].
  erewrite get_double_ok by (simpl; by simplify_map_eq). cbn [bind].
  set (sel_a := flex_and (flex_not cf) (map (fun x => (acentric_cutoff <? x)%float) esq)).
  assert (Lsel_a : length sel_a = nrows t).
  { unfold sel_a, flex_not. rewrite flex_and_length; rewrite ?length_map; congruence. }
  erewrite (set_flags_run _ sel_a _ fl1); [|left; simpl; by simplify_map_eq|done|done].
  cbn [bind nrows columns].
  set (fl2 := zip_with _ fl1 sel_a).
  unfold get_flags_all.
  erewrite get_size_t_ok by (simpl; by simplify_map_eq). cbn [bind].
  eexists _, fl2. split; [|split].
  - by rewrite insert_insert_eq.
  - unfold fl2. rewrite length_zip_with. lia.
  - intros j c x f Hc Hx Hf.
    assert (Hsc : sel_c !! j = Some (c && (centric_cutoff <? x)%float)).
    { unfold sel_c. apply flex_and_lookup; [done|]. by rewrite list_lookup_map, Hx. }
    assert (Hsa : sel_a !! j = Some (negb c && (acentric_cutoff <? x)%float)).
    { unfold sel_a, flex_not. apply flex_and_lookup; by rewrite list_lookup_map, ?Hc, ?Hx. }
    unfold fl2, fl1. rewrite !lookup_zip_with, Hf. simpl. rewrite Hsc. simpl.
    rewrite Hsa. simpl. unfold wilson_outlier.
    change 23.91%float with centric_cutoff. change 13.82%float with acentric_cutoff.
    destruct c; simpl; [by rewrite orb_false_r|done].
Qed.

(** ** IEEE division of a non-negative number by a positive finite one *)

Lemma shr_1_nonneg mrs : (0 <= shr_m mrs)%Z -> (0 <= shr_m (shr_1 mrs))%Z.
Proof.
  destruct mrs as [m r s]; simpl.
  destruct m as [|p|p]; [done| |lia].
  destruct p; simpl; lia.
Qed.

Lemma iter_pos_shr_1_nonneg p mrs :
  (0 <= shr_m mrs)%Z -> (0 <= shr_m (SpecFloat.iter_pos shr_1 p mrs))%Z.
Proof.
  revert mrs. induction p as [p IH|p IH|]; intros mrs H; simpl.
  - apply IH, IH, shr_1_nonneg, H.
  - apply IH, IH, H.
  - apply shr_1_nonneg, H.
Qed.

Lemma shr_fexp_nonneg m e l :
  (0 <= m)%Z -> (0 <= shr_m (shr_fexp prec emax m e l).1)%Z.
Proof.
  intros H. unfold shr_fexp, shr.
  assert (H0 : (0 <= shr_m (shr_record_of_loc m l))%Z).
  { destruct l as [|[]]; simpl; exact H. }
  destruct (fexp prec emax (Zdigits2 m + e) - e)%Z; simpl; auto.
  apply iter_pos_shr_1_nonneg, H0.
Qed.

Lemma round_nearest_even_nonneg m l : (0 <= m)%Z -> (0 <= round_nearest_even m l)%Z.
Proof.
  intros H. destruct l as [|[]]; simpl; try lia.
  destruct (Z.even m); lia.
Qed.

Lemma binary_round_aux_sign sx mx ex lx :
  (0 <= mx)%Z ->
  match binary_round_aux prec emax sx mx ex lx with
  | S754_zero s | S754_infinity s | S754_finite s _ _ => s = sx
  | S754_nan => False
  end.
Proof.
  intros H. unfold binary_round_aux.
  pose proof (shr_fexp_nonneg mx ex lx H) as H1.
  destruct (shr_fexp prec emax mx ex lx) as [mrs' e'] eqn:E1. simpl in H1.
  pose proof (round_nearest_even_nonneg _ (loc_of_shr_record mrs') H1) as H2.
  pose proof (shr_fexp_nonneg _ e' loc_Exact H2) as H3.
  destruct (shr_fexp prec emax _ e' loc_Exact) as [mrs'' e''] eqn:E2. simpl in H3.
  destruct (shr_m mrs'') as [|p|p]; [done| |lia].
  destruct (e'' <=? emax - prec)%Z; done.
Qed.

Lemma SFdiv_core_binary_nonneg mx ex my ey :
  (0 <= (SFdiv_core_binary prec emax (Zpos mx) ex (Zpos my) ey).1.1)%Z.
Proof.
  unfold SFdiv_core_binary.
  set (s := (ex - ey - _)%Z).
  set (m' := match s with Zpos _ => Z.shiftl (Zpos mx) s | Z0 => Zpos mx | Zneg _ => 0%Z end).
  assert (Hm : (0 <= m')%Z).
  { subst m'. destruct s; try lia. apply Z.shiftl_nonneg. lia. }
  pose proof (Z_div_mod m' (Zpos my) ltac:(lia)) as Hd.
  destruct (Z.div_eucl m' (Zpos my)) as [q r]. simpl.
  destruct Hd as [Hd1 Hd2]. nia.
Qed.

(** The quotient is a number that is not below zero: a zero, a positive
    number or [infinity], and never NaN. *)
Lemma float_div_nonneg (x m : float) :
  (0 <=? x)%float = true -> (0 <? m)%float = true -> (m <? infinity)%float = true ->
  (0 <=? x / m)%float = true.
Proof.
  rewrite !FloatAxioms.leb_spec, !FloatAxioms.ltb_spec, FloatAxioms.div_spec.
  change (Prim2SF 0) with (S754_zero false).
  change (Prim2SF infinity) with (S754_infinity false).
  destruct (Prim2SF x) as [sx|sx| |sx mx ex], (Prim2SF m) as [sm|sm| |sm mm em];
    try destruct sx; try destruct sm; try discriminate; try reflexivity; intros _ _ _.
  unfold SF64div, SFdiv.
  pose proof (SFdiv_core_binary_nonneg mx ex mm em) as H.
  destruct (SFdiv_core_binary prec emax (Zpos mx) ex (Zpos mm) em) as [[mz ez] lz].
  simpl in H. pose proof (binary_round_aux_sign (xorb false false) mz ez lz H) as H'.
  destruct (binary_round_aux prec emax (xorb false false) mz ez lz); simpl in H'; subst; try done.
Qed.

(** ** The claims about [calc_normE2] *)

(** C1: a table whose statistics subset has fewer than 10000 acentric
    reflections and at most 15000 centric ones takes the insufficient-data
    fallback: the call returns the full table with [Esq] equal to 1.0 in
    every row, without the working columns, with every other column (the
    flag words among them) as it was. *)
Theorem calc_normE2_insufficient_data t e fl hs ds ints :
  table_wf t ->
  columns t !! "flags" = Some (flex_size_t fl) ->
  columns t !! "miller_index" = Some (flex_miller_index hs) ->
  columns t !! "d" = Some (flex_double ds) ->
  columns t !! "intensity" = Some (flex_double ints) ->
  let sel := scaling_subset_sel fl in
  let n_centrics := count_true (map (is_centric (crystal_symmetry_of e)) (select hs sel)) in
  let n_acentrics := (Z.of_nat (count_flags sel) - n_centrics)%Z in
  (n_acentrics < 10000)%Z -> (n_centrics <= 15000)%Z ->
  exists t' log,
    calc_normE2 t e = OK (t', log)
    /\ nrows t' = nrows t
    /\ columns t' !! "Esq" = Some (flex_double (replicate (nrows t) 1.0%float))
    /\ columns t' !! "intensity_for_norm" = None
    /\ columns t' !! "centric_flag" = None
    /\ columns t' !! "resolution" = None
    /\ columns t' !! "flags" = Some (flex_size_t fl)
    /\ (forall k, k ∉ ({["Esq"; "intensity_for_norm"; "centric_flag"; "resolution"]}
                         : gset string) ->
                  columns t' !! k = columns t !! k)
    /\ Log_info No_normalised_intensities_calculated ∈ log.
Proof.
  intros Hwf Hfl Hhs Hd Hints sel n_centrics n_acentrics Hna Hnc.
  destruct (statistics_subset_run t e fl hs ds ints Hwf Hfl Hhs Hd Hints)
    as (rt & ma & Hsub & _).
  fold sel n_centrics n_acentrics in Hsub.
  unfold calc_normE2. rewrite Hsub. cbn [bind].
  rewrite n_refl_shells_cases.
  rewrite !decide_False by lia. rewrite decide_True by lia.
  rewrite insufficient_data_fallback_run. cbn [bind].
  eexists _, _. split; [reflexivity|]. cbn [nrows columns].
  repeat split; try (by simplify_map_eq).
  - intros k Hk. rewrite !lookup_delete_ne, lookup_insert_ne by set_solver. done.
  - apply list_elem_of_In. simpl. auto.
Qed.

(** C4: on the non-fallback path a reflection with [d == 0] has [Esq]
    exactly 0 in the returned table and its [d] is 0 again; the other
    distances are the input's. *)
Theorem calc_normE2_zero_distance t e hs ds ints rt ma nc na n t' log :
  table_wf t ->
  columns t !! "miller_index" = Some (flex_miller_index hs) ->
  columns t !! "d" = Some (flex_double ds) ->
  columns t !! "intensity" = Some (flex_double ints) ->
  statistics_subset t e = OK (rt, ma, nc, na) ->
  n_refl_shells na nc = Some n ->
  calc_normE2 t e = OK (t', log) ->
  exists esq' d' : list float,
    columns t' !! "Esq" = Some (flex_double esq')
    /\ columns t' !! "d" = Some (flex_double d')
    /\ forall (j : nat) (dj : float), ds !! j = Some dj ->
         if (dj =? 0.0)%float
         then esq' !! j = Some 0.0%float /\ d' !! j = Some 0.0%float
         else d' !! j = Some dj.
Proof.
  intros Hwf Hhs Hd Hints Hsub Hn Hrun.
  apply calc_normE2_inv in Hrun as (rt0 & ma0 & nc0 & na0 & Hsub0 & Hrun).
  rewrite Hsub in Hsub0. injection Hsub0 as <- <- <- <-.
  destruct Hrun as [(Hnone & _)|(n0 & cm & am & _ & _ & Hfull & _)]; [congruence|].
  destruct (normalise_full_table_run _ _ _ _ _ _ _ _ Hfull Hwf Hd Hints Hhs)
    as (esq & Lesq & _ & Hcols & _).
  pose proof (table_wf_column _ _ _ Hwf Hd) as Ld. simpl in Ld.
  eexists _, _. rewrite Hcols. split; [by simplify_map_eq|]. split; [by simplify_map_eq|].
  intros j dj Hdj.
  assert (Hsel : map (fun x => (x =? 0.0)%float) ds !! j = Some (dj =? 0.0)%float)
    by (by rewrite list_lookup_map, Hdj).
  destruct (esq !! j) as [x|] eqn:Hx.
  2:{ apply lookup_ge_None in Hx. apply lookup_lt_Some in Hdj. lia. }
  pose proof (set_selected_value_lookup _ _ 1.0%float _ _ _ Hdj Hsel) as H1.
  pose proof (set_selected_value_lookup _ _ 0.0%float _ _ _ H1 Hsel) as H2.
  pose proof (set_selected_value_lookup _ _ 0.0%float _ _ _ Hx Hsel) as H3.
  destruct (dj =? 0.0)%float; [by split|done].
Qed.

(** C6: the shell count is 20 when either class has more than 20000
    members, else 15 when either has more than 15000, else the fallback is
    taken when the acentric count alone is below 10000, and otherwise the
    count is 10. *)
Theorem calc_normE2_shell_count t e rt ma nc na t' log :
  statistics_subset t e = OK (rt, ma, nc, na) ->
  calc_normE2 t e = OK (t', log) ->
  ((20000 < na \/ 20000 < nc)%Z -> shells_used t rt ma nc na 20 t' log)
  /\ ((na <= 20000)%Z -> (nc <= 20000)%Z -> (15000 < na \/ 15000 < nc)%Z ->
      shells_used t rt ma nc na 15 t' log)
  /\ ((na < 10000)%Z -> (nc <= 15000)%Z -> fallback_taken t t' log)
  /\ ((10000 <= na <= 15000)%Z -> (nc <= 15000)%Z -> shells_used t rt ma nc na 10 t' log).
Proof.
  intros Hsub Hrun.
  apply calc_normE2_inv in Hrun as (rt0 & ma0 & nc0 & na0 & Hsub0 & Hrun).
  rewrite Hsub in Hsub0. injection Hsub0 as <- <- <- <-.
  rewrite n_refl_shells_cases in Hrun.
  assert (Hused : forall n, (exists n0 cm am, Some n = Some n0
                     /\ bin_averages rt ma nc na n0 = OK (cm, am)
                     /\ normalise_full_table (set_crystal_symmetry (array_set ma)) cm am t
                        = OK t'
                     /\ log = [Log_info Calculating_normalised_intensities;
                               Log_debug Negative_intensities_set_to_zero;
                               Log_debug (Resolution_bins_used nc na n0)]) ->
                  shells_used t rt ma nc na n t' log).
  { intros n (n0 & cm & am & [= <-] & Hbin & Hfull & ->). exists cm, am.
    split; [done|]. split; [done|]. apply list_elem_of_In. simpl. auto. }
  repeat split.
  - intros H. rewrite decide_True in Hrun by done.
    destruct Hrun as [(? & _)|Hrun]; [done|]. by apply Hused.
  - intros H1 H2 H3. rewrite decide_False, decide_True in Hrun by lia.
    destruct Hrun as [(? & _)|Hrun]; [done|]. by apply Hused.
  - rewrite !decide_False, decide_True in Hrun by lia.
    destruct Hrun as [(_ & Hfb & _)|(? & ? & ? & ? & _)]; done.
  - rewrite !decide_False, decide_True in Hrun by lia.
    destruct Hrun as [(_ & _ & ->)|(? & ? & ? & ? & _)]; [|done].
    apply list_elem_of_In. simpl. auto.
  - intros H1 H2. rewrite !decide_False in Hrun by lia.
    destruct Hrun as [(? & _)|Hrun]; [done|]. by apply Hused.
Qed.

(** The value of [Esq] in the returned table for one row of a non-fallback
    run: 0, or the row's intensity over the mean of a shell of its own
    class that holds its resolution. *)
Lemma calc_normE2_row t e hs ds ints rt ma nc na n cm am t' log :
  table_wf t ->
  columns t !! "miller_index" = Some (flex_miller_index hs) ->
  columns t !! "d" = Some (flex_double ds) ->
  columns t !! "intensity" = Some (flex_double ints) ->
  statistics_subset t e = OK (rt, ma, nc, na) ->
  n_refl_shells na nc = Some n ->
  bin_averages rt ma nc na n = OK (cm, am) ->
  calc_normE2 t e = OK (t', log) ->
  exists esq' : list float,
    columns t' !! "Esq" = Some (flex_double esq')
    /\ forall (j : nat) (hj : miller_index) (dj I : float),
         hs !! j = Some hj -> ds !! j = Some dj -> ints !! j = Some I ->
         exists x, esq' !! j = Some x
           /\ (x = 0.0%float
               \/ exists mean_values bin_limits (i : nat) (lower upper m : float),
                    (if is_centric (crystal_symmetry_of e) hj then cm else am)
                    = Some (mean_values, bin_limits)
                    /\ bin_limits !! i = Some lower /\ bin_limits !! (i + 1) = Some upper
                    /\ mean_values !! i = Some (Some m)
                    /\ (lower <? sentinel_resolution dj)%float = true
                    /\ (sentinel_resolution dj <=? upper)%float = true
                    /\ x = (I / m)%float).
Proof.
  intros Hwf Hhs Hd Hints Hsub Hn Hbin Hrun.
  apply calc_normE2_inv in Hrun as (rt0 & ma0 & nc0 & na0 & Hsub0 & Hrun).
  rewrite Hsub in Hsub0. injection Hsub0 as <- <- <- <-.
  destruct Hrun as [(Hnone & _)|(n0 & cm0 & am0 & Hn0 & Hbin0 & Hfull & _)]; [congruence|].
  rewrite Hn in Hn0. injection Hn0 as <-.
  rewrite Hbin in Hbin0. injection Hbin0 as <- <-.
  rewrite (statistics_subset_symmetry _ _ _ _ _ _ Hsub) in Hfull.
  destruct (normalise_full_table_run _ _ _ _ _ _ _ _ Hfull Hwf Hd Hints Hhs)
    as (esq & Lesq & _ & Hcols & Hrow).
  eexists. rewrite Hcols. split; [by simplify_map_eq|].
  intros j hj dj I Hhj Hdj HI.
  destruct (Hrow j dj I Hdj HI) as (x & Hx & Hhit).
  assert (Hsel : map (fun x => (x =? 0.0)%float) ds !! j = Some (dj =? 0.0)%float)
    by (by rewrite list_lookup_map, Hdj).
  rewrite (set_selected_value_lookup _ _ 0.0%float _ _ _ Hx Hsel).
  eexists. split; [done|].
  destruct (dj =? 0.0)%float; [by left|].
  assert (Hc : map (is_centric (crystal_symmetry_of e)) hs !! j
               = Some (is_centric (crystal_symmetry_of e) hj))
    by (by rewrite list_lookup_map, Hhj).
  destruct Hhit as [->|[Hhit|Hhit]]; [by left|right..];
    destruct Hhit as (mv & bl & -> & i & lower & upper & m & H1 & H2 & H3 & H4 & H5 & H6 & ->);
    exists mv, bl, i, lower, upper, m.
  - rewrite Hc in H4. injection H4 as ->. done.
  - unfold flex_not in H4. rewrite list_lookup_map, Hc in H4. simpl in H4.
    injection H4 as H4. apply negb_true_iff in H4. rewrite H4. done.
Qed.

(** A reflection with [d != 0] whose resolution passes the test of shell
    [i] of its own class, and of no later shell of the class, has the
    [Esq] of its intensity over the mean of shell [i]. *)
Lemma calc_normE2_row_assigned t e hs ds ints rt ma nc na n cm am t' log :
  table_wf t ->
  columns t !! "miller_index" = Some (flex_miller_index hs) ->
  columns t !! "d" = Some (flex_double ds) ->
  columns t !! "intensity" = Some (flex_double ints) ->
  statistics_subset t e = OK (rt, ma, nc, na) ->
  n_refl_shells na nc = Some n ->
  bin_averages rt ma nc na n = OK (cm, am) ->
  calc_normE2 t e = OK (t', log) ->
  exists esq' : list float,
    columns t' !! "Esq" = Some (flex_double esq')
    /\ forall (j : nat) (hj : miller_index) (dj I : float) mean_values bin_limits (i : nat),
         hs !! j = Some hj -> ds !! j = Some dj -> ints !! j = Some I ->
         (dj =? 0.0)%float = false ->
         (if is_centric (crystal_symmetry_of e) hj then cm else am)
         = Some (mean_values, bin_limits) ->
         in_shell bin_limits i (sentinel_resolution dj) = true ->
         (forall i', i < i' -> in_shell bin_limits i' (sentinel_resolution dj) = false) ->
         exists m, mean_values !! i = Some (Some m) /\ esq' !! j = Some (I / m)%float.
Proof.
  intros Hwf Hhs Hd Hints Hsub Hn Hbin Hrun.
  apply calc_normE2_inv in Hrun as (rt0 & ma0 & nc0 & na0 & Hsub0 & Hrun).
  rewrite Hsub in Hsub0. injection Hsub0 as <- <- <- <-.
  destruct Hrun as [(Hnone & _)|(n0 & cm0 & am0 & Hn0 & Hbin0 & Hfull & _)]; [congruence|].
  rewrite Hn in Hn0. injection Hn0 as <-.
  rewrite Hbin in Hbin0. injection Hbin0 as <- <-.
  rewrite (statistics_subset_symmetry _ _ _ _ _ _ Hsub) in Hfull.
  exact (normalise_full_table_assigns _ _ _ _ _ _ _ _ Hfull Hwf Hd Hints Hhs).
Qed.

(** C9: shell assignment is by the half-open test [lower < r <= upper]
    against the limits of the reflection's own class.  A reflection with
    [d != 0] whose resolution passes the test of a shell, the upper limit
    included, and of no later shell of its class gets its intensity over
    the mean of that shell; a reflection whose resolution lies in no shell
    of its class keeps the initial [Esq] of 0; one whose resolution equals
    the lowest limit of its class is such a reflection. *)
Theorem calc_normE2_no_shell t e hs ds ints rt ma nc na n cm am t' log :
  table_wf t ->
  columns t !! "miller_index" = Some (flex_miller_index hs) ->
  columns t !! "d" = Some (flex_double ds) ->
  columns t !! "intensity" = Some (flex_double ints) ->
  statistics_subset t e = OK (rt, ma, nc, na) ->
  n_refl_shells na nc = Some n ->
  bin_averages rt ma nc na n = OK (cm, am) ->
  calc_normE2 t e = OK (t', log) ->
  exists esq' : list float,
    columns t' !! "Esq" = Some (flex_double esq')
    /\ forall (j : nat) (hj : miller_index) (dj I : float),
         hs !! j = Some hj -> ds !! j = Some dj -> ints !! j = Some I ->
         let own := if is_centric (crystal_symmetry_of e) hj then cm else am in
         (forall mean_values bin_limits (i : nat),
            own = Some (mean_values, bin_limits) ->
            (dj =? 0.0)%float = false ->
            in_shell bin_limits i (sentinel_resolution dj) = true ->
            (forall i', i < i' -> in_shell bin_limits i' (sentinel_resolution dj) = false) ->
            exists m, mean_values !! i = Some (Some m) /\ esq' !! j = Some (I / m)%float)
         /\ (~ in_some_shell own (sentinel_resolution dj) -> esq' !! j = Some 0.0%float)
         /\ (forall mean_values bin_limits (lowest : float),
               own = Some (mean_values, bin_limits) ->
               bin_limits !! 0 = Some lowest ->
               (forall l, l ∈ bin_limits -> (l <? lowest)%float = false) ->
               sentinel_resolution dj = lowest ->
               esq' !! j = Some 0.0%float).
Proof.
  intros Hwf Hhs Hd Hints Hsub Hn Hbin Hrun.
  destruct (calc_normE2_row _ _ _ _ _ _ _ _ _ _ _ _ _ _
              Hwf Hhs Hd Hints Hsub Hn Hbin Hrun) as (esq' & Hesq' & Hrow).
  destruct (calc_normE2_row_assigned _ _ _ _ _ _ _ _ _ _ _ _ _ _
              Hwf Hhs Hd Hints Hsub Hn Hbin Hrun) as (esq2 & Hesq2 & Hassigned).
  rewrite Hesq' in Hesq2. injection Hesq2 as <-.
  exists esq'. split; [done|].
  intros j hj dj I Hhj Hdj HI own.
  split.
  { intros mv bl i Hown Hd0. by apply (Hassigned j hj dj I mv bl i). }
  destruct (Hrow j hj dj I Hhj Hdj HI) as (x & Hx & Hval). fold own in Hval.
  assert (Hgen : ~ in_some_shell own (sentinel_resolution dj) -> esq' !! j = Some 0.0%float).
  { intros Hno. destruct Hval as [->|Hhit]; [done|]. exfalso. apply Hno.
    destruct Hhit as (mv & bl & i & lower & upper & m & H1 & H2 & H3 & _ & H5 & H6 & _).
    by exists mv, bl, i, lower, upper. }
  split; [exact Hgen|].
  intros mv bl lowest Hown H0 Hlow Hr. apply Hgen.
  intros (mv' & bl' & i & lower & upper & Hown' & H1 & _ & H3 & _).
  rewrite Hown in Hown'. injection Hown' as <- <-.
  rewrite Hr in H3. rewrite Hlow in H3; [done|].
  apply list_elem_of_lookup. by exists i.
Qed.

(** C2, as amended: on the non-fallback path the [Esq] of a reflection is
    0 or its intensity (as given, not clamped) over the mean of a shell of
    its class that holds its resolution; for a reflection with [d != 0] it
    is that quotient for the last shell of its class that holds its
    resolution, when there is one.  So it is not below zero (and not NaN)
    when the intensity is not below zero and the bin means of the class are
    positive and finite. *)
Theorem calc_normE2_esq_value t e hs ds ints rt ma nc na n cm am t' log :
  table_wf t ->
  columns t !! "miller_index" = Some (flex_miller_index hs) ->
  columns t !! "d" = Some (flex_double ds) ->
  columns t !! "intensity" = Some (flex_double ints) ->
  statistics_subset t e = OK (rt, ma, nc, na) ->
  n_refl_shells na nc = Some n ->
  bin_averages rt ma nc na n = OK (cm, am) ->
  calc_normE2 t e = OK (t', log) ->
  exists esq' : list float,
    columns t' !! "Esq" = Some (flex_double esq')
    /\ forall (j : nat) (hj : miller_index) (dj I : float),
         hs !! j = Some hj -> ds !! j = Some dj -> ints !! j = Some I ->
         let own := if is_centric (crystal_symmetry_of e) hj then cm else am in
         exists x, esq' !! j = Some x
           /\ (x = 0.0%float
               \/ exists mean_values bin_limits (i : nat) (lower upper m : float),
                    own = Some (mean_values, bin_limits)
                    /\ bin_limits !! i = Some lower /\ bin_limits !! (i + 1) = Some upper
                    /\ mean_values !! i = Some (Some m)
                    /\ (lower <? sentinel_resolution dj)%float = true
                    /\ (sentinel_resolution dj <=? upper)%float = true
                    /\ x = (I / m)%float)
           /\ (forall mean_values bin_limits (i : nat),
                 own = Some (mean_values, bin_limits) ->
                 (dj =? 0.0)%float = false ->
                 in_shell bin_limits i (sentinel_resolution dj) = true ->
                 (forall i', i < i' ->
                    in_shell bin_limits i' (sentinel_resolution dj) = false) ->
                 exists m, mean_values !! i = Some (Some m) /\ x = (I / m)%float)
           /\ ((0 <=? I)%float = true -> means_positive_finite own ->
               (0 <=? x)%float = true).
Proof.
  intros Hwf Hhs Hd Hints Hsub Hn Hbin Hrun.
  destruct (calc_normE2_row _ _ _ _ _ _ _ _ _ _ _ _ _ _
              Hwf Hhs Hd Hints Hsub Hn Hbin Hrun) as (esq' & Hesq' & Hrow).
  destruct (calc_normE2_row_assigned _ _ _ _ _ _ _ _ _ _ _ _ _ _
              Hwf Hhs Hd Hints Hsub Hn Hbin Hrun) as (esq2 & Hesq2 & Hassigned).
  rewrite Hesq' in Hesq2. injection Hesq2 as <-.
  exists esq'. split; [done|].
  intros j hj dj I Hhj Hdj HI own.
  destruct (Hrow j hj dj I Hhj Hdj HI) as (x & Hx & Hval). fold own in Hval.
  exists x. split; [done|]. split; [exact Hval|]. split.
  { intros mv bl i Hown Hd0 Hin Hlater.
    destruct (Hassigned j hj dj I mv bl i Hhj Hdj HI Hd0 Hown Hin Hlater) as (m & Hm & Hx').
    exists m. split; [done|]. congruence. }
  intros HI0 Hpos. destruct Hval as [->|Hhit]; [done|].
  destruct Hhit as (mv & bl & i & lower & upper & m & H1 & _ & _ & H4 & _ & _ & ->).
  destruct (Hpos mv bl i m H1 H4) as [Hm0 Hminf].
  by apply float_div_nonneg.
Qed.

(** ** The claim about [set_wilson_outliers] *)

(** C3: the call ORs [outlier_in_scaling] into the flag word of exactly the
    rows with (centric and Esq > 23.91) or (not centric and Esq > 13.82);
    the flag words of the other rows are untouched and no bit that was set
    is cleared.  The table needs the two columns only: without a ["flags"]
    column every row starts from the flag word 0. *)
Theorem set_wilson_outliers_flags t cf esq fl :
  table_wf t ->
  columns t !! "centric_flag" = Some (flex_bool cf) ->
  columns t !! "Esq" = Some (flex_double esq) ->
  flag_words t fl ->
  exists t' log (fl' : list Z),
    set_wilson_outliers t = OK (t', log)
    /\ nrows t' = nrows t
    /\ columns t' = <["flags" := flex_size_t fl']> (columns t)
    /\ length fl' = length fl
    /\ forall (j : nat) (c : bool) (x : float) (f : Z),
         cf !! j = Some c -> esq !! j = Some x -> fl !! j = Some f ->
         exists f', fl' !! j = Some f'
           /\ ((c = true /\ (23.91 <? x)%float = true
                \/ c = false /\ (13.82 <? x)%float = true) ->
               f' = Z.lor f outlier_in_scaling)
           /\ (~ (c = true /\ (23.91 <? x)%float = true
                  \/ c = false /\ (13.82 <? x)%float = true) ->
               f' = f)
           /\ (forall n, Z.testbit f n = true -> Z.testbit f' n = true).
Proof.
  intros Hwf Hcf Hesq Hfl.
  destruct (set_wilson_outliers_run t cf esq fl Hwf Hcf Hesq Hfl)
    as (log & fl' & Hrun & Lfl' & Hrow).
  eexists _, log, fl'. split; [exact Hrun|]. repeat split; try done.
  intros j c x f Hc Hx Hf. rewrite (Hrow j c x f Hc Hx Hf).
  eexists. split; [done|]. unfold wilson_outlier.
  destruct c, (23.91 <? x)%float, (13.82 <? x)%float; simpl; (split; [|split]);
    first [ intros [[? ?]|[? ?]]; congruence
          | intros H; first [reflexivity | exfalso; apply H; auto]
          | intros k Hk; rewrite ?Z.lor_spec, ?Hk; reflexivity ].
Qed.

(** ** Further results about [calc_normE2] *)

Lemma for_range_invariant {T : Type} (P : T -> Prop) (body : nat -> T -> result T) :
  (forall i t t', body i t = OK t' -> P t -> P t') ->
  forall n start t t', for_range body start n t = OK t' -> P t -> P t'.
Proof.
  intros Hbody. induction n as [|n IH]; intros start t t' Hrun HP; simpl in Hrun.
  - by injection Hrun as <-.
  - apply bind_ok_inv in Hrun as (t1 & Hstep & Hrun). eauto.
Qed.

(** What one column operation leaves alone. *)
Definition same_except (keys : gset string) (t t' : flex_reflection_table) : Prop :=
  nrows t' = nrows t /\ forall k, k ∉ keys -> columns t' !! k = columns t !! k.

Lemma same_except_refl keys t : same_except keys t t.
Proof. by split. Qed.

Lemma same_except_trans keys t1 t2 t3 :
  same_except keys t1 t2 -> same_except keys t2 t3 -> same_except keys t1 t3.
Proof.
  intros [N1 H1] [N2 H2]. split; [congruence|].
  intros k Hk. by rewrite H2, H1.
Qed.

Lemma same_except_mono keys keys' t t' :
  keys ⊆ keys' -> same_except keys t t' -> same_except keys' t t'.
Proof. intros Hsub [N H]. split; [done|]. intros k Hk. apply H. set_solver. Qed.

Lemma setitem_same_except t key c t' :
  setitem t key c = OK t' -> same_except {[key]} t t'.
Proof.
  unfold setitem. case_decide; [|done]. intros [= <-]. split; [done|].
  intros k Hk. simpl. apply lookup_insert_ne. set_solver.
Qed.

Lemma replace_column_same_except t key c : same_except {[key]} t (replace_column t key c).
Proof. split; [done|]. intros k Hk. simpl. apply lookup_insert_ne. set_solver. Qed.

Lemma delitem_same_except t key : same_except {[key]} t (delitem t key).
Proof. split; [done|]. intros k Hk. simpl. apply lookup_delete_ne. set_solver. Qed.

Lemma normalise_shell_same_except sel1 bin_limits mean_values i t t' :
  normalise_shell sel1 bin_limits mean_values i t = OK t' -> same_except {["Esq"]} t t'.
Proof.
  unfold normalise_shell. intros H.
  do 6 (apply bind_ok_inv in H as (? & _ & H)).
  match type of H with context [match ?m with _ => _ end] => destruct m; [|done] end.
  apply bind_ok_inv in H as (esq' & _ & H). injection H as <-.
  apply replace_column_same_except.
Qed.

Lemma class_loop_same_except (sel1 : flex_reflection_table -> result (list bool))
    (f : list bool -> list bool) class_means t t' :
  match class_means with
  | None => OK t
  | Some (mean_values, bin_limits) =>
      s <- sel1 t ;; normalise_class (f s) bin_limits mean_values t
  end = OK t' ->
  same_except {["Esq"]} t t'.
Proof.
  destruct class_means as [[mv bl]|]; [|intros [= <-]; apply same_except_refl].
  intros H. apply bind_ok_inv in H as (s & _ & H). unfold normalise_class in H.
  eapply (for_range_invariant (same_except {["Esq"]} t));
    [|exact H|apply same_except_refl].
  intros i t1 t2 Hstep H1. eapply same_except_trans; [exact H1|].
  by eapply normalise_shell_same_except.
Qed.

(** A successful full-table pass leaves the row count and every column it
    does not work in as they were, and none of its working columns
    behind. *)
Lemma normalise_full_table_frame cs cm am t t' :
  normalise_full_table cs cm am t = OK t' ->
  same_except (written_columns ∪ working_columns) t t'
  /\ forall k, k ∈ working_columns -> columns t' !! k = None.
Proof.
  without_collaborators. unfold normalise_full_table. intros H.
  apply bind_ok_inv in H as (hs & _ & H).
  apply bind_ok_inv in H as (t1 & H1 & H). apply setitem_same_except in H1.
  apply bind_ok_inv in H as (t2 & H2 & H). apply setitem_same_except in H2.
  apply bind_ok_inv in H as (d & _ & H).
  apply bind_ok_inv in H as (d' & _ & H).
  apply bind_ok_inv in H as (d1 & _ & H).
  apply bind_ok_inv in H as (t3 & H3 & H). apply setitem_same_except in H3.
  apply bind_ok_inv in H as (t4 & H4 & H).
  apply (class_loop_same_except (fun t => get_bool t "centric_flag") (fun s => s)) in H4.
  apply bind_ok_inv in H as (t5 & H5 & H).
  apply (class_loop_same_except (fun t => get_bool t "centric_flag") flex_not) in H5.
  apply bind_ok_inv in H as (d2 & _ & H).
  apply bind_ok_inv in H as (esq & _ & H). injection H as <-.
  pose proof (replace_column_same_except t2 "d"
                (flex_double (set_selected_value d' (map (fun x => (x =? 0.0)%float) d)
                                1.0%float))) as H2'.
  split.
  - destruct H1 as [N1 K1]. destruct H2 as [N2 K2]. destruct H2' as [N2' K2'].
    destruct H3 as [N3 K3]. destruct H4 as [N4 K4]. destruct H5 as [N5 K5].
    split; [simpl; congruence|].
    intros k Hk. unfold written_columns, working_columns in Hk. simpl.
    rewrite !lookup_insert_ne, !lookup_delete_ne by set_solver.
    rewrite K5, K4, K3, K2', K2, K1 by set_solver. done.
  - intros k Hk. unfold working_columns in Hk. simpl.
    rewrite !lookup_insert_ne by set_solver.
    assert (Hcase : k = "intensity_for_norm" \/ k = "centric_flag" \/ k = "resolution")
      by set_solver.
    destruct Hcase as [-> | [-> | ->]];
      rewrite ?lookup_delete_eq, ?(lookup_delete_ne _ "resolution"),
        ?(lookup_delete_ne _ "centric_flag"), ?lookup_delete_eq by done; done.
Qed.

Lemma insufficient_data_fallback_frame t t' :
  insufficient_data_fallback t = OK t' ->
  same_except (written_columns ∪ working_columns) t t'
  /\ forall k, k ∈ working_columns -> columns t' !! k = None.
Proof.
  rewrite insufficient_data_fallback_run. intros [= <-]. split; [split; [done|]|].
  - intros k Hk. unfold written_columns, working_columns in Hk. simpl.
    rewrite !lookup_delete_ne, lookup_insert_ne by set_solver. done.
  - intros k Hk. unfold working_columns in Hk. simpl.
    assert (Hcase : k = "intensity_for_norm" \/ k = "centric_flag" \/ k = "resolution")
      by set_solver.
    destruct Hcase as [-> | [-> | ->]];
      rewrite ?lookup_delete_eq, ?(lookup_delete_ne _ "resolution"),
        ?(lookup_delete_ne _ "centric_flag"), ?lookup_delete_eq by done; done.
Qed.

Lemma calc_normE2_same_except t e t' log :
  calc_normE2 t e = OK (t', log) ->
  same_except (written_columns ∪ working_columns) t t'
  /\ forall k, k ∈ working_columns -> columns t' !! k = None.
Proof.
  intros H. apply calc_normE2_inv in H as (rt & ma & nc & na & _ & H).
  destruct H as [(_ & H & _)|(n & cm & am & _ & _ & H & _)].
  - by apply insufficient_data_fallback_frame.
  - by eapply normalise_full_table_frame.
Qed.

(** X1: whenever [calc_normE2] returns, on either path, the returned table
    has the row count of the input, every column other than [Esq], [d] and
    the three working columns is the input's (the flag words among them, so
    no flag is set or cleared), and none of the working columns
    [intensity_for_norm], [centric_flag] and [resolution] is left in the
    table, whether the function created it or the caller had it. *)
Theorem calc_normE2_frame t e t' log :
  calc_normE2 t e = OK (t', log) ->
  nrows t' = nrows t
  /\ columns t' !! "flags" = columns t !! "flags"
  /\ columns t' !! "intensity" = columns t !! "intensity"
  /\ columns t' !! "miller_index" = columns t !! "miller_index"
  /\ (forall k, k ∉ ({["Esq"; "d"; "intensity_for_norm"; "centric_flag"; "resolution"]}
                       : gset string) ->
                columns t' !! k = columns t !! k)
  /\ columns t' !! "intensity_for_norm" = None
  /\ columns t' !! "centric_flag" = None
  /\ columns t' !! "resolution" = None.
Proof.
  intros H. apply calc_normE2_same_except in H as [[N K] W].
  unfold written_columns, working_columns in K, W.
  split; [done|]. repeat split; try (apply K; set_solver); apply W; set_solver.
Qed.

(** X2: [set_wilson_outliers] cannot run on what [calc_normE2] returns:
    [calc_normE2] removes the [centric_flag] column before it returns, and
    [set_wilson_outliers] starts by reading it. *)
Theorem set_wilson_outliers_after_calc_normE2 t e t' log :
  calc_normE2 t e = OK (t', log) ->
  set_wilson_outliers t' = Raise (KeyError "centric_flag").
Proof.
  intros H. apply calc_normE2_same_except in H as [_ W].
  unfold set_wilson_outliers, get_bool, getitem.
  rewrite (W "centric_flag") by (unfold working_columns; set_solver). done.
Qed.

(** *** Empty shells *)

Lemma normalise_shell_empty sel1 bin_limits mean_values i t res ints esq :
  columns t !! "resolution" = Some (flex_double res) ->
  columns t !! "intensity" = Some (flex_double ints) ->
  columns t !! "Esq" = Some (flex_double esq) ->
  i + 1 < length bin_limits ->
  mean_values !! i = Some None ->
  normalise_shell sel1 bin_limits mean_values i t = Raise TypeError.
Proof.
  intros Hres Hints Hesq Hi Hm. unfold normalise_shell.
  rewrite (get_double_ok _ _ _ Hres), (get_double_ok _ _ _ Hints),
    (get_double_ok _ _ _ Hesq). cbn [bind]. unfold list_index.
  destruct (lookup_lt_is_Some_2 bin_limits i ltac:(lia)) as [lower ->].
  destruct (lookup_lt_is_Some_2 bin_limits (i + 1) ltac:(lia)) as [upper ->].
  cbn [bind]. by rewrite Hm.
Qed.

(** The loop over the shells returns, or stops with [TypeError] at the
    first empty bin. *)
Lemma normalise_class_outcome sel1 bin_limits mean_values n :
  forall start t res ints esq,
  columns t !! "resolution" = Some (flex_double res) ->
  columns t !! "intensity" = Some (flex_double ints) ->
  columns t !! "Esq" = Some (flex_double esq) ->
  length sel1 = length esq -> length res = length esq -> length ints = length esq ->
  start + n + 1 <= length bin_limits ->
  (forall i, i + 1 < length bin_limits -> is_Some (mean_values !! i)) ->
  ((forall i, start <= i < start + n -> mean_values !! i <> Some None)
   /\ exists t', for_range (normalise_shell sel1 bin_limits mean_values) start n t = OK t')
  \/ ((exists i, start <= i < start + n /\ mean_values !! i = Some None)
      /\ for_range (normalise_shell sel1 bin_limits mean_values) start n t = Raise TypeError).
Proof.
  induction n as [|n IH]; intros start t res ints esq Hres Hints Hesq L1 L2 L3 Hn Hm.
  - left. split; [intros i Hi; lia|by eexists].
  - destruct (Hm start ltac:(lia)) as [[m|] Hmi].
    + destruct (normalise_shell_returns sel1 bin_limits mean_values start t res ints esq m
                  Hres Hints Hesq L1 L2 L3 ltac:(lia) Hmi) as [t1 Hstep].
      simpl. rewrite Hstep. cbn [bind].
      destruct (normalise_shell_run _ _ _ _ _ _ _ _ _ Hstep Hres Hints Hesq L1 L2 L3)
        as (esq1 & -> & Lesq1 & _).
      destruct (IH (S start) (replace_column t "Esq" (flex_double esq1)) res ints esq1)
        as [[Hall Hok]|[(i & Hi & Hnone) Hraise]];
        try (by simpl; simplify_map_eq); try congruence; try lia; try done.
      * left. split; [|done]. intros i Hi.
        destruct (decide (i = start)) as [->|]; [congruence|]. apply Hall. lia.
      * right. split; [|done]. exists i. split; [lia|done].
    + right. split; [exists start; split; [lia|done]|].
      simpl. rewrite (normalise_shell_empty sel1 bin_limits mean_values start t res ints esq);
        try done. lia.
Qed.

Lemma class_loop_outcome class_means sel1 t res ints esq :
  columns t !! "resolution" = Some (flex_double res) ->
  columns t !! "intensity" = Some (flex_double ints) ->
  columns t !! "Esq" = Some (flex_double esq) ->
  length sel1 = length esq -> length res = length esq -> length ints = length esq ->
  class_means_listed class_means ->
  let loop := match class_means with
              | None => OK t
              | Some (mean_values, bin_limits) =>
                  normalise_class sel1 bin_limits mean_values t
              end in
  (~ class_has_empty_shell class_means /\ exists t', loop = OK t')
  \/ (class_has_empty_shell class_means /\ loop = Raise TypeError).
Proof.
  intros Hres Hints Hesq L1 L2 L3 Hl loop. subst loop.
  destruct class_means as [[mv bl]|].
  2:{ left. split; [|by eexists]. by intros (? & ? & ? & ? & _). }
  unfold normalise_class.
  destruct (decide (length bl = 0)) as [E|Hlen].
  { rewrite E. left. split; [|by eexists].
    intros (mv' & bl' & i & [= <- <-] & Hi & _). lia. }
  destruct (normalise_class_outcome sel1 bl mv (length bl - 1) 0 t res ints esq
              Hres Hints Hesq L1 L2 L3 ltac:(lia) (fun i => Hl mv bl i eq_refl))
    as [[Hall Hok]|[(i & Hi & Hnone) Hraise]].
  - left. split; [|done]. intros (mv' & bl' & i & [= <- <-] & Hi & Hnone).
    apply (Hall i); [lia|done].
  - right. split; [|done]. exists mv, bl, i. repeat split; [lia|done].
Qed.

(** On a well-formed table with the columns it reads, the full-table pass
    returns when no shell is an empty bin and stops with [TypeError] when
    one is. *)
Lemma normalise_full_table_outcome cs cm am t ds ints hs :
  table_wf t ->
  columns t !! "d" = Some (flex_double ds) ->
  columns t !! "intensity" = Some (flex_double ints) ->
  columns t !! "miller_index" = Some (flex_miller_index hs) ->
  class_means_listed cm -> class_means_listed am ->
  (~ class_has_empty_shell cm /\ ~ class_has_empty_shell am
   /\ exists t', normalise_full_table cs cm am t = OK t')
  \/ ((class_has_empty_shell cm \/ class_has_empty_shell am)
      /\ normalise_full_table cs cm am t = Raise TypeError).
Proof.
  intros Hwf Hd Hints Hhs Hcm Ham.
  pose proof (table_wf_column _ _ _ Hwf Hd) as Ld.
  pose proof (table_wf_column _ _ _ Hwf Hints) as Lints.
  pose proof (table_wf_column _ _ _ Hwf Hhs) as Lhs. simpl in Ld, Lints, Lhs.
  unfold normalise_full_table.
  rewrite (get_miller_index_ok _ _ _ Hhs). cbn [bind].
  rewrite setitem_ok by (simpl; apply length_replicate). cbn [bind].
  unfold centric_flags. cbn [set_crystal_symmetry set_indices].
  set (cflags := map (is_centric cs) hs).
  rewrite setitem_ok by (simpl; unfold cflags; rewrite length_map; done).
  cbn [bind nrows columns].
  erewrite !get_double_ok by (simpl; by simplify_map_eq).
  cbn [bind]. set (d0_sel := map (fun x => (x =? 0.0)%float) ds).
  unfold replace_column. cbn [nrows columns].
  erewrite get_double_ok by (simpl; by simplify_map_eq).
  cbn [bind].
  set (d1 := set_selected_value ds d0_sel 1.0%float).
  assert (Ld1 : length d1 = nrows t)
    by (unfold d1; by rewrite set_selected_value_length).
  rewrite setitem_ok by (simpl; unfold resolution_of_d; rewrite length_map; done).
  cbn [bind nrows columns].
  set (t4 := {| nrows := nrows t; columns := _ |}).
  assert (Hres4 : columns t4 !! "resolution" = Some (flex_double (resolution_of_d d1)))
    by (simpl; by simplify_map_eq).
  assert (Hints4 : columns t4 !! "intensity" = Some (flex_double ints))
    by (simpl; by simplify_map_eq).
  assert (Hesq4 : columns t4 !! "Esq"
                  = Some (flex_double (replicate (nrows t) 0.0%float)))
    by (simpl; by simplify_map_eq).
  assert (Hcf4 : columns t4 !! "centric_flag" = Some (flex_bool cflags))
    by (simpl; by simplify_map_eq).
  assert (Lres : length (resolution_of_d d1) = nrows t)
    by (unfold resolution_of_d; by rewrite length_map).
  assert (Lcf : length cflags = nrows t) by (unfold cflags; by rewrite length_map).
  pose proof (length_replicate (nrows t) 0.0%float) as Lz.
  destruct (class_loop_outcome cm cflags t4 _ _ _ Hres4 Hints4 Hesq4
              ltac:(congruence) ltac:(congruence) ltac:(congruence) Hcm)
    as [[Hne [t5 Hcentric]]|[He Hraise]].
  2:{ right. split; [by left|].
      destruct cm as [[mv bl]|]; [|done].
      rewrite (get_bool_ok _ _ _ Hcf4). cbn [bind]. by rewrite Hraise. }
  assert (Hcentric' :
    match cm with
    | None => OK t4
    | Some (mean_centric_values, centric_bin_limits) =>
        sel1 <- get_bool t4 "centric_flag" ;;
        normalise_class sel1 centric_bin_limits mean_centric_values t4
    end = OK t5).
  { destruct cm as [[mv bl]|]; [|done]. by rewrite (get_bool_ok _ _ _ Hcf4). }
  rewrite Hcentric'. cbn [bind].
  destruct (class_loop_run _ _ _ _ _ _ _ Hcentric Hres4 Hints4 Hesq4
              ltac:(congruence) ltac:(congruence) ltac:(congruence))
    as (esq5 & -> & Lesq5 & _).
  rewrite Lz in Lesq5.
  set (t5 := replace_column t4 "Esq" (flex_double esq5)) in *.
  assert (Hres5 : columns t5 !! "resolution" = Some (flex_double (resolution_of_d d1)))
    by (unfold t5; simpl; by simplify_map_eq).
  assert (Hints5 : columns t5 !! "intensity" = Some (flex_double ints))
    by (unfold t5; simpl; by simplify_map_eq).
  assert (Hesq5 : columns t5 !! "Esq" = Some (flex_double esq5))
    by (unfold t5; simpl; by simplify_map_eq).
  assert (Hcf5 : columns t5 !! "centric_flag" = Some (flex_bool cflags))
    by (unfold t5; simpl; by simplify_map_eq).
  assert (Lnot : length (flex_not cflags) = length esq5)
    by (unfold flex_not; rewrite length_map; congruence).
  destruct (class_loop_outcome am (flex_not cflags) t5 _ _ _ Hres5 Hints5 Hesq5
              Lnot ltac:(congruence) ltac:(congruence) Ham)
    as [[Hne' [t6 Hacentric]]|[He' Hraise']].
  2:{ right. split; [by right|].
      destruct am as [[mv bl]|]; [|done].
      rewrite (get_bool_ok _ _ _ Hcf5). cbn [bind]. by rewrite Hraise'. }
  left. split; [done|]. split; [done|].
  assert (Hacentric' :
    match am with
    | None => OK t5
    | Some (mean_acentric_values, acentric_bin_limits) =>
        centric_flag <- get_bool t5 "centric_flag" ;;
        normalise_class (flex_not centric_flag)
          acentric_bin_limits mean_acentric_values t5
    end = OK t6).
  { destruct am as [[mv bl]|]; [|done]. by rewrite (get_bool_ok _ _ _ Hcf5). }
  rewrite Hacentric'. cbn [bind].
  destruct (class_loop_run _ _ _ _ _ _ _ Hacentric Hres5 Hints5 Hesq5
              Lnot ltac:(congruence) ltac:(congruence))
    as (esq6 & -> & Lesq6 & _).
  unfold delitem, replace_column, t5, t4. cbn [nrows columns].
  erewrite get_double_ok by (simpl; by simplify_map_eq).
  cbn [bind nrows columns].
  erewrite get_double_ok by (simpl; by simplify_map_eq).
  cbn [bind]. by eexists.
Qed.

(** X3: on a well-formed table with the columns it reads, and with a mean
    list that has an entry for every shell, a run that reaches the shell
    loops raises [TypeError] when the binner reports an empty bin (a [None]
    mean) for some shell of a class that has members, whether or not a
    reflection of the full table falls in that shell. *)
Theorem calc_normE2_empty_shell t e fl hs ds ints rt ma nc na n cm am :
  table_wf t ->
  columns t !! "flags" = Some (flex_size_t fl) ->
  columns t !! "miller_index" = Some (flex_miller_index hs) ->
  columns t !! "d" = Some (flex_double ds) ->
  columns t !! "intensity" = Some (flex_double ints) ->
  statistics_subset t e = OK (rt, ma, nc, na) ->
  n_refl_shells na nc = Some n ->
  bin_averages rt ma nc na n = OK (cm, am) ->
  class_means_listed cm -> class_means_listed am ->
  class_has_empty_shell cm \/ class_has_empty_shell am ->
  calc_normE2 t e = Raise TypeError.
Proof.
  intros Hwf Hfl Hhs Hd Hints Hsub Hn Hbin Hcm Ham Hempty.
  unfold calc_normE2. rewrite Hsub. cbn [bind]. rewrite Hn, Hbin. cbn [bind].
  destruct (normalise_full_table_outcome (set_crystal_symmetry (array_set ma))
              cm am t ds ints hs Hwf Hd Hints Hhs Hcm Ham)
    as [(H1 & H2 & _)|[_ ->]]; [|done].
  destruct Hempty; contradiction.
Qed.

(** X4: on a well-formed table with the four columns [flags],
    [miller_index], [d] and [intensity], [calc_normE2] returns on the
    fallback path always, and on the other path whenever the binner returns
    and gives every shell of both classes a mean. *)
Theorem calc_normE2_returns_when_binned t e fl hs ds ints :
  table_wf t ->
  columns t !! "flags" = Some (flex_size_t fl) ->
  columns t !! "miller_index" = Some (flex_miller_index hs) ->
  columns t !! "d" = Some (flex_double ds) ->
  columns t !! "intensity" = Some (flex_double ints) ->
  (forall rt ma nc na n,
     statistics_subset t e = OK (rt, ma, nc, na) ->
     n_refl_shells na nc = Some n ->
     exists cm am, bin_averages rt ma nc na n = OK (cm, am)
                   /\ class_means_complete cm /\ class_means_complete am) ->
  exists t' log, calc_normE2 t e = OK (t', log).
Proof.
  intros Hwf Hfl Hhs Hd Hints Hbin.
  destruct (statistics_subset_run t e fl hs ds ints Hwf Hfl Hhs Hd Hints)
    as (rt & ma & Hsub & _).
  eapply calc_normE2_returns; try done.
  intros n Hn. by eapply Hbin.
Qed.

(** ** Further results about [set_wilson_outliers] *)

Lemma set_wilson_outliers_log t t' log :
  set_wilson_outliers t = OK (t', log) ->
  exists outliers,
    get_flags_all t' outlier_in_scaling = OK outliers
    /\ log = [Log_info (Outliers_identified (count_true outliers)
                          centric_cutoff acentric_cutoff)].
Proof.
  unfold set_wilson_outliers. intros H.
  do 6 (apply bind_ok_inv in H as (? & _ & H)).
  apply bind_ok_inv in H as (outliers & Hout & H). injection H as <- <-.
  by exists outliers.
Qed.

Lemma lor_outlier_idempotent (f o : Z) : Z.lor (Z.lor f o) o = Z.lor f o.
Proof. by rewrite <- Z.lor_assoc, Z.lor_diag. Qed.

Lemma land_lor_outlier (f o : Z) : Z.land (Z.lor f o) o = o.
Proof.
  apply Z.bits_inj'. intros n _. rewrite Z.land_spec, Z.lor_spec.
  destruct (Z.testbit f n), (Z.testbit o n); reflexivity.
Qed.

(** X5: [set_wilson_outliers] is idempotent: run on its own result it
    returns that result again, the table and the logged count alike. *)
Theorem set_wilson_outliers_idempotent t cf esq fl :
  table_wf t ->
  columns t !! "centric_flag" = Some (flex_bool cf) ->
  columns t !! "Esq" = Some (flex_double esq) ->
  columns t !! "flags" = Some (flex_size_t fl) ->
  exists t' log,
    set_wilson_outliers t = OK (t', log)
    /\ set_wilson_outliers t' = OK (t', log).
Proof.
  intros Hwf Hcf Hesq Hfl.
  pose proof (table_wf_column _ _ _ Hwf Hcf) as Lcf.
  pose proof (table_wf_column _ _ _ Hwf Hesq) as Lesq.
  pose proof (table_wf_column _ _ _ Hwf Hfl) as Lfl. simpl in Lcf, Lesq, Lfl.
  destruct (set_wilson_outliers_run t cf esq fl Hwf Hcf Hesq (or_introl Hfl))
    as (log & fl' & Hrun & Lfl' & Hrow).
  set (t' := {| nrows := nrows t; columns := <["flags" := flex_size_t fl']> (columns t) |})
    in *.
  assert (Hwf' : table_wf t').
  { unfold table_wf, t'. cbn [nrows columns].
    apply map_Forall_insert_2; [simpl; congruence|exact Hwf]. }
  destruct (set_wilson_outliers_run t' cf esq fl' Hwf')
    as (log2 & fl2 & Hrun2 & Lfl2 & Hrow2);
    [by simpl; rewrite lookup_insert_ne..|by left; simpl; rewrite lookup_insert_eq|].
  assert (Efl : fl2 = fl').
  { apply list_eq. intros j.
    destruct (fl !! j) as [f|] eqn:Hf.
    - destruct (lookup_lt_is_Some_2 cf j) as [c Hc];
        [apply lookup_lt_Some in Hf; lia|].
      destruct (lookup_lt_is_Some_2 esq j) as [x Hx];
        [apply lookup_lt_Some in Hf; lia|].
      pose proof (Hrow j c x f Hc Hx Hf) as H1.
      rewrite (Hrow2 j c x _ Hc Hx H1), H1.
      destruct (wilson_outlier c x); [|done]. by rewrite lor_outlier_idempotent.
    - apply lookup_ge_None in Hf.
      rewrite (proj2 (lookup_ge_None fl' j)), (proj2 (lookup_ge_None fl2 j)) by lia.
      done. }
  assert (Et : {| nrows := nrows t';
                  columns := <["flags" := flex_size_t fl2]> (columns t') |} = t').
  { unfold t'. cbn [nrows columns]. by rewrite Efl, insert_insert_eq. }
  rewrite Et in Hrun2.
  exists t', log. split; [exact Hrun|].
  destruct (set_wilson_outliers_log _ _ _ Hrun) as (o1 & Ho1 & ->).
  destruct (set_wilson_outliers_log _ _ _ Hrun2) as (o2 & Ho2 & ->).
  rewrite Ho1 in Ho2. by injection Ho2 as <-.
Qed.

(** X6: the number of outliers that [set_wilson_outliers] logs is the
    number of rows that carry the outlier bits after the call: the rows that
    meet the condition together with the rows that had the bits before the
    call, whatever their [Esq].  On a table without a ["flags"] column no
    row had them, and the number is that of the rows that meet the
    condition. *)
Theorem set_wilson_outliers_count t cf esq fl :
  table_wf t ->
  columns t !! "centric_flag" = Some (flex_bool cf) ->
  columns t !! "Esq" = Some (flex_double esq) ->
  flag_words t fl ->
  exists t',
    set_wilson_outliers t
    = OK (t', [Log_info (Outliers_identified
                 (count_true (zip_with (fun (cx : bool * float) f =>
                                          flagged_outlier cx.1 cx.2 f)
                                (zip cf esq) fl))
                 23.91 13.82)])
    /\ (columns t !! "flags" = None -> outlier_in_scaling <> 0%Z ->
        count_true (zip_with (fun (cx : bool * float) f => flagged_outlier cx.1 cx.2 f)
                      (zip cf esq) fl)
        = count_true (zip_with wilson_outlier cf esq)).
Proof.
  intros Hwf Hcf Hesq Hfl.
  pose proof (table_wf_column _ _ _ Hwf Hcf) as Lcf.
  pose proof (table_wf_column _ _ _ Hwf Hesq) as Lesq.
  pose proof (flag_words_length _ _ Hwf Hfl) as Lfl. simpl in Lcf, Lesq.
  destruct (set_wilson_outliers_run t cf esq fl Hwf Hcf Hesq Hfl)
    as (log & fl' & Hrun & Lfl' & Hrow).
  eexists. split.
  - rewrite Hrun. f_equal. f_equal.
    destruct (set_wilson_outliers_log _ _ _ Hrun) as (o & Ho & ->).
    unfold get_flags_all in Ho.
    erewrite get_size_t_ok in Ho by (simpl; apply lookup_insert_eq).
    cbn [bind] in Ho. injection Ho as <-.
    change 23.91%float with centric_cutoff. change 13.82%float with acentric_cutoff.
    do 4 f_equal. apply list_eq. intros j.
    rewrite list_lookup_map, lookup_zip_with, lookup_zip_with.
    destruct (fl !! j) as [f|] eqn:Hf.
    + destruct (lookup_lt_is_Some_2 cf j) as [c Hc];
        [apply lookup_lt_Some in Hf; lia|].
      destruct (lookup_lt_is_Some_2 esq j) as [x Hx];
        [apply lookup_lt_Some in Hf; lia|].
      rewrite (Hrow j c x f Hc Hx Hf), Hc, Hx. simpl. f_equal.
      unfold flagged_outlier. destruct (wilson_outlier c x); simpl; [|done].
      rewrite land_lor_outlier. apply Z.eqb_refl.
    + apply lookup_ge_None in Hf.
      rewrite (proj2 (lookup_ge_None fl' j)) by lia. simpl.
      by destruct (cf !! j), (esq !! j).
  - intros Hnone Hmask. destruct Hfl as [Hfl|[_ ->]]; [congruence|].
    f_equal. apply list_eq. intros j. rewrite !lookup_zip_with.
    destruct (cf !! j) as [c|] eqn:Hc; [|done]. cbn [mbind option_bind].
    destruct (esq !! j) as [x|] eqn:Hx; [|done]. cbn [mbind option_bind].
    rewrite lookup_replicate_2 by (apply lookup_lt_Some in Hc; lia).
    cbn [mbind option_bind fst snd]. f_equal. unfold flagged_outlier.
    rewrite Z.land_0_l. destruct (Z.eqb_spec 0 outlier_in_scaling); [congruence|].
    apply orb_false_r.
Qed.

(** ** Results about [_get_next_unique_id] *)

Lemma str_inj (a b : Z) : str a = str b -> a = b.
Proof. unfold str. apply (inj pretty). Qed.

(** The recursion returns the least id from [unique_id] on that is not
    taken, or runs out of frames with every id it tried taken. *)
Lemma get_next_unique_id_run (used_ids : list string) (depth : nat) :
  forall unique_id : Z,
  (exists r : Z,
     _get_next_unique_id depth unique_id used_ids = OK r
     /\ (unique_id <= r < unique_id + Z.of_nat depth)%Z
     /\ (str r ∉ used_ids)
     /\ forall k : Z, (unique_id <= k < r)%Z -> str k ∈ used_ids)
  \/ (_get_next_unique_id depth unique_id used_ids = Raise RuntimeError
      /\ forall k : Z, (unique_id <= k < unique_id + Z.of_nat depth)%Z -> str k ∈ used_ids).
Proof.
  induction depth as [|d IH]; intros uid; simpl.
  - right. split; [done|]. intros k Hk. lia.
  - unfold string_in. destruct (decide (str uid ∈ used_ids)) as [Hin|Hnin].
    + rewrite bool_decide_eq_true_2 by done. simpl.
      destruct (IH (uid + 1)%Z) as [(r & -> & Hr & Hfree & Hused)|[-> Hused]].
      * left. exists r. split; [done|]. split; [lia|]. split; [done|].
        intros k Hk. destruct (decide (k = uid)) as [->|]; [done|]. apply Hused. lia.
      * right. split; [done|]. intros k Hk.
        destruct (decide (k = uid)) as [->|]; [done|]. apply Hused. lia.
    + rewrite bool_decide_eq_false_2 by done. simpl. left. exists uid.
      split; [done|]. split; [lia|]. split; [done|]. intros k Hk. lia.
Qed.

(** A run of [n] consecutive ids that are all taken is no longer than the
    list of taken ids. *)
Lemma taken_run_length (used_ids : list string) (a : Z) (n : nat) :
  (forall k : Z, (a <= k < a + Z.of_nat n)%Z -> str k ∈ used_ids) ->
  n <= length used_ids.
Proof.
  intros H.
  assert (Hnd : NoDup (str <$> seqZ a (Z.of_nat n))).
  { apply NoDup_fmap_2; [intros x y; apply str_inj|apply NoDup_seqZ]. }
  assert (Hsub : forall s, s ∈ str <$> seqZ a (Z.of_nat n) -> s ∈ used_ids).
  { intros s Hs. apply list_elem_of_fmap in Hs as (k & -> & Hk).
    apply elem_of_seqZ in Hk. by apply H. }
  pose proof (submseteq_length _ _ (NoDup_submseteq _ _ Hnd Hsub)) as L.
  rewrite length_fmap, length_seqZ in L. lia.
Qed.

(** X9: with more frames than there are used ids, [_get_next_unique_id]
    returns the least integer from [unique_id] on whose decimal string is
    not among the used ids; it is at most [unique_id] plus the number of
    used ids. *)
Theorem get_next_unique_id_least (depth : nat) (unique_id : Z) (used_ids : list string) :
  length used_ids < depth ->
  exists r : Z,
    _get_next_unique_id depth unique_id used_ids = OK r
    /\ (unique_id <= r <= unique_id + Z.of_nat (length used_ids))%Z
    /\ (str r ∉ used_ids)
    /\ forall k : Z, (unique_id <= k < r)%Z -> str k ∈ used_ids.
Proof.
  intros Hdepth.
  destruct (get_next_unique_id_run used_ids depth unique_id)
    as [(r & Hrun & Hr & Hfree & Hused)|[_ Hused]].
  - exists r. split; [done|]. split; [|done].
    split; [lia|].
    pose proof (taken_run_length used_ids unique_id (Z.to_nat (r - unique_id))) as L.
    rewrite Z2Nat.id in L by lia.
    specialize (L ltac:(intros k Hk; apply Hused; lia)). lia.
  - apply taken_run_length in Hused. lia.
Qed.

(** X10: when the decimal strings of [unique_id], [unique_id + 1], ..., one
    for each frame the recursion limit leaves, are all among the used ids,
    [_get_next_unique_id] ends in the interpreter's recursion-depth
    [RuntimeError] instead of returning an id. *)
Theorem get_next_unique_id_recursion_limit (depth : nat) (unique_id : Z)
    (used_ids : list string) :
  (forall k : Z, (unique_id <= k < unique_id + Z.of_nat depth)%Z -> str k ∈ used_ids) ->
  _get_next_unique_id depth unique_id used_ids = Raise RuntimeError.
Proof.
  intros Hused.
  destruct (get_next_unique_id_run used_ids depth unique_id)
    as [(r & _ & Hr & Hfree & _)|[Hrun _]]; [|done].
  destruct Hfree. apply Hused. lia.
Qed.

(** ** Results about [assign_unique_identifiers] *)

Lemma pretty_N_go_nonempty (x : N) (s : string) : s <> "" -> pretty_N_go x s <> "".
Proof.
  revert s. induction (N.lt_wf_0 x) as [x _ IH]. intros s Hs.
  destruct (decide (x = 0%N)) as [->|Hx].
  - by rewrite pretty_N_go_0.
  - rewrite pretty_N_go_step by lia. apply IH; [apply N.div_lt; lia|done].
Qed.

Lemma pretty_N_nonempty (x : N) : pretty x <> "".
Proof.
  unfold pretty, pretty_N. case_decide; [done|].
  rewrite pretty_N_go_step by lia. by apply pretty_N_go_nonempty.
Qed.

Lemma str_nonempty (k : Z) : str k <> "".
Proof.
  unfold str, pretty, pretty_Z. destruct k as [|p|p]; [done| |done].
  apply (pretty_N_nonempty (Npos p)).
Qed.

Lemma given_identifiers_nil_r exps : given_identifiers exps [] = [].
Proof. unfold given_identifiers. simpl. by destruct exps. Qed.

Lemma given_identifiers_nil_l refls : given_identifiers [] refls = [].
Proof. unfold given_identifiers. by rewrite take_nil. Qed.

Lemma given_identifiers_cons e exps r refls :
  given_identifiers (e :: exps) (r :: refls)
  = if decide (identifier e <> "") then identifier e :: given_identifiers exps refls
    else given_identifiers exps refls.
Proof.
  unfold given_identifiers, identifiers. simpl. rewrite filter_cons. done.
Qed.

Lemma given_identifiers_elem exps refls (j : nat) e :
  exps !! j = Some e -> j < length refls -> identifier e <> "" ->
  identifier e ∈ given_identifiers exps refls.
Proof.
  revert refls j. induction exps as [|e0 exps IH]; intros [|r refls] j He Hj Hne;
    simpl in *; try done; try lia.
  rewrite given_identifiers_cons. destruct j as [|j]; simpl in He.
  - injection He as ->. rewrite decide_True by done. apply list_elem_of_here.
  - case_decide; [apply list_elem_of_further|]; apply (IH refls j); try done; lia.
Qed.

(** Lines 80-83 return the identifiers that are set, unless the table of an
    identified experiment fails its assertion. *)
Lemma collect_used_ids_outcome exps : forall refls acc,
  (collect_used_ids exps refls acc = Returned (acc ++ given_identifiers exps refls)
   /\ forall (i : nat) e r,
        exps !! i = Some e -> refls !! i = Some r -> identifier e <> "" ->
        are_experiment_identifiers_consistent r = true)
  \/ (collect_used_ids exps refls acc = AssertionError
      /\ exists (i : nat) e r,
           exps !! i = Some e /\ refls !! i = Some r /\ identifier e <> ""
           /\ are_experiment_identifiers_consistent r = false).
Proof.
  induction exps as [|e exps IH]; intros refls acc.
  - left. rewrite given_identifiers_nil_l, app_nil_r. by split.
  - destruct refls as [|r refls].
    { left. rewrite given_identifiers_nil_r, app_nil_r. by split. }
    simpl. rewrite given_identifiers_cons.
    destruct (String.eqb_spec (identifier e) "") as [E|E]; simpl.
    + rewrite decide_False by (intros H; by apply H).
      destruct (IH refls acc) as [[-> Hall]|[-> (i & e' & r' & H1 & H2 & H3 & H4)]].
      * left. split; [done|]. intros [|i] e' r' H1 H2 H3; simpl in *.
        -- congruence.
        -- by eapply Hall.
      * right. split; [done|]. by exists (S i), e', r'.
    + rewrite decide_True by done.
      destruct (are_experiment_identifiers_consistent r) eqn:Hr; simpl.
      * destruct (IH refls (acc ++ [identifier e]))
          as [[-> Hall]|[-> (i & e' & r' & H1 & H2 & H3 & H4)]].
        -- left. split; [by rewrite <- app_assoc|].
           intros [|i] e' r' H1 H2 H3; simpl in *.
           ++ congruence.
           ++ by eapply Hall.
        -- right. split; [done|]. by exists (S i), e', r'.
      * right. split; [done|]. by exists 0, e, r.
Qed.

Lemma assign_all_set_length exps : forall refls i,
  length (assign_all_set i exps refls) = length refls.
Proof.
  induction exps as [|e exps IH]; intros [|r refls] i; simpl; try done.
  by rewrite IH.
Qed.

(** The tables under the experiments are stamped; the others are as they
    were. *)
Lemma assign_all_set_lookup exps : forall refls (i j : nat) r,
  refls !! j = Some r ->
  assign_all_set i exps refls !! j
  = Some (match exps !! j with
          | Some e => stamped (i + j) (identifier e) r
          | None => r
          end).
Proof.
  induction exps as [|e exps IH]; intros [|r0 refls] i j r Hr; simpl in *; try done.
  destruct j as [|j]; simpl in *.
  - injection Hr as ->. by rewrite Nat.add_0_r.
  - rewrite (IH refls (S i) j r Hr). by replace (S i + j) with (i + S j) by lia.
Qed.

(** What the loops of lines 90-100 and 102-106 do to the experiments: the
    tables are those of lines 86-88 for the new identifiers, the models are
    kept, and so is every experiment that has an identifier or no table. *)
Lemma assign_some_set_run used exps : forall refls (i : nat) (u : Z) exps' refls',
  assign_some_set used i u exps refls = OK (exps', refls') ->
  refls' = assign_all_set i exps' refls
  /\ length exps' = length exps
  /\ map models exps' = map models exps
  /\ forall (j : nat) e,
       exps !! j = Some e -> identifier e <> "" \/ length refls <= j ->
       exps' !! j = Some e.
Proof.
  induction exps as [|e exps IH]; intros [|r refls] i u exps' refls' H; simpl in H;
    try (injection H as <- <-; repeat split; by auto).
  destruct (String.eqb_spec (identifier e) "") as [E|E]; simpl in H.
  - apply bind_ok_inv in H as (u' & Hu & H).
    apply bind_ok_inv in H as ([es rs] & Hrest & H). injection H as <- <-.
    destruct (IH _ _ _ _ _ Hrest) as (-> & L & M & K). simpl.
    split; [done|]. split; [by rewrite L|]. split; [by rewrite M|].
    intros [|j] e0 He0 [Hne|Hlen]; simpl in *; try lia.
    + congruence.
    + apply K; auto.
    + apply K; [done|]. right. lia.
  - apply bind_ok_inv in H as ([es rs] & Hrest & H). injection H as <- <-.
    destruct (IH _ _ _ _ _ Hrest) as (-> & L & M & K). simpl.
    split; [done|]. split; [by rewrite L|]. split; [by rewrite M|].
    intros [|j] e0 He0 [Hne|Hlen]; simpl in *; try lia.
    + done.
    + apply K; auto.
    + apply K; [done|]. right. lia.
Qed.

Lemma assign_none_set_run exps : forall refls (i : nat) exps' refls',
  assign_none_set i exps refls = (exps', refls') ->
  refls' = assign_all_set i exps' refls
  /\ length exps' = length exps
  /\ map models exps' = map models exps
  /\ forall (j : nat) e, exps !! j = Some e -> length refls <= j -> exps' !! j = Some e.
Proof.
  induction exps as [|e exps IH]; intros [|r refls] i exps' refls' H; simpl in H;
    try (injection H as <- <-; repeat split; by auto).
  destruct (assign_none_set (S i) exps refls) as [es rs] eqn:Hrest.
  injection H as <- <-.
  destruct (IH _ _ _ _ Hrest) as (-> & L & M & K). simpl.
  split; [done|]. split; [by rewrite L|]. split; [by rewrite M|].
  intros [|j] e0 He0 Hlen; simpl in *; try lia. apply K; [done|lia].
Qed.

(** A returned call passed the assertions and took one of the three
    branches. *)
Lemma assign_unique_identifiers_inv exps refls exps' refls' :
  assign_unique_identifiers exps refls = Returned (exps', refls') ->
  (size (list_to_set (given_identifiers exps refls) : gset string) = length refls
   /\ exps' = exps /\ refls' = assign_all_set 0 exps refls)
  \/ (size (list_to_set (given_identifiers exps refls) : gset string) <> length refls
      /\ given_identifiers exps refls <> []
      /\ assign_some_set (given_identifiers exps refls) 0 0 exps refls = OK (exps', refls'))
  \/ (size (list_to_set (given_identifiers exps refls) : gset string) <> length refls
      /\ given_identifiers exps refls = []
      /\ assign_none_set 0 exps refls = (exps', refls')).
Proof.
  unfold assign_unique_identifiers. intros H.
  destruct (collect_used_ids_outcome exps refls []) as [[Hc _]|[Hc _]];
    rewrite Hc in H; [|done].
  simpl in H.
  destruct (Nat.eqb_spec (size (list_to_set (given_identifiers exps refls) : gset string))
              (length refls)) as [E|E].
  - left. by injection H as <- <-.
  - right. destruct (given_identifiers exps refls) as [|s used'] eqn:Hu.
    + right. by injection H as <-.
    + left. split; [done|]. split; [done|].
      destruct (assign_some_set _ _ _ _ _) as [[es rs]|]; [|done].
      by injection H as <- <-.
Qed.

(** In each branch the tables are those of lines 86-88 for the returned
    experiments, whose models are the input's. *)
Lemma assign_unique_identifiers_run exps refls exps' refls' :
  assign_unique_identifiers exps refls = Returned (exps', refls') ->
  refls' = assign_all_set 0 exps' refls
  /\ length exps' = length exps
  /\ map models exps' = map models exps
  /\ forall (j : nat) e,
       exps !! j = Some e -> identifier e <> "" \/ length refls <= j ->
       exps' !! j = Some e.
Proof.
  intros H. apply assign_unique_identifiers_inv in H.
  destruct H as [(_ & -> & ->)|[(_ & _ & H)|(_ & Hnil & H)]].
  - repeat split; auto.
  - by eapply assign_some_set_run.
  - destruct (assign_none_set_run _ _ _ _ _ H) as (-> & L & M & K).
    split; [done|]. split; [done|]. split; [done|].
    intros j e He [Hne|Hlen]; [|by apply K].
    destruct (decide (j < length refls)) as [Hj|Hj]; [|apply K; [done|lia]].
    pose proof (given_identifiers_elem exps refls j e He Hj Hne) as Hin.
    rewrite Hnil in Hin. by apply elem_of_nil in Hin.
Qed.

(** X11: when [assign_unique_identifiers] returns, every table that has an
    experiment at its position [j] is stamped with it: its ['id'] column is
    [j] in every row, its [experiment_identifiers()] map has the returned
    experiment's identifier at key [j] and is otherwise the input's, and its
    other columns are untouched; a table past the end of the experiment
    list is returned as it was. *)
Theorem assign_unique_identifiers_stamps exps refls exps' refls' :
  assign_unique_identifiers exps refls = Returned (exps', refls') ->
  length refls' = length refls
  /\ forall (j : nat) r,
       refls !! j = Some r ->
       exists r',
         refls' !! j = Some r'
         /\ table_data r' = table_data r
         /\ (forall e', exps' !! j = Some e' ->
               table_id r' = Some (replicate (table_size r) (Z.of_nat j))
               /\ table_experiment_identifiers r'
                  = <[Z.of_nat j := identifier e']> (table_experiment_identifiers r))
         /\ (length exps <= j -> r' = r).
Proof.
  intros H. destruct (assign_unique_identifiers_run _ _ _ _ H) as (-> & L & _ & _).
  split; [apply assign_all_set_length|].
  intros j r Hr. rewrite (assign_all_set_lookup exps' refls 0 j r Hr). simpl.
  eexists. split; [done|].
  destruct (exps' !! j) as [e'|] eqn:He'.
  - split; [done|]. split; [by intros ? [= <-]|].
    intros Hj. apply lookup_lt_Some in He'. lia.
  - split; [done|]. split; [done|]. done.
Qed.

(** X12: [assign_unique_identifiers] changes nothing of an experiment but
    an identifier that is not set: the list keeps its length and its
    models, an experiment whose identifier is set is returned as it was,
    duplicates included, and so is an experiment that has no table at its
    position. *)
Theorem assign_unique_identifiers_keeps exps refls exps' refls' :
  assign_unique_identifiers exps refls = Returned (exps', refls') ->
  length exps' = length exps
  /\ map models exps' = map models exps
  /\ forall (j : nat) e,
       exps !! j = Some e -> identifier e <> "" \/ length refls <= j ->
       exps' !! j = Some e.
Proof. intros H. by destruct (assign_unique_identifiers_run _ _ _ _ H) as (_ & ? & ? & ?). Qed.

(** *** Distinct identifiers *)

Lemma size_list_to_set_le `{Countable A} (l : list A) :
  size (list_to_set l : gset A) <= length l.
Proof.
  induction l as [|x l IH]; [by rewrite list_to_set_nil, size_empty|].
  rewrite list_to_set_cons, size_union_alt, size_singleton. simpl.
  pose proof (subseteq_size (list_to_set l ∖ {[x]} : gset A) (list_to_set l)
                ltac:(set_solver)). lia.
Qed.

Lemma size_list_to_set_NoDup `{Countable A} (l : list A) :
  size (list_to_set l : gset A) = length l -> NoDup l.
Proof.
  induction l as [|x l IH]; [constructor|]. rewrite list_to_set_cons. simpl. intros Hsize.
  pose proof (size_list_to_set_le l) as Hle.
  destruct (decide (x ∈ l)) as [Hin|Hnin].
  - assert (E : ({[x]} ∪ list_to_set l : gset A) = list_to_set l) by set_solver.
    rewrite E in Hsize. lia.
  - rewrite size_union, size_singleton in Hsize by set_solver.
    constructor; [done|]. apply IH. lia.
Qed.

Lemma filter_length_Forall {A : Type} (P : A -> Prop) `{forall x, Decision (P x)}
    (l : list A) :
  length (filter P l) = length l -> Forall P l /\ filter P l = l.
Proof.
  induction l as [|x l IH]; [done|]. rewrite filter_cons.
  pose proof (length_filter P l) as Hle. case_decide; simpl; intros Hlen; [|lia].
  destruct IH as [HF E]; [lia|]. split; [by constructor|by rewrite E].
Qed.

Lemma assign_none_set_identifiers exps : forall refls (i : nat),
  length exps <= length refls ->
  identifiers (assign_none_set i exps refls).1
  = map (fun k => str (Z.of_nat k)) (seq i (length exps)).
Proof.
  induction exps as [|e exps IH]; intros [|r refls] i Hlen; simpl in *; try done; try lia.
  destruct (assign_none_set (S i) exps refls) as [es rs] eqn:Hrest. simpl.
  f_equal. specialize (IH refls (S i) ltac:(lia)). by rewrite Hrest in IH.
Qed.

(** The identifiers that lines 90-100 leave: those that were set, and
    fresh ones, each the string of an integer that no identifier before it
    has. *)
Lemma assign_some_set_distinct used exps : forall refls (i : nat) (u : Z) exps' refls',
  assign_some_set used i u exps refls = OK (exps', refls') ->
  length exps <= length refls ->
  (forall e, e ∈ exps -> identifier e <> "" -> identifier e ∈ used) ->
  NoDup (filter (fun s => s <> "") (identifiers exps)) ->
  NoDup (identifiers exps')
  /\ forall s, s ∈ identifiers exps' ->
       s <> ""
       /\ ((s ∈ identifiers exps /\ s ∈ used)
           \/ exists k : Z, (u <= k)%Z /\ s = str k /\ s ∉ used).
Proof.
  induction exps as [|e exps IH]; intros [|r refls] i u exps' refls' H Hlen Hused Hnd;
    simpl in *; try lia.
  { injection H as <- <-. split; [constructor|]. intros s Hs. by apply elem_of_nil in Hs. }
  { injection H as <- <-. split; [constructor|]. intros s Hs. by apply elem_of_nil in Hs. }
  unfold identifiers in Hnd. simpl in Hnd. rewrite filter_cons in Hnd.
  destruct (String.eqb_spec (identifier e) "") as [E|E]; simpl in H.
  - rewrite decide_False in Hnd by (intros Hne; by apply Hne).
    apply bind_ok_inv in H as (u' & Hu & H).
    apply bind_ok_inv in H as ([es rs] & Hrest & H). injection H as <- <-.
    destruct (get_next_unique_id_run used recursion_limit u)
      as [(u0 & Hu0 & Hr & Hfree & _)|[Hu0 _]]; rewrite Hu0 in Hu; [|done].
    injection Hu as ->.
    destruct (IH refls (S i) (u' + 1)%Z es rs Hrest ltac:(lia)) as [Hnd' Hchar];
      [intros e0 He0; apply Hused; by apply list_elem_of_further|exact Hnd|].
    split.
    + simpl. constructor; [|exact Hnd'].
      intros Hin. destruct (Hchar _ Hin) as (_ & [[_ Hu']|(k & Hk & Hs & _)]).
      * by apply Hfree.
      * apply str_inj in Hs. lia.
    + simpl. intros s Hs. apply elem_of_cons in Hs as [->|Hs].
      * split; [apply str_nonempty|]. right. exists u'. split; [lia|]. by split.
      * destruct (Hchar _ Hs) as (Hne & [[Hin Hu']|(k & Hk & -> & Hf)]).
        -- split; [done|]. left. split; [|done]. by apply list_elem_of_further.
        -- split; [done|]. right. exists k. split; [lia|]. by split.
  - rewrite decide_True in Hnd by done. apply NoDup_cons in Hnd as [Hnotin Hnd].
    apply bind_ok_inv in H as ([es rs] & Hrest & H). injection H as <- <-.
    destruct (IH refls (S i) u es rs Hrest ltac:(lia)) as [Hnd' Hchar];
      [intros e0 He0; apply Hused; by apply list_elem_of_further|exact Hnd|].
    assert (He : identifier e ∈ used) by (apply Hused; [apply list_elem_of_here|done]).
    split.
    + simpl. constructor; [|exact Hnd'].
      intros Hin. destruct (Hchar _ Hin) as (Hne & [[Hin' _]|(k & _ & _ & Hf)]).
      * apply Hnotin. apply list_elem_of_filter. by split.
      * by apply Hf.
    + simpl. intros s Hs. apply elem_of_cons in Hs as [->|Hs].
      * split; [done|]. left. split; [apply list_elem_of_here|done].
      * destruct (Hchar _ Hs) as (Hne & [[Hin Hu']|(k & Hk & -> & Hf)]).
        -- split; [done|]. left. split; [|done]. by apply list_elem_of_further.
        -- split; [done|]. right. exists k. split; [lia|]. by split.
Qed.

(** X13: with one table per experiment, and the identifiers that are set
    all different, [assign_unique_identifiers] returns experiments whose
    identifiers are all set and all different. *)
Theorem assign_unique_identifiers_distinct exps refls exps' refls' :
  length exps = length refls ->
  NoDup (filter (fun s => s <> "") (identifiers exps)) ->
  assign_unique_identifiers exps refls = Returned (exps', refls') ->
  NoDup (identifiers exps') /\ "" ∉ identifiers exps'.
Proof.
  intros Hlen Hnd H.
  assert (Hgiven : given_identifiers exps refls = filter (fun s => s <> "") (identifiers exps)).
  { unfold given_identifiers. by rewrite <- Hlen, firstn_all. }
  apply assign_unique_identifiers_inv in H.
  rewrite !Hgiven in H.
  destruct H as [(Hsize & -> & _)|[(_ & _ & H)|(_ & _ & H)]].
  - pose proof (size_list_to_set_le (filter (fun s => s <> "") (identifiers exps))) as H1.
    pose proof (length_filter (fun s => s <> "") (identifiers exps)) as H2.
    assert (L : length (identifiers exps) = length exps)
      by (unfold identifiers; apply length_map).
    destruct (filter_length_Forall (fun s => s <> "") (identifiers exps) ltac:(lia))
      as [HF E].
    split; [by rewrite <- E|].
    intros Hin. by eapply (proj1 (Forall_forall _ _) HF).
  - destruct (assign_some_set_distinct _ _ _ _ _ _ _ H ltac:(lia)) as [Hnd' Hchar];
      [|exact Hnd|].
    + intros e He Hne. apply list_elem_of_filter. split; [done|].
      unfold identifiers. by apply list_elem_of_fmap_2.
    + split; [done|]. intros Hin. by destruct (Hchar _ Hin) as [Hne _].
  - pose proof (assign_none_set_identifiers exps refls 0 ltac:(lia)) as Hids.
    rewrite H in Hids. simpl in Hids. rewrite Hids. split.
    + apply (NoDup_fmap_2_strong (fun k => str (Z.of_nat k))); [|apply NoDup_seq].
      intros x y _ _ Hxy. apply str_inj in Hxy. lia.
    + intros Hin. apply list_elem_of_fmap in Hin as (k & Hk & _).
      by apply (str_nonempty (Z.of_nat k)).
Qed.

(** X14: [assign_unique_identifiers] fails its assertion exactly when some
    experiment with an identifier set has, at its position, a table whose
    experiment identifiers are not consistent. *)
Theorem assign_unique_identifiers_assertion exps refls :
  assign_unique_identifiers exps refls = AssertionError
  <-> exists (i : nat) e r,
        exps !! i = Some e /\ refls !! i = Some r /\ identifier e <> ""
        /\ are_experiment_identifiers_consistent r = false.
Proof.
  unfold assign_unique_identifiers.
  destruct (collect_used_ids_outcome exps refls []) as [[-> Hall]|[-> Hex]]; simpl.
  - split.
    + case_match; [done|]. case_match; [done|].
      by destruct (assign_some_set _ _ _ _ _).
    + intros (i & e & r & H1 & H2 & H3 & H4). rewrite (Hall i e r H1 H2 H3) in H4. done.
  - done.
Qed.

Lemma assign_some_set_returns used exps : forall refls (i : nat) (u : Z),
  length used < recursion_limit ->
  exists res, assign_some_set used i u exps refls = OK res.
Proof.
  induction exps as [|e exps IH]; intros [|r refls] i u Hlim; simpl; try by eexists.
  destruct (negb _).
  - destruct (IH refls (S i) u Hlim) as [res ->]. by eexists.
  - destruct (get_next_unique_id_least recursion_limit u used Hlim) as (u' & -> & _).
    cbn [bind]. destruct (IH refls (S i) (u' + 1)%Z Hlim) as [res ->]. by eexists.
Qed.

(** X15: [assign_unique_identifiers] returns whenever no assertion fails
    and the recursion limit leaves more frames than there are identifiers
    set. *)
Theorem assign_unique_identifiers_returns exps refls :
  (forall (i : nat) e r,
     exps !! i = Some e -> refls !! i = Some r -> identifier e <> "" ->
     are_experiment_identifiers_consistent r = true) ->
  length (given_identifiers exps refls) < recursion_limit ->
  exists exps' refls', assign_unique_identifiers exps refls = Returned (exps', refls').
Proof.
  intros Hcons Hlim. unfold assign_unique_identifiers.
  destruct (collect_used_ids_outcome exps refls [])
    as [[-> _]|[_ (i & e & r & H1 & H2 & H3 & H4)]].
  2:{ rewrite (Hcons i e r H1 H2 H3) in H4. done. }
  simpl. case_match; [by eexists _, _|].
  destruct (given_identifiers exps refls) as [|s used'] eqn:Hu.
  - destruct (assign_none_set 0 exps refls) as [es rs]. by eexists _, _.
  - destruct (assign_some_set_returns (s :: used') exps refls 0 0 Hlim) as [[es rs] ->].
    by eexists _, _.
Qed.

(** ** Results about [select_datasets_on_ids] *)

Lemma list_index_of_first (l : list string) (x : string) :
  x ∈ l -> exists j : nat, list_index_of l x = OK j /\ first_position l x j.
Proof.
  induction l as [|y l IH]; intros Hin; [by apply elem_of_nil in Hin|]. simpl.
  destruct (String.eqb_spec y x) as [->|Hne].
  - exists 0. split; [done|]. split; [done|]. intros j' Hj'. lia.
  - apply elem_of_cons in Hin as [->|Hin]; [done|].
    destruct (IH Hin) as (j & -> & Hj & Hfirst). exists (S j).
    split; [done|]. split; [done|].
    intros [|j'] Hj'; simpl; [congruence|]. apply Hfirst. lia.
Qed.

Lemma list_index_of_missing (l : list string) (x : string) :
  x ∉ l -> list_index_of l x = Raise ValueError.
Proof.
  induction l as [|y l IH]; intros Hin; [done|]. simpl.
  apply not_elem_of_cons in Hin as [Hne Hin].
  destruct (String.eqb_spec y x) as [->|_]; [done|]. by rewrite IH.
Qed.

Lemma first_position_NoDup (l : list string) (x : string) (j : nat) :
  NoDup l -> l !! j = Some x -> first_position l x j.
Proof.
  intros Hnd Hj. split; [done|]. intros j' Hj' Hx.
  pose proof (NoDup_lookup l j' j x Hnd Hx Hj). lia.
Qed.

Lemma list_index_of_NoDup (l : list string) (x : string) (j : nat) :
  NoDup l -> l !! j = Some x -> list_index_of l x = OK j.
Proof.
  intros Hnd Hj.
  destruct (list_index_of_first l x) as (j0 & -> & Hj0 & _);
    [by eapply list_elem_of_lookup_2|].
  f_equal. by eapply NoDup_lookup.
Qed.

Lemma forallb_string_in (ids l : list string) :
  forallb (fun i => string_in i ids) l = true <-> forall x, x ∈ l -> x ∈ ids.
Proof.
  unfold string_in. induction l as [|y l IH]; simpl.
  - split; [intros _ x Hx; by apply elem_of_nil in Hx|done].
  - rewrite andb_true_iff, IH, bool_decide_eq_true. split.
    + intros [Hy Hl] x Hx. apply elem_of_cons in Hx as [->|Hx]; auto.
    + intros H. split; [apply H, list_elem_of_here|].
      intros x Hx. by apply H, list_elem_of_further.
Qed.

Lemma forallb_string_in_false (ids l : list string) :
  forallb (fun i => string_in i ids) l = false <-> exists x, x ∈ l /\ x ∉ ids.
Proof.
  unfold string_in. induction l as [|y l IH]; simpl.
  - split; [done|]. intros (x & Hx & _). by apply elem_of_nil in Hx.
  - rewrite andb_false_iff, IH, bool_decide_eq_false. split.
    + intros [Hy|(x & Hx & Hnot)].
      * exists y. split; [apply list_elem_of_here|done].
      * exists x. split; [by apply list_elem_of_further|done].
    + intros (x & Hx & Hnot). apply elem_of_cons in Hx as [->|Hx]; [by left|].
      right. by exists x.
Qed.

Lemma truthy_default {A : Type} (l : option (list A)) :
  truthy l = false -> default [] l = [].
Proof. by destruct l as [[|? ?]|]. Qed.

Lemma truthy_cons {A : Type} (l : option (list A)) :
  truthy l = true -> exists x xs, l = Some (x :: xs).
Proof. destruct l as [[|x xs]|]; try done. by exists x, xs. Qed.

(** X16: [select_datasets_on_ids] fails an assertion exactly when both
    [use_datasets] and [exclude_datasets] are given and non-empty, or when
    an id it is asked to use or to exclude is not the identifier of any
    experiment. *)
Theorem select_datasets_on_ids_assertion exps refls exclude_datasets use_datasets :
  select_datasets_on_ids exps refls exclude_datasets use_datasets = AssertionError
  <-> (truthy use_datasets = true /\ truthy exclude_datasets = true)
      \/ exists id_ : string,
           id_ ∈ default [] exclude_datasets ++ default [] use_datasets
           /\ id_ ∉ identifiers exps.
Proof.
  unfold select_datasets_on_ids.
  destruct (truthy use_datasets) eqn:Hu, (truthy exclude_datasets) eqn:He; simpl.
  - split; [by left|done].
  - rewrite (truthy_default _ He). simpl.
    destruct (forallb _ _) eqn:Hall; simpl.
    + pose proof (proj1 (forallb_string_in _ _) Hall) as Hall'. split.
      * by destruct (keep_datasets _ _ _ _ _ _ _).
      * intros [[_ ?]|(x & Hx & Hnot)]; [done|]. destruct Hnot. by apply Hall'.
    + split; [|done]. intros _. right. by apply forallb_string_in_false.
  - rewrite (truthy_default _ Hu), app_nil_r.
    destruct (forallb _ _) eqn:Hall; simpl.
    + pose proof (proj1 (forallb_string_in _ _) Hall) as Hall'. split.
      * by destruct (remove_datasets _ _ _ _ _).
      * intros [[? _]|(x & Hx & Hnot)]; [done|]. destruct Hnot. by apply Hall'.
    + split; [|done]. intros _. right. by apply forallb_string_in_false.
  - rewrite (truthy_default _ Hu), (truthy_default _ He). split; [done|].
    intros [[? _]|(x & Hx & _)]; [done|]. by apply elem_of_nil in Hx.
Qed.

(** *** Selecting the datasets to use *)

Lemma keep_datasets_run exps refls :
  length exps <= length refls ->
  forall use ne nr log,
    (forall x, x ∈ use -> x ∈ identifiers exps) ->
    exists es rs,
      keep_datasets (identifiers exps) use exps refls ne nr log
      = OK (ne ++ es, nr ++ rs, log ++ using_log use)
      /\ identifiers es = use
      /\ length rs = length use
      /\ forall (k : nat) x,
           use !! k = Some x ->
           exists (j : nat) e r,
             first_position (identifiers exps) x j
             /\ exps !! j = Some e /\ refls !! j = Some r
             /\ es !! k = Some e /\ rs !! k = Some r.
Proof.
  intros Hlen. induction use as [|x use IH]; intros ne nr log Hknown.
  - exists [], []. simpl. rewrite !app_nil_r. repeat split; try done.
  - simpl.
    destruct (list_index_of_first (identifiers exps) x) as (j & -> & Hj & Hfirst);
      [apply Hknown, list_elem_of_here|]. cbn [bind].
    assert (Hjlt : j < length exps).
    { apply lookup_lt_Some in Hj. unfold identifiers in Hj. by rewrite length_map in Hj. }
    destruct (lookup_lt_is_Some_2 exps j Hjlt) as [e He].
    destruct (lookup_lt_is_Some_2 refls j ltac:(lia)) as [r Hr].
    unfold list_index. rewrite He, Hr. cbn [bind].
    destruct (IH (ne ++ [e]) (nr ++ [r])
                (log ++ [Dataset_info (Using_dataset_for_scaling x)]))
      as (es & rs & -> & Hids & Lrs & Hrow);
      [intros y Hy; by apply Hknown, list_elem_of_further|].
    exists (e :: es), (r :: rs). rewrite <- !app_assoc. simpl.
    split; [done|]. split; [|split; [by rewrite Lrs|]].
    + f_equal; [|done]. unfold identifiers in Hj. rewrite list_lookup_fmap, He in Hj.
      by injection Hj.
    + intros [|k] y Hy; simpl in Hy.
      * injection Hy as <-. by exists j, e, r.
      * by apply Hrow.
Qed.

(** X17: with every requested id the identifier of an experiment, and a
    table for every experiment, [select_datasets_on_ids] with
    [use_datasets] returns one experiment and one table for each requested
    id, in the order of the request: the experiment at the first position
    where the id is the identifier, and the table at that position.  The
    identifiers of the returned experiments are the requested ids. *)
Theorem select_datasets_on_ids_use exps refls exclude_datasets use_ids :
  truthy exclude_datasets = false ->
  use_ids <> [] ->
  (forall x, x ∈ use_ids -> x ∈ identifiers exps) ->
  length exps <= length refls ->
  exists exps' refls',
    select_datasets_on_ids exps refls exclude_datasets (Some use_ids)
    = Returned (exps', refls', using_log use_ids)
    /\ identifiers exps' = use_ids
    /\ length refls' = length use_ids
    /\ forall (k : nat) x,
         use_ids !! k = Some x ->
         exists (j : nat) e r,
           first_position (identifiers exps) x j
           /\ exps !! j = Some e /\ refls !! j = Some r
           /\ exps' !! k = Some e /\ refls' !! k = Some r.
Proof.
  intros He Hne Hknown Hlen. unfold select_datasets_on_ids.
  assert (Hu : truthy (Some use_ids) = true) by (by destruct use_ids).
  rewrite Hu, He. simpl.
  rewrite (proj2 (forallb_string_in _ _) Hknown). simpl.
  destruct (keep_datasets_run exps refls Hlen use_ids [] [] [] Hknown)
    as (es & rs & -> & Hids & Lrs & Hrow).
  by exists es, rs.
Qed.

(** *** Excluding datasets *)

Lemma string_ge_total : Total string_ge.
Proof. intros a b. unfold string_ge. destruct (String.leb_total a b); auto. Qed.

Lemma string_ge_trans : Transitive string_ge.
Proof.
  intros a b c. unfold string_ge, String.leb. intros Hab Hbc.
  change String.compare with OrderedTypeEx.String_as_OT.cmp in *.
  destruct (OrderedTypeEx.String_as_OT.cmp c b) eqn:E1; [| |done];
    destruct (OrderedTypeEx.String_as_OT.cmp b a) eqn:E2; try done.
  - apply OrderedTypeEx.String_as_OT.cmp_eq in E1, E2. subst.
    by rewrite (proj2 (OrderedTypeEx.String_as_OT.cmp_eq a a) eq_refl).
  - apply OrderedTypeEx.String_as_OT.cmp_eq in E1. subst. by rewrite E2.
  - apply OrderedTypeEx.String_as_OT.cmp_eq in E2. subst. by rewrite E1.
  - apply OrderedTypeEx.String_as_OT.cmp_lt in E1, E2.
    pose proof (OrderedTypeEx.String_as_OT.lt_trans _ _ _ E1 E2) as E.
    apply OrderedTypeEx.String_as_OT.cmp_lt in E. by rewrite E.
Qed.

Lemma string_ge_ne_ltb (a b : string) : string_ge a b -> a <> b -> String.ltb b a = true.
Proof.
  unfold string_ge, String.leb, String.ltb. intros H Hne.
  destruct (String.compare b a) eqn:E; try done.
  apply String.compare_eq_iff in E. congruence.
Qed.

Lemma sorted_reverse_Permutation (l : list string) : sorted_reverse l ≡ₚ l.
Proof. apply merge_sort_Permutation. Qed.

Lemma sorted_reverse_sorted (l : list string) : StronglySorted string_ge (sorted_reverse l).
Proof.
  apply StronglySorted_merge_sort; [apply string_ge_trans|apply string_ge_total].
Qed.

Lemma take_split_at {A : Type} (l : list A) :
  forall (p bound : nat) (x : A),
    p < bound -> l !! p = Some x ->
    take bound l = take p l ++ x :: take (bound - S p) (drop (S p) l).
Proof.
  induction l as [|y l IH]; intros [|p] [|bound] x Hlt Hp; simpl in *; try lia; try done.
  - injection Hp as ->. by rewrite Nat.sub_0_r.
  - f_equal. apply IH; [lia|done].
Qed.

Lemma filter_ext_elem {A : Type} (P Q : A -> Prop)
    `{forall x, Decision (P x)} `{forall x, Decision (Q x)} (l : list A) :
  (forall x, x ∈ l -> P x <-> Q x) -> filter P l = filter Q l.
Proof.
  induction l as [|x l IH]; intros Hext; [done|].
  rewrite !filter_cons.
  pose proof (Hext x (list_elem_of_here _ _)) as Hx.
  rewrite IH by (intros y Hy; by apply Hext, list_elem_of_further).
  repeat case_decide; try done; tauto.
Qed.

Lemma elem_of_zip_l {A B : Type} (l : list A) (k : list B) (x : A) (y : B) :
  (x, y) ∈ zip l k -> x ∈ l.
Proof.
  revert k. induction l as [|a l IH]; intros [|b k] Hin; simpl in Hin;
    try (by apply elem_of_nil in Hin).
  apply elem_of_cons in Hin as [[= -> ->]|Hin]; [apply list_elem_of_here|].
  apply list_elem_of_further. by eapply IH.
Qed.

(** Deleting at positions that go down deletes the entries that were at
    these positions: below [bound], where [keys] and the list are in step,
    the entries with a key of [ids] go and the others stay. *)
Lemma delete_each_descending {A : Type} (keys : list string) (ids : list string) :
  forall (bound : nat) (cur : list A),
    bound <= length keys -> bound <= length cur ->
    NoDup (take bound keys) ->
    StronglySorted (position_gt keys) ids ->
    (forall x, x ∈ ids -> exists p : nat, p < bound /\ keys !! p = Some x) ->
    delete_each keys ids cur
    = OK (without_keys (take bound keys) ids (take bound cur) ++ drop bound cur).
Proof.
  induction ids as [|x rest IH]; intros bound cur Hk Hc Hnd Hs Hpos.
  - simpl. unfold without_keys.
    rewrite (filter_ext_elem _ (fun _ => True)).
    2:{ intros [k a] _. simpl. split; [done|]. intros _ Hin. by apply elem_of_nil in Hin. }
    assert (E : filter (fun _ : string * A => True) (zip (take bound keys) (take bound cur))
                = zip (take bound keys) (take bound cur)).
    { generalize (zip (take bound keys) (take bound cur)). intros l.
      induction l as [|y l IHl]; [done|]. rewrite filter_cons_True by done. by rewrite IHl. }
    rewrite E, snd_zip by (rewrite !length_take; lia). by rewrite take_drop.
  - apply StronglySorted_inv in Hs as [Hs Hx].
    destruct (Hpos x (list_elem_of_here _ _)) as (p & Hp & Hkp).
    assert (Hfirst : list_index_of keys x = OK p).
    { destruct (list_index_of_first keys x) as (p0 & Hidx & Hp0 & Hmin);
        [by eapply list_elem_of_lookup_2|].
      rewrite Hidx. f_equal.
      destruct (decide (p0 = p)) as [|Hne]; [done|].
      assert (p0 < p).
      { destruct (decide (p < p0)); [|lia]. by destruct (Hmin p). }
      eapply (NoDup_lookup (take bound keys) p0 p x Hnd);
        rewrite lookup_take_lt by lia; done. }
    simpl. rewrite Hfirst. cbn [bind]. unfold del_index.
    rewrite decide_True by lia. cbn [bind].
    destruct (lookup_lt_is_Some_2 cur p ltac:(lia)) as [c Hcp].
    pose proof Hnd as Hnd'.
    rewrite (take_split_at keys p bound x Hp Hkp) in Hnd'.
    apply NoDup_app in Hnd' as (Hnd1 & Hnd2 & Hnd3).
    apply NoDup_cons in Hnd3 as [Hnd3 Hnd4].
    assert (Hlen : p <= length (delete p cur)).
    { rewrite length_delete by (apply lookup_lt_is_Some_2; lia). lia. }
    assert (Hpos' : forall y, y ∈ rest -> exists q : nat, q < p /\ keys !! q = Some y).
    { intros y Hy. destruct (Hpos y (list_elem_of_further _ _ _ Hy)) as (q & Hq & Hkq).
      exists q. split; [|done].
      exact (proj1 (Forall_forall _ _) Hx y Hy p q Hkp Hkq). }
    rewrite (IH p (delete p cur) ltac:(lia) Hlen Hnd1 Hs Hpos').
    rewrite delete_take_drop.
    rewrite take_app_le by (rewrite length_take; lia).
    rewrite take_take, Nat.min_id.
    rewrite drop_app_ge by (rewrite length_take; lia).
    rewrite length_take, Nat.min_l, Nat.sub_diag by lia. simpl.
    rewrite (take_split_at keys p bound x Hp Hkp), (take_split_at cur p bound c Hp Hcp).
    unfold without_keys.
    rewrite zip_with_app by (rewrite !length_take; lia). simpl.
    rewrite filter_app, filter_cons_False
      by (simpl; intros Hn; apply Hn, list_elem_of_here).
    rewrite fmap_app.
    rewrite (filter_ext_elem (fun kx : string * A => kx.1 ∉ x :: rest)
               (fun kx : string * A => kx.1 ∉ rest) (zip (take p keys) (take p cur))).
    2:{ intros [k a] Hin. simpl. apply elem_of_zip_l in Hin.
        rewrite not_elem_of_cons. split; [tauto|]. intros Hn. split; [|done].
        intros ->. by apply (Hnd2 x Hin), list_elem_of_here. }
    rewrite <- app_assoc. f_equal.
    rewrite (filter_ext_elem (fun kx : string * A => kx.1 ∉ x :: rest) (fun _ => True)).
    2:{ intros [k a] Hin. simpl. apply elem_of_zip_l in Hin. split; [done|]. intros _.
        apply not_elem_of_cons. split; [intros ->; done|].
        intros Hrest. apply elem_of_take in Hin as (i & Hi & _).
        rewrite lookup_drop in Hi.
        pose proof (proj1 (Forall_forall _ _) Hx k Hrest p (S p + i) Hkp Hi). lia. }
    assert (E : forall l : list (string * A), filter (fun _ : string * A => True) l = l).
    { intros l. induction l as [|y l IHl]; [done|].
      rewrite filter_cons_True by done. by rewrite IHl. }
    rewrite E, snd_zip by (rewrite !length_take, !length_drop; lia).
    replace (drop bound cur) with (drop (bound - S p) (drop (S p) cur))
      by (rewrite drop_drop; f_equal; lia).
    by rewrite take_drop.
Qed.

Lemma remove_datasets_delete_each keys reverse_ids :
  forall exps refls log exps' refls',
    delete_each keys reverse_ids exps = OK exps' ->
    delete_each keys reverse_ids refls = OK refls' ->
    remove_datasets keys reverse_ids exps refls log
    = OK (exps', refls', log ++ removing_log reverse_ids).
Proof.
  induction reverse_ids as [|x rest IH]; intros exps refls log exps' refls' He Hr;
    simpl in *.
  - injection He as <-. injection Hr as <-. by rewrite app_nil_r.
  - apply bind_ok_inv in He as (i & Hi & He). rewrite Hi in Hr |- *. cbn [bind] in *.
    apply bind_ok_inv in He as (es & -> & He).
    apply bind_ok_inv in Hr as (rs & -> & Hr). cbn [bind].
    rewrite (IH _ _ _ _ _ He Hr), <- app_assoc. done.
Qed.

Lemma without_keys_identifiers (exps : list (dataset_experiment space_group))
    (ids : list string) :
  without_keys (identifiers exps) ids exps = filter (fun e => identifier e ∉ ids) exps.
Proof.
  unfold without_keys, identifiers. induction exps as [|e exps IH]; [done|].
  change (zip (map identifier (e :: exps)) (e :: exps))
    with ((identifier e, e) :: zip (map identifier exps) exps).
  rewrite !filter_cons. cbn [fst].
  case_decide; [rewrite fmap_cons; cbn [snd]; f_equal|]; exact IH.
Qed.

Lemma without_keys_zip (exps : list (dataset_experiment space_group))
    (refls : list dataset_table) (ids : list string) :
  without_keys (identifiers exps) ids refls
  = (filter (fun er : dataset_experiment space_group * dataset_table =>
               identifier er.1 ∉ ids) (zip exps refls)).*2.
Proof.
  unfold without_keys, identifiers. revert refls.
  induction exps as [|e exps IH]; intros [|r refls]; try done.
  change (zip (map identifier (e :: exps)) (r :: refls))
    with ((identifier e, r) :: zip (map identifier exps) refls).
  change (zip (e :: exps) (r :: refls)) with ((e, r) :: zip exps refls).
  rewrite !filter_cons. cbn [fst].
  case_decide; [rewrite !fmap_cons; cbn [snd]; f_equal|]; apply IH.
Qed.

(** X18: excluding datasets removes exactly the experiments whose
    identifier is excluded, each with the table at its position, and keeps
    the others in their order, when the identifiers are all different and
    the excluded ones stand in the experiment list in the order of their
    strings.  (The deletions go by the positions the identifiers had
    before the first deletion, from the greatest string down.) *)
Theorem select_datasets_on_ids_exclude exps refls ids use_datasets :
  truthy use_datasets = false ->
  ids <> [] ->
  NoDup ids ->
  NoDup (identifiers exps) ->
  (forall x, x ∈ ids -> x ∈ identifiers exps) ->
  length refls = length exps ->
  (forall (a b : string) (pa pb : nat),
     a ∈ ids -> b ∈ ids ->
     identifiers exps !! pa = Some a -> identifiers exps !! pb = Some b ->
     String.ltb a b = true -> pa < pb) ->
  select_datasets_on_ids exps refls (Some ids) use_datasets
  = Returned (filter (fun e => identifier e ∉ ids) exps,
              (filter (fun er : dataset_experiment space_group * dataset_table =>
                         identifier er.1 ∉ ids) (zip exps refls)).*2,
              removing_log (sorted_reverse ids)).
Proof.
  intros Hu Hne Hnd Hndk Hknown Hlen Hmono. unfold select_datasets_on_ids.
  assert (He : truthy (Some ids) = true) by (by destruct ids).
  rewrite Hu, He. simpl.
  rewrite (proj2 (forallb_string_in _ _) Hknown). simpl.
  pose proof (sorted_reverse_Permutation ids) as Hperm.
  pose proof (sorted_reverse_sorted ids) as Hsorted.
  assert (Hnd' : NoDup (sorted_reverse ids)) by (by rewrite Hperm).
  assert (Hs : StronglySorted (position_gt (identifiers exps)) (sorted_reverse ids)).
  { revert Hsorted Hnd'.
    assert (Hin : forall x, x ∈ sorted_reverse ids -> x ∈ ids)
      by (intros x Hx; by rewrite <- Hperm).
    revert Hin. generalize (sorted_reverse ids). intros l.
    induction l as [|x l IH]; intros Hin Hsorted Hnd'; [constructor|].
    apply StronglySorted_inv in Hsorted as [Hsorted Hx].
    apply NoDup_cons in Hnd' as [Hx' Hnd'].
    constructor; [apply IH; [intros y Hy; by apply Hin, list_elem_of_further|done..]|].
    apply Forall_forall. intros y Hy px py Hpx Hpy.
    apply (Hmono y x py px); [by apply Hin, list_elem_of_further|
                               apply Hin, list_elem_of_here|done..|].
    apply string_ge_ne_ltb; [exact (proj1 (Forall_forall _ _) Hx y Hy)|].
    intros ->. done. }
  assert (Hpos : forall x, x ∈ sorted_reverse ids ->
            exists p : nat, p < length (identifiers exps) /\ identifiers exps !! p = Some x).
  { intros x Hx. rewrite Hperm in Hx. apply Hknown in Hx.
    apply list_elem_of_lookup_1 in Hx as [p Hp]. exists p. split; [|done].
    by eapply lookup_lt_Some. }
  assert (Lk : length (identifiers exps) = length exps)
    by (unfold identifiers; apply length_map).
  pose proof (delete_each_descending (identifiers exps) (sorted_reverse ids)
                (length (identifiers exps)) exps ltac:(lia) ltac:(lia)
                ltac:(by rewrite firstn_all) Hs Hpos) as Hde.
  pose proof (delete_each_descending (identifiers exps) (sorted_reverse ids)
                (length (identifiers exps)) refls ltac:(lia) ltac:(lia)
                ltac:(by rewrite firstn_all) Hs Hpos) as Hdr.
  rewrite firstn_all, Lk, firstn_all, drop_all, app_nil_r in Hde.
  rewrite firstn_all, Lk, <- Hlen, firstn_all, drop_all, app_nil_r in Hdr.
  rewrite (remove_datasets_delete_each _ _ _ _ [] _ _ Hde Hdr). simpl.
  rewrite without_keys_identifiers, without_keys_zip.
  do 3 f_equal.
  - apply list_filter_iff. intros e. by rewrite Hperm.
  - f_equal. apply list_filter_iff. intros e. by rewrite Hperm.
Qed.

Lemma string_ge_antisym : AntiSymm eq string_ge.
Proof. intros a b Hab Hba. unfold string_ge in *. by apply String.leb_antisym. Qed.

Lemma ltb_string_ge (a b : string) : String.ltb b a = true -> string_ge a b.
Proof. unfold string_ge, String.ltb, String.leb. by destruct (String.compare b a). Qed.

(** X19: when two excluded identifiers stand in the experiment list
    against the order of their strings ([a] before [b], but [b] less than
    [a] as a string), the dataset of [a] is deleted first and the stale
    position of [b] then points one entry too far: the call deletes the
    dataset of [a] and the dataset after that of [b], which itself stays,
    or raises [IndexError] when the dataset of [b] is the last one. *)
Theorem select_datasets_on_ids_exclude_out_of_order exps refls ids a b pa pb use_datasets :
  truthy use_datasets = false ->
  ids ≡ₚ [a; b] ->
  length refls = length exps ->
  NoDup (identifiers exps) ->
  identifiers exps !! pa = Some a ->
  identifiers exps !! pb = Some b ->
  pa < pb ->
  String.ltb b a = true ->
  select_datasets_on_ids exps refls (Some ids) use_datasets
  = (if decide (pb + 1 < length exps)
     then Returned (delete pb (delete pa exps), delete pb (delete pa refls),
                    removing_log [a; b])
     else Raised IndexError)
  /\ delete pb (delete pa exps) !! (pb - 1) = exps !! pb
  /\ delete pb (delete pa exps) !! pb = exps !! (pb + 2).
Proof.
  intros Hu Hperm Hlen Hnd Ha Hb Hlt Hba.
  assert (Lk : length (identifiers exps) = length exps)
    by (unfold identifiers; apply length_map).
  pose proof (lookup_lt_Some _ _ _ Ha) as La.
  pose proof (lookup_lt_Some _ _ _ Hb) as Lb.
  split; [|split].
  - unfold select_datasets_on_ids.
    assert (He : truthy (Some ids) = true).
    { destruct ids; [|done]. by apply Permutation_nil_l in Hperm. }
    rewrite Hu, He. simpl.
    rewrite (proj2 (forallb_string_in _ _)).
    2:{ intros x Hx. rewrite Hperm in Hx.
        apply elem_of_cons in Hx as [->|Hx]; [by eapply list_elem_of_lookup_2|].
        apply list_elem_of_singleton in Hx as ->. by eapply list_elem_of_lookup_2. }
    simpl.
    assert (Hsort : sorted_reverse ids = [a; b]).
    { apply (@StronglySorted_unique _ string_ge string_ge_antisym);
        [apply sorted_reverse_sorted| |by rewrite sorted_reverse_Permutation].
      repeat constructor. by apply ltb_string_ge. }
    rewrite Hsort. simpl.
    rewrite (list_index_of_NoDup _ _ _ Hnd Ha), (list_index_of_NoDup _ _ _ Hnd Hb).
    cbn [bind]. unfold del_index.
    rewrite !(decide_True (P := pa < _)) by lia. cbn [bind].
    rewrite !length_delete by (apply lookup_lt_is_Some_2; lia).
    destruct (decide (pb + 1 < length exps)) as [H|H].
    + rewrite !decide_True by lia. done.
    + rewrite decide_False by lia. done.
  - rewrite list_lookup_delete_lt by lia. rewrite list_lookup_delete_ge by lia.
    f_equal. lia.
  - rewrite list_lookup_delete_ge by lia. rewrite list_lookup_delete_ge by lia.
    f_equal. lia.
Qed.

(** ** Results about [parse_multiple_datasets] *)

Lemma for_each_prefix_invariant {S A : Type} (P : list A -> S -> Prop)
    (body : S -> A -> result S) :
  (forall seen s a s', P seen s -> body s a = OK s' -> P (seen ++ [a]) s') ->
  forall items seen s s',
    for_each body items s = OK s' -> P seen s -> P (seen ++ items) s'.
Proof.
  intros Hstep. induction items as [|a items IH]; intros seen s s' Hrun HP; simpl in Hrun.
  - injection Hrun as <-. by rewrite app_nil_r.
  - apply bind_ok_inv in Hrun as (s1 & Hbody & Hrun).
    rewrite cons_middle, app_assoc. eapply IH; [exact Hrun|]. by eapply Hstep.
Qed.

Lemma has_duplicates_false (l : list Z) : has_duplicates l = false <-> NoDup l.
Proof.
  unfold has_duplicates. rewrite negb_false_iff, Nat.eqb_eq. split.
  - intros E. by apply size_list_to_set_NoDup.
  - intros Hnd. by rewrite size_list_to_set.
Qed.

Lemma NoDup_range (n : nat) : NoDup (map Z.of_nat (seq 0 n)).
Proof.
  apply (NoDup_fmap_2_strong Z.of_nat); [|apply NoDup_seq]. intros x y _ _ E. lia.
Qed.

Lemma select_eq_replicate (ids : list Z) (d : Z) :
  select ids (map (fun x => (x =? d)%Z) ids)
  = replicate (count_flags (map (fun x => (x =? d)%Z) ids)) d.
Proof.
  induction ids as [|x ids IH]; [done|]. simpl.
  destruct (Z.eqb_spec x d) as [->|_]; simpl; by rewrite IH.
Qed.

Lemma dataset_ids_of_replicate (n : nat) (d : Z) :
  size (dataset_ids_of (replicate n d)) <= 1.
Proof.
  rewrite <- (size_singleton (C := gset Z) d). apply subseteq_size.
  unfold dataset_ids_of. intros x Hx. apply elem_of_difference in Hx as [Hx _].
  apply elem_of_list_to_set, elem_of_replicate in Hx as [-> _]. set_solver.
Qed.

Lemma split_datasets_inv t ids : forall ds pieces,
  table_id t = Some ids ->
  split_datasets t ds = OK pieces ->
  Forall2 (fun d t' => dataset_table_select t (map (fun x => (x =? d)%Z) ids) = OK t')
    ds pieces.
Proof.
  induction ds as [|d ds IH]; intros pieces Hid H; simpl in H.
  - injection H as <-. constructor.
  - unfold get_id in H. rewrite Hid in H. cbn [bind] in H.
    apply bind_ok_inv in H as (t' & Hsel & H).
    apply bind_ok_inv in H as (rest & Hrest & H). injection H as <-.
    constructor; [done|]. by apply IH.
Qed.

Lemma split_datasets_returns t ids : forall ds,
  table_id t = Some ids -> length ids = table_size t ->
  exists pieces, split_datasets t ds = OK pieces.
Proof.
  intros ds Hid Hlen. induction ds as [|d ds [rest IH]]; [by eexists|]. simpl.
  unfold get_id. rewrite Hid. cbn [bind].
  unfold dataset_table_select, table_select.
  rewrite decide_True by (rewrite length_map; exact Hlen). cbn [bind].
  rewrite IH. by eexists.
Qed.

Lemma dataset_table_select_id t flags t' ids :
  table_id t = Some ids ->
  dataset_table_select t flags = OK t' ->
  table_id t' = Some (select ids flags)
  /\ table_select (table_data t) flags = OK (table_data t').
Proof.
  unfold dataset_table_select. intros Hid H.
  apply bind_ok_inv in H as (data & Hdata & H). injection H as <-.
  simpl. by rewrite Hid.
Qed.

(** One turn of the loop: the table is kept whole or split by dataset id,
    its ids are appended, and the list of ids is renumbered when it has a
    duplicate. *)
Lemma parse_dataset_inv tables l log t tables' l' log' :
  parse_dataset (tables, l, log) t = OK (tables', l', log') ->
  exists ids pieces,
    table_id t = Some ids
    /\ tables' = tables ++ pieces
    /\ (if decide (1 < size (dataset_ids_of ids))
        then split_datasets t (set_iter (dataset_ids_of ids)) = OK pieces
        else pieces = [t])
    /\ (if decide (NoDup (l ++ set_iter (dataset_ids_of ids)))
        then l' = l ++ set_iter (dataset_ids_of ids)
        else l' = map Z.of_nat (seq 0 (length (l ++ set_iter (dataset_ids_of ids))))).
Proof.
  unfold parse_dataset. intros H.
  apply bind_ok_inv in H as (ids & Hid & H).
  unfold get_id in Hid. destruct (table_id t) as [ids0|] eqn:Hid0; [|done].
  injection Hid as ->.
  apply bind_ok_inv in H as ([tables1 log1] & Hsplit & H).
  exists ids.
  assert (Hpieces : exists pieces,
            tables1 = tables ++ pieces
            /\ if decide (1 < size (dataset_ids_of ids))
               then split_datasets t (set_iter (dataset_ids_of ids)) = OK pieces
               else pieces = [t]).
  { destruct (Nat.ltb_spec 1 (size (dataset_ids_of ids))) as [Hn|Hn].
    - apply bind_ok_inv in Hsplit as (pieces & Hp & Hsplit). injection Hsplit as <- <-.
      exists pieces. by rewrite decide_True by done.
    - injection Hsplit as <- <-. exists [t]. by rewrite decide_False by lia. }
  destruct Hpieces as (pieces & -> & Hpieces). exists pieces.
  split; [done|].
  destruct (has_duplicates _) eqn:Hdup.
  - injection H as <- <- <-. split; [done|]. split; [done|].
    rewrite decide_False; [done|]. intros Hnd. apply has_duplicates_false in Hnd. congruence.
  - injection H as <- <- <-. split; [done|]. split; [done|].
    rewrite decide_True; [done|]. by apply has_duplicates_false.
Qed.

(** X20: the list of dataset ids that [parse_multiple_datasets] returns has
    no duplicate: a list with a duplicate is replaced, in the turn of the
    loop that finds it, by the numbers from 0 on. *)
Theorem parse_multiple_datasets_ids_distinct reflections tables ids log :
  parse_multiple_datasets reflections = OK (tables, ids, log) ->
  NoDup ids.
Proof.
  unfold parse_multiple_datasets. intros H.
  apply (for_each_prefix_invariant
           (fun _ (s : list dataset_table * list Z * list dataset_log_record) =>
              NoDup s.1.2) parse_dataset) with (seen := []) in H; [done| |constructor].
  intros seen [[ts l] lg] t [[ts' l'] lg'] _ Hstep. simpl.
  apply parse_dataset_inv in Hstep as (ids0 & pieces & _ & _ & _ & Hl).
  case_decide; subst l'; [done|apply NoDup_range].
Qed.

(** X21: when every table has an ['id'] column with at most one dataset id
    in it (other than -1), [parse_multiple_datasets] returns the tables it
    was given, unchanged and in their order. *)
Theorem parse_multiple_datasets_single reflections :
  (forall t, t ∈ reflections ->
     exists ids, table_id t = Some ids /\ size (dataset_ids_of ids) <= 1) ->
  exists ids log, parse_multiple_datasets reflections = OK (reflections, ids, log).
Proof.
  unfold parse_multiple_datasets.
  assert (H : forall tables l log,
            (forall t, t ∈ reflections ->
               exists ids, table_id t = Some ids /\ size (dataset_ids_of ids) <= 1) ->
            exists ids log',
              for_each parse_dataset reflections (tables, l, log)
              = OK (tables ++ reflections, ids, log')).
  { induction reflections as [|t reflections IH]; intros tables l log Hall.
    - simpl. rewrite app_nil_r. by eexists _, _.
    - destruct (Hall t (list_elem_of_here _ _)) as (ids & Hid & Hsize).
      simpl. unfold get_id. rewrite Hid. cbn [bind].
      destruct (Nat.ltb_spec 1 (size (dataset_ids_of ids))) as [Hn|_]; [lia|].
      cbn [bind].
      assert (Hall' : forall t', t' ∈ reflections ->
                exists ids, table_id t' = Some ids /\ size (dataset_ids_of ids) <= 1)
        by (intros t' Ht'; by apply Hall, list_elem_of_further).
      destruct (has_duplicates _); cbn [bind].
      + destruct (IH (tables ++ [t])
                    (map Z.of_nat (seq 0 (length (l ++ set_iter (dataset_ids_of ids)))))
                    (log ++ [Dataset_warn Duplicate_dataset_ids_found]) Hall')
          as (ids' & log' & ->).
        rewrite <- app_assoc. by eexists _, _.
      + destruct (IH (tables ++ [t]) (l ++ set_iter (dataset_ids_of ids)) log Hall')
          as (ids' & log' & ->).
        rewrite <- app_assoc. by eexists _, _. }
  intros Hall. by apply (H [] [] []).
Qed.

Lemma parse_dataset_returns tables l log t :
  dataset_table_wf t ->
  exists tables' l' log', parse_dataset (tables, l, log) t = OK (tables', l', log').
Proof.
  intros (ids & Hid & Hlen). unfold parse_dataset, get_id. rewrite Hid. cbn [bind].
  destruct (1 <? _).
  - destruct (split_datasets_returns t ids (set_iter (dataset_ids_of ids)) Hid Hlen)
      as [pieces ->].
    cbn [bind]. destruct (has_duplicates _); by eexists _, _, _.
  - cbn [bind]. destruct (has_duplicates _); by eexists _, _, _.
Qed.

Lemma for_each_parse_returns reflections : forall tables l log,
  Forall dataset_table_wf reflections ->
  exists tables' l' log',
    for_each parse_dataset reflections (tables, l, log) = OK (tables', l', log').
Proof.
  induction reflections as [|t reflections IH]; intros tables l log Hwf.
  - by eexists _, _, _.
  - apply Forall_cons in Hwf as [Ht Hwf]. cbn [for_each].
    destruct (parse_dataset_returns tables l log t Ht) as (ts & l1 & lg & ->).
    cbn [bind]. by apply IH.
Qed.

Lemma for_each_app {S A : Type} (body : S -> A -> result S) (l1 l2 : list A) (s : S) :
  for_each body (l1 ++ l2) s = (s' <- for_each body l1 s ;; for_each body l2 s').
Proof.
  revert s. induction l1 as [|a l1 IH]; intros s; simpl; [done|].
  destruct (body s a) as [s1|]; simpl; [apply IH|done].
Qed.

(** X22: [parse_multiple_datasets] returns whenever every table has an
    ['id'] column with one entry per row, and it raises the missing-column
    [KeyError] for ['id'] at the first table that has no such column. *)
Theorem parse_multiple_datasets_returns reflections :
  (Forall dataset_table_wf reflections ->
   exists tables ids log, parse_multiple_datasets reflections = OK (tables, ids, log))
  /\ (forall good t rest,
        reflections = good ++ t :: rest ->
        Forall dataset_table_wf good -> table_id t = None ->
        parse_multiple_datasets reflections = Raise (KeyError "id")).
Proof.
  unfold parse_multiple_datasets. split.
  - apply for_each_parse_returns.
  - intros good t rest -> Hgood Hid. rewrite for_each_app.
    destruct (for_each_parse_returns good [] [] [] Hgood) as (ts & l & lg & ->).
    cbn [bind]. simpl. unfold get_id. by rewrite Hid.
Qed.

(** X23: when no dataset id occurs in two tables, the returned list of
    dataset ids is the list of the ids of the tables, table after table,
    each table's ids in the order of its set: nothing is renumbered. *)
Theorem parse_multiple_datasets_disjoint reflections tables ids log :
  NoDup (concat (map (fun t => set_iter (table_dataset_ids t)) reflections)) ->
  parse_multiple_datasets reflections = OK (tables, ids, log) ->
  ids = concat (map (fun t => set_iter (table_dataset_ids t)) reflections).
Proof.
  unfold parse_multiple_datasets. intros Hnd H.
  pose (P := fun (seen : list dataset_table)
                 (s : list dataset_table * list Z * list dataset_log_record) =>
               NoDup (concat (map (fun t => set_iter (table_dataset_ids t)) seen)) ->
               s.1.2 = concat (map (fun t => set_iter (table_dataset_ids t)) seen)).
  assert (Hstep : forall seen s a s', P seen s -> parse_dataset s a = OK s' ->
                                      P (seen ++ [a]) s').
  { intros seen [[ts l] lg] t [[ts' l'] lg'] IH Hstep. unfold P in *. simpl in *.
    rewrite map_app, concat_app. simpl. rewrite app_nil_r. intros Hnd'.
    apply parse_dataset_inv in Hstep as (ids0 & pieces & Hid & _ & _ & Hl).
    unfold table_dataset_ids in Hnd' |- *. rewrite Hid in Hnd' |- *. simpl in Hnd' |- *.
    rewrite IH in Hl by (by apply NoDup_app in Hnd' as [? _]).
    rewrite decide_True in Hl by done. exact Hl. }
  exact (for_each_prefix_invariant P parse_dataset Hstep reflections [] _ _ H
           (fun _ => eq_refl) Hnd).
Qed.

Section SetIteration.

(** Iterating over a set yields each of its elements once. *)
Hypothesis set_iter_elements : forall s : gset Z, set_iter s ≡ₚ elements s.

Lemma elem_of_set_iter (s : gset Z) (x : Z) : x ∈ set_iter s <-> x ∈ s.
Proof using set_iter_elements. by rewrite set_iter_elements, elem_of_elements. Qed.

Lemma length_set_iter (s : gset Z) : length (set_iter s) = size s.
Proof using set_iter_elements. by rewrite set_iter_elements. Qed.

(** X24: every table that [parse_multiple_datasets] returns holds at most
    one dataset: it is a table of the input that held at most one, or it
    is the selection, from a table of the input that held several, of the
    rows of one dataset id, which is not -1; its ['id'] column then is that
    id in every row.  The rows with id -1 of a table that is split are in
    none of the returned tables. *)
Theorem parse_multiple_datasets_tables reflections tables ids log :
  parse_multiple_datasets reflections = OK (tables, ids, log) ->
  forall t', t' ∈ tables ->
    size (table_dataset_ids t') <= 1
    /\ ((t' ∈ reflections /\ is_Some (table_id t'))
        \/ exists t ids0 (d : Z),
             t ∈ reflections /\ table_id t = Some ids0
             /\ 1 < size (dataset_ids_of ids0)
             /\ d ∈ ids0 /\ d <> (-1)%Z
             /\ dataset_table_select t (map (fun x => (x =? d)%Z) ids0) = OK t'
             /\ table_id t'
                = Some (replicate (count_flags (map (fun x => (x =? d)%Z) ids0)) d)).
Proof using set_iter_elements.
  unfold parse_multiple_datasets. intros H.
  pose (P := fun (seen : list dataset_table)
                 (s : list dataset_table * list Z * list dataset_log_record) =>
               forall t', t' ∈ s.1.1 ->
                 size (table_dataset_ids t') <= 1
                 /\ ((t' ∈ seen /\ is_Some (table_id t'))
                     \/ exists t ids0 (d : Z),
                          t ∈ seen /\ table_id t = Some ids0
                          /\ 1 < size (dataset_ids_of ids0)
                          /\ d ∈ ids0 /\ d <> (-1)%Z
                          /\ dataset_table_select t (map (fun x => (x =? d)%Z) ids0) = OK t'
                          /\ table_id t'
                             = Some (replicate
                                       (count_flags (map (fun x => (x =? d)%Z) ids0)) d))).
  refine (for_each_prefix_invariant P parse_dataset _ reflections [] _ _ H _).
  2:{ intros t' Ht'. by apply elem_of_nil in Ht'. }
  clear H. intros seen [[ts l] lg] t [[ts' l'] lg'] IH Hstep. unfold P in *. simpl in *.
  apply parse_dataset_inv in Hstep as (ids0 & pieces & Hid & -> & Hpieces & _).
  intros t' Ht'. apply elem_of_app in Ht' as [Ht'|Ht'].
  - destruct (IH t' Ht') as [Hsize [[Hin Hsome]|(t0 & i0 & d & Hin & Hrest)]].
    + split; [done|]. left. split; [|done]. apply elem_of_app. by left.
    + split; [done|]. right. exists t0, i0, d. split; [|done]. apply elem_of_app. by left.
  - case_decide as Hn.
    + apply split_datasets_inv with (ids := ids0) in Hpieces; [|done].
      apply list_elem_of_lookup_1 in Ht' as [k Hk].
      destruct (Forall2_lookup_r _ _ _ _ _ Hpieces Hk) as (d & Hd & Hsel).
      apply list_elem_of_lookup_2, elem_of_set_iter in Hd.
      unfold dataset_ids_of in Hd. apply elem_of_difference in Hd as [Hd1 Hd2].
      apply elem_of_list_to_set in Hd1.
      destruct (dataset_table_select_id _ _ _ _ Hid Hsel) as [Hid' _].
      rewrite select_eq_replicate in Hid'.
      split.
      * unfold table_dataset_ids. rewrite Hid'. simpl. apply dataset_ids_of_replicate.
      * right. exists t, ids0, d. split; [apply elem_of_app; right; apply list_elem_of_here|].
        repeat split; try done. set_solver.
    + subst pieces. apply list_elem_of_singleton in Ht' as ->. split.
      * unfold table_dataset_ids. rewrite Hid. simpl. lia.
      * left. split; [apply elem_of_app; right; apply list_elem_of_here|by rewrite Hid].
Qed.

(** X25: [parse_multiple_datasets] returns one dataset id for each dataset
    id of each table, and one table for each dataset id of each table and
    one for each table without a dataset id: the two lists have the same
    length exactly when every table holds a dataset. *)
Theorem parse_multiple_datasets_counts reflections tables ids log :
  parse_multiple_datasets reflections = OK (tables, ids, log) ->
  length ids = sum_list_with (fun t => size (table_dataset_ids t)) reflections
  /\ length tables
     = sum_list_with (fun t => Nat.max 1 (size (table_dataset_ids t))) reflections.
Proof using set_iter_elements.
  unfold parse_multiple_datasets. intros H.
  pose (P := fun (seen : list dataset_table)
                 (s : list dataset_table * list Z * list dataset_log_record) =>
               length s.1.2 = sum_list_with (fun t => size (table_dataset_ids t)) seen
               /\ length s.1.1
                  = sum_list_with (fun t => Nat.max 1 (size (table_dataset_ids t))) seen).
  refine (for_each_prefix_invariant P parse_dataset _ reflections [] _ _ H _); [|done].
  clear H. intros seen [[ts l] lg] t [[ts' l'] lg'] [IH1 IH2] Hstep. unfold P. simpl in *.
  apply parse_dataset_inv in Hstep as (ids0 & pieces & Hid & -> & Hpieces & Hl).
  rewrite !sum_list_with_app. simpl. unfold table_dataset_ids at 2 4.
  rewrite Hid. simpl. split.
  - assert (length l' = length (l ++ set_iter (dataset_ids_of ids0))) as ->.
    { case_decide; subst l'; [done|]. by rewrite length_map, length_seq. }
    rewrite length_app, length_set_iter. lia.
  - rewrite length_app. clear Hl. case_decide as Hn.
    + apply split_datasets_inv with (ids := ids0) in Hpieces; [|done].
      apply Forall2_length in Hpieces. rewrite length_set_iter in Hpieces. lia.
    + subst pieces. simpl. lia.
Qed.

End SetIteration.

(** ** Results about the crystal-frame transform *)

Section FrameTransform.

(** The rotator returns one vector per input vector. *)
Hypothesis rotate_vectors_about_axis_length :
  forall axis vectors angles,
    length vectors = length angles ->
    length (rotate_vectors_about_axis axis vectors angles) = length vectors.

Lemma align_rotation_axis_along_z_canonical u vectors :
  vec3_eqb u (0.0, 0.0, 1.0)%float = true ->
  align_rotation_axis_along_z [u] vectors = OK vectors.
Proof. unfold align_rotation_axis_along_z. by intros ->. Qed.

Lemma align_rotation_axis_along_z_length u vectors vectors' :
  align_rotation_axis_along_z [u] vectors = OK vectors' ->
  length vectors' = length vectors.
Proof using rotate_vectors_about_axis_length.
  unfold align_rotation_axis_along_z.
  destruct (vec3_eqb u _); [by intros [= ->]|].
  simpl. destruct u as [[ux uy] uz].
  destruct (angle_between_u_z ux uy uz) as [a|]; simpl; [|done].
  intros [= <-]. apply rotate_vectors_about_axis_length. by rewrite length_replicate.
Qed.

Lemma align_rotation_axis_along_z_alignable u vectors :
  axis_alignable u -> exists vectors', align_rotation_axis_along_z [u] vectors = OK vectors'.
Proof.
  intros [H|H].
  - exists vectors. by apply align_rotation_axis_along_z_canonical.
  - unfold align_rotation_axis_along_z.
    destruct (vec3_eqb u _); [by eauto|].
    simpl. destruct u as [[ux uy] uz].
    destruct (angle_between_u_z ux uy uz) as [a|]; simpl; [by eauto|done].
Qed.

(** The shape of a successful run: the three columns are written over the
    input's columns, the other columns and the row count are the input's. *)
Lemma calc_crystal_frame_vectors_run t e phi s1 :
  table_wf t ->
  columns t !! "phi" = Some (flex_double phi) ->
  columns t !! "s1" = Some (flex_vec3_double s1) ->
  axis_alignable (goniometer_get_rotation_axis e) ->
  let axis := [goniometer_get_rotation_axis e] in
  let angles := inverse_rotation_angles phi in
  let s0 := replicate (nrows t) (beam_get_s0 e) in
  exists s1c s0c,
    align_rotation_axis_along_z axis (rotate_vectors_about_axis axis s1 angles) = OK s1c
    /\ align_rotation_axis_along_z axis (rotate_vectors_about_axis axis s0 angles) = OK s0c
    /\ calc_crystal_frame_vectors t e
       = OK {| nrows := nrows t;
               columns := <["s0c" := flex_vec3_double s0c]>
                          (<["s1c" := flex_vec3_double s1c]>
                          (<["s0c" := flex_vec3_double (rotate_vectors_about_axis axis s0 angles)]>
                          (<["s1c" := flex_vec3_double (rotate_vectors_about_axis axis s1 angles)]>
                          (<["s0" := flex_vec3_double s0]> (columns t))))) |}.
Proof using rotate_vectors_about_axis_length.
  intros Hwf Hphi Hs1 Hax. cbv zeta.
  pose proof (table_wf_column _ _ _ Hwf Hphi) as Lphi.
  pose proof (table_wf_column _ _ _ Hwf Hs1) as Ls1. simpl in Lphi, Ls1.
  assert (Lang : length (inverse_rotation_angles phi) = nrows t)
    by (unfold inverse_rotation_angles; by rewrite length_map).
  pose proof (length_replicate (nrows t) (beam_get_s0 e)) as Ls0.
  pose proof (rotate_vectors_about_axis_length [goniometer_get_rotation_axis e]
                s1 (inverse_rotation_angles phi) ltac:(congruence)) as Lr1.
  pose proof (rotate_vectors_about_axis_length [goniometer_get_rotation_axis e]
                (replicate (nrows t) (beam_get_s0 e)) (inverse_rotation_angles phi)
                ltac:(congruence)) as Lr0.
  destruct (align_rotation_axis_along_z_alignable _
              (rotate_vectors_about_axis [goniometer_get_rotation_axis e] s1
                 (inverse_rotation_angles phi)) Hax) as [s1c Hs1c].
  destruct (align_rotation_axis_along_z_alignable _
              (rotate_vectors_about_axis [goniometer_get_rotation_axis e]
                 (replicate (nrows t) (beam_get_s0 e))
                 (inverse_rotation_angles phi)) Hax) as [s0c Hs0c].
  pose proof (align_rotation_axis_along_z_length _ _ _ Hs1c) as L1.
  pose proof (align_rotation_axis_along_z_length _ _ _ Hs0c) as L0.
  exists s1c, s0c. split; [done|]. split; [done|].
  unfold calc_crystal_frame_vectors.
  rewrite setitem_ok by exact Ls0. cbn [bind nrows columns].
  erewrite get_double_ok by (simpl; by simplify_map_eq). cbn [bind].
  erewrite get_vec3_double_ok by (simpl; by simplify_map_eq). cbn [bind].
  rewrite setitem_ok by (simpl; congruence). cbn [bind nrows columns].
  erewrite get_vec3_double_ok by (simpl; by simplify_map_eq). cbn [bind].
  rewrite setitem_ok by (simpl; congruence). cbn [bind nrows columns].
  erewrite get_vec3_double_ok by (simpl; by simplify_map_eq). cbn [bind].
  rewrite Hs1c. cbn [bind].
  rewrite setitem_ok by (simpl; congruence). cbn [bind nrows columns].
  erewrite get_vec3_double_ok by (simpl; by simplify_map_eq). cbn [bind].
  rewrite Hs0c. cbn [bind].
  rewrite setitem_ok by (simpl; congruence). cbn [bind nrows columns].
  done.
Qed.


(** C7, as amended: for the rotation axis equal to (0.0, 0.0, 1.0) the
    input vectors are returned as they are, with no angle computed and no
    call of the rotator. *)
Theorem align_rotation_axis_along_z_canonical_axis u vectors :
  vec3_eqb u (0.0, 0.0, 1.0)%float = true ->
  align_rotation_axis_along_z [u] vectors = OK vectors.
Proof. apply align_rotation_axis_along_z_canonical. Qed.

(** C8: when the rotation axis is the canonical (0,0,1), [s1c] and [s0c]
    are exactly [s1] and [s0] rotated about the axis by minus [phi] in
    radians: the re-alignment changes nothing. *)
Theorem calc_crystal_frame_vectors_canonical_axis t e phi s1 :
  table_wf t ->
  columns t !! "phi" = Some (flex_double phi) ->
  columns t !! "s1" = Some (flex_vec3_double s1) ->
  vec3_eqb (goniometer_get_rotation_axis e) (0.0, 0.0, 1.0)%float = true ->
  let axis := [goniometer_get_rotation_axis e] in
  let angles := map (fun p => (p * -1.0 * math_pi / 180)%float) phi in
  let s0 := replicate (nrows t) (beam_get_s0 e) in
  exists t',
    calc_crystal_frame_vectors t e = OK t'
    /\ columns t' !! "s0" = Some (flex_vec3_double s0)
    /\ columns t' !! "s1c"
       = Some (flex_vec3_double (rotate_vectors_about_axis axis s1 angles))
    /\ columns t' !! "s0c"
       = Some (flex_vec3_double (rotate_vectors_about_axis axis s0 angles)).
Proof using rotate_vectors_about_axis_length.
  intros Hwf Hphi Hs1 Hax axis angles s0.
  destruct (calc_crystal_frame_vectors_run t e phi s1 Hwf Hphi Hs1 (or_introl Hax))
    as (s1c & s0c & Hs1c & Hs0c & Hrun).
  rewrite align_rotation_axis_along_z_canonical in Hs1c, Hs0c by done.
  injection Hs1c as <-. injection Hs0c as <-.
  eexists. split; [exact Hrun|]. cbn [columns].
  repeat split; by simplify_map_eq.
Qed.

(** C10, as amended: the call writes the columns [s0], [s0c] and [s1c]
    (over columns of these names that the table already had), leaves every
    other column as it was, and keeps the row count. *)
Theorem calc_crystal_frame_vectors_frame t e phi s1 :
  table_wf t ->
  columns t !! "phi" = Some (flex_double phi) ->
  columns t !! "s1" = Some (flex_vec3_double s1) ->
  axis_alignable (goniometer_get_rotation_axis e) ->
  exists t',
    calc_crystal_frame_vectors t e = OK t'
    /\ nrows t' = nrows t
    /\ dom (columns t') = dom (columns t) ∪ {["s0"; "s0c"; "s1c"]}
    /\ forall k, k ∉ ({["s0"; "s0c"; "s1c"]} : gset string) ->
                 columns t' !! k = columns t !! k.
Proof using rotate_vectors_about_axis_length.
  intros Hwf Hphi Hs1 Hax.
  destruct (calc_crystal_frame_vectors_run t e phi s1 Hwf Hphi Hs1 Hax)
    as (s1c & s0c & _ & _ & Hrun).
  eexists. split; [exact Hrun|]. cbn [nrows columns]. split; [done|]. split.
  - rewrite !dom_insert_L. set_solver.
  - intros k Hk. rewrite !lookup_insert_ne by set_solver. done.
Qed.

(** ** Further results about the crystal-frame transform *)

Lemma calc_crystal_frame_vectors_wf t e phi s1 t' :
  table_wf t ->
  columns t !! "phi" = Some (flex_double phi) ->
  columns t !! "s1" = Some (flex_vec3_double s1) ->
  axis_alignable (goniometer_get_rotation_axis e) ->
  calc_crystal_frame_vectors t e = OK t' ->
  table_wf t' /\ nrows t' = nrows t
  /\ columns t' !! "phi" = Some (flex_double phi)
  /\ columns t' !! "s1" = Some (flex_vec3_double s1).
Proof using rotate_vectors_about_axis_length.
  without_collaborators. intros Hwf Hphi Hs1 Hax Hrun.
  pose proof (table_wf_column _ _ _ Hwf Hphi) as Lphi.
  pose proof (table_wf_column _ _ _ Hwf Hs1) as Ls1. simpl in Lphi, Ls1.
  destruct (calc_crystal_frame_vectors_run t e phi s1 Hwf Hphi Hs1 Hax)
    as (s1c & s0c & Hs1c & Hs0c & Hrun').
  rewrite Hrun in Hrun'. injection Hrun' as ->.
  apply align_rotation_axis_along_z_length in Hs1c, Hs0c.
  assert (Lang : length (inverse_rotation_angles phi) = nrows t)
    by (unfold inverse_rotation_angles; by rewrite length_map).
  rewrite rotate_vectors_about_axis_length in Hs1c by congruence.
  rewrite rotate_vectors_about_axis_length in Hs0c
    by (rewrite length_replicate; congruence).
  rewrite length_replicate in Hs0c.
  split; [|split; [done|split; by simpl; rewrite !lookup_insert_ne]].
  unfold table_wf. cbn [nrows columns].
  repeat (apply map_Forall_insert_2;
          [simpl; rewrite ?rotate_vectors_about_axis_length, ?length_replicate;
           rewrite ?length_replicate; congruence|]).
  exact Hwf.
Qed.

(** X7: [calc_crystal_frame_vectors] is idempotent: it reads [phi] and
    [s1] only, so run on its own result it returns that result again. *)
Theorem calc_crystal_frame_vectors_idempotent t e phi s1 :
  table_wf t ->
  columns t !! "phi" = Some (flex_double phi) ->
  columns t !! "s1" = Some (flex_vec3_double s1) ->
  axis_alignable (goniometer_get_rotation_axis e) ->
  exists t',
    calc_crystal_frame_vectors t e = OK t'
    /\ calc_crystal_frame_vectors t' e = OK t'.
Proof using rotate_vectors_about_axis_length.
  intros Hwf Hphi Hs1 Hax.
  destruct (calc_crystal_frame_vectors_run t e phi s1 Hwf Hphi Hs1 Hax)
    as (s1c & s0c & Hs1c & Hs0c & Hrun).
  destruct (calc_crystal_frame_vectors_wf t e phi s1 _ Hwf Hphi Hs1 Hax Hrun)
    as (Hwf' & Hn' & Hphi' & Hs1').
  eexists. split; [exact Hrun|].
  destruct (calc_crystal_frame_vectors_run _ e phi s1 Hwf' Hphi' Hs1' Hax)
    as (s1c' & s0c' & Hs1c' & Hs0c' & Hrun').
  rewrite Hrun'. cbn [nrows columns] in *.
  rewrite Hs1c in Hs1c'. injection Hs1c' as <-.
  rewrite Hs0c in Hs0c'. injection Hs0c' as <-.
  f_equal. f_equal. apply map_eq. intros k.
  destruct (decide (k = "s0c")) as [->|];
    [|destruct (decide (k = "s1c")) as [->|];
      [|destruct (decide (k = "s0")) as [->|]]];
    repeat first [rewrite lookup_insert_eq | rewrite lookup_insert_ne by done]; done.
Qed.

Section SphericalHarmonicsRepeated.

Variable calc_theta_phi : list vec3 -> list (float * float).
Variable sparse_matrix : Type.
Variable create_sph_harm_table :
  list (float * float) -> list (float * float) -> Z -> sparse_matrix.

(** X8: [sph_harm_table] returns the table that [create_sph_harm_table]
    builds from the angles of the [s0c] column and of the [s1c] column, in
    this order, of the crystal-frame vectors; the caller's table then holds
    these columns, and a second call on it returns the same value and
    leaves the table as it is. *)
Theorem sph_harm_table_repeat t e lmax phi s1 m t' :
  table_wf t ->
  columns t !! "phi" = Some (flex_double phi) ->
  columns t !! "s1" = Some (flex_vec3_double s1) ->
  axis_alignable (goniometer_get_rotation_axis e) ->
  sph_harm_table calc_theta_phi sparse_matrix create_sph_harm_table t e lmax = OK (m, t') ->
  calc_crystal_frame_vectors t e = OK t'
  /\ (exists s0c s1c,
        columns t' !! "s0c" = Some (flex_vec3_double s0c)
        /\ columns t' !! "s1c" = Some (flex_vec3_double s1c)
        /\ m = create_sph_harm_table (calc_theta_phi s0c) (calc_theta_phi s1c) lmax)
  /\ sph_harm_table calc_theta_phi sparse_matrix create_sph_harm_table t' e lmax
     = OK (m, t').
Proof using rotate_vectors_about_axis_length.
  intros Hwf Hphi Hs1 Hax Hrun. unfold sph_harm_table in Hrun.
  apply bind_ok_inv in Hrun as (t1 & Hcfv & Hrun).
  apply bind_ok_inv in Hrun as (s0c & H0 & Hrun).
  apply bind_ok_inv in Hrun as (s1c & H1 & Hrun). injection Hrun as <- ->.
  destruct (calc_crystal_frame_vectors_idempotent t e phi s1 Hwf Hphi Hs1 Hax)
    as (t2 & Hcfv2 & Hagain).
  rewrite Hcfv in Hcfv2. injection Hcfv2 as <-.
  split; [done|]. split.
  - exists s0c, s1c.
    unfold get_vec3_double, getitem in H0, H1.
    destruct (columns t' !! "s0c") as [[]|]; try done.
    destruct (columns t' !! "s1c") as [[]|]; try done.
    simpl in H0, H1. injection H0 as ->. injection H1 as ->. done.
  - unfold sph_harm_table. rewrite Hagain. cbn [bind]. rewrite H0. cbn [bind].
    by rewrite H1.
Qed.

End SphericalHarmonicsRepeated.

End FrameTransform.
End ScalingUtilities.

(** ** The results on concrete inputs *)

Abbreviation example_calc_normE2 :=
  (calc_normE2 example_space_group example_is_centric uniform_binner
     uniform_setup_binner ub_limits uniform_mean example_pow example_bad_for_scaling).
Abbreviation example_statistics_subset :=
  (statistics_subset example_space_group example_is_centric example_pow
     example_bad_for_scaling).
Abbreviation example_bin_averages :=
  (bin_averages example_space_group example_is_centric uniform_binner
     uniform_setup_binner ub_limits uniform_mean).
Abbreviation example_calc_crystal_frame_vectors :=
  (calc_crystal_frame_vectors example_space_group example_rotate example_acos).
Abbreviation example_align_rotation_axis_along_z :=
  (align_rotation_axis_along_z example_rotate example_acos).

Lemma table_of_rows_wf rows : table_wf (table_of_rows rows).
Proof.
  unfold table_wf, table_of_rows. cbn [nrows columns].
  repeat (apply map_Forall_insert_2; [simpl; by rewrite length_map|]).
  apply map_Forall_empty.
Qed.

Lemma table_of_rows_columns rows :
  columns (table_of_rows rows) !! "flags" = Some (flex_size_t (map (fun r => r.1.1.1) rows))
  /\ columns (table_of_rows rows) !! "miller_index"
     = Some (flex_miller_index (map (fun r => r.1.1.2) rows))
  /\ columns (table_of_rows rows) !! "d" = Some (flex_double (map (fun r => r.1.2) rows))
  /\ columns (table_of_rows rows) !! "intensity" = Some (flex_double (map (fun r => r.2) rows)).
Proof. by repeat split. Qed.

Lemma example_rotate_length axis vectors angles :
  length vectors = length angles ->
  length (example_rotate axis vectors angles) = length vectors.
Proof.
  intros H. unfold example_rotate. destruct axis as [|[[ux uy] uz] ?]; [done|].
  rewrite length_zip_with. lia.
Qed.

Lemma frame_table_wf : table_wf frame_table.
Proof.
  unfold table_wf, frame_table. cbn [nrows columns].
  repeat (apply map_Forall_insert_2; [done|]). apply map_Forall_empty.
Qed.

Lemma outlier_table_wf : table_wf outlier_table.
Proof.
  unfold table_wf, outlier_table. cbn [nrows columns].
  repeat (apply map_Forall_insert_2; [done|]). apply map_Forall_empty.
Qed.

Lemma unflagged_outlier_table_wf : table_wf unflagged_outlier_table.
Proof.
  unfold table_wf, unflagged_outlier_table. cbn [nrows columns].
  repeat (apply map_Forall_insert_2; [done|]). apply map_Forall_empty.
Qed.

(** The run of [calc_normE2] on [large_table], phase by phase. *)
Lemma large_table_run :
  match example_statistics_subset large_table (example_experiment P121 (0.0, 0.0, 1.0)%float) with
  | OK (rt, ma, nc, na) =>
      nc = 10001%Z /\ na = 10000%Z
      /\ example_bin_averages rt ma nc na 10
         = OK (Some (large_centric_means, large_limits),
               Some (large_acentric_means, large_limits))
  | Raise _ => False
  end
  /\ is_ok (example_calc_normE2 large_table (example_experiment P121 (0.0, 0.0, 1.0)%float))
     = true.
Proof. vm_compute. auto. Qed.

Abbreviation p121_experiment := (example_experiment P121 (0.0, 0.0, 1.0)%float).

(** C1 on the 25-reflection table: 5 centric and 20 acentric reflections
    give the fallback, [Esq] being 1.0 in all 25 rows. *)
Lemma calc_normE2_insufficient_data_witness :
  exists t' log,
    example_calc_normE2 small_table p121_experiment = OK (t', log)
    /\ columns t' !! "Esq" = Some (flex_double (replicate 25 1.0%float))
    /\ columns t' !! "flags" = columns small_table !! "flags".
Proof.
  destruct (calc_normE2_insufficient_data example_space_group example_is_centric
              uniform_binner uniform_setup_binner ub_limits uniform_mean
              example_pow example_bad_for_scaling small_table p121_experiment _ _ _ _
              (table_of_rows_wf small_rows)
              (proj1 (table_of_rows_columns small_rows))
              (proj1 (proj2 (table_of_rows_columns small_rows)))
              (proj1 (proj2 (proj2 (table_of_rows_columns small_rows))))
              (proj2 (proj2 (proj2 (table_of_rows_columns small_rows)))))
    as (t' & log & Hrun & _ & Hesq & _ & _ & _ & Hfl & _).
  - vm_compute. reflexivity.
  - vm_compute. discriminate.
  - exists t', log. split; [exact Hrun|]. split; [exact Hesq|]. rewrite Hfl. reflexivity.
Defined.

Lemma large_table_columns :
  exists fl hs ds ints,
    columns large_table !! "flags" = Some (flex_size_t fl)
    /\ columns large_table !! "miller_index" = Some (flex_miller_index hs)
    /\ columns large_table !! "d" = Some (flex_double ds)
    /\ columns large_table !! "intensity" = Some (flex_double ints)
    /\ hs !! 0 = Some (8, 0, 0)%Z /\ ds !! 0 = Some 0.125%float /\ ints !! 0 = Some 0.5%float
    /\ hs !! 4000 = Some (12, 0, 0)%Z /\ ds !! 4000 = Some (d_of_index (12, 0, 0)%Z)
    /\ ints !! 4000 = Some 0.5%float
    /\ ds !! 20002 = Some 0.0%float.
Proof.
  eexists _, _, _, _.
  repeat split; try apply table_of_rows_columns; vm_compute; reflexivity.
Qed.

(** C4 on [large_table]: the flagged reflection with [d = 0] (row 20002)
    has [Esq] 0 and [d] 0 after a 10-shell run. *)
Lemma calc_normE2_zero_distance_witness :
  double_entry large_table "d" 20002 = Some 0.0%float
  /\ exists t' log,
       example_calc_normE2 large_table p121_experiment = OK (t', log)
       /\ double_entry t' "Esq" 20002 = Some 0.0%float
       /\ double_entry t' "d" 20002 = Some 0.0%float.
Proof.
  split; [vm_compute; reflexivity|].
  destruct large_table_run as [Hph Hok].
  destruct large_table_columns
    as (fl & hs & ds & ints & Hfl & Hhs & Hd & Hints & _ & _ & _ & _ & _ & _ & Hz).
  destruct (example_statistics_subset large_table p121_experiment)
    as [[[[rt ma] nc] na]|] eqn:Hsub; [|contradiction].
  destruct Hph as (-> & -> & Hbin).
  destruct (example_calc_normE2 large_table p121_experiment) as [[t' log]|] eqn:Hrun;
    [|discriminate].
  exists t', log. split; [reflexivity|].
  destruct (calc_normE2_zero_distance example_space_group example_is_centric
              uniform_binner uniform_setup_binner ub_limits uniform_mean
              example_pow example_bad_for_scaling large_table p121_experiment hs ds ints
              rt ma 10001%Z 10000%Z 10%Z t' log
              (table_of_rows_wf large_rows) Hhs Hd Hints Hsub eq_refl Hrun)
    as (esq' & d' & Hesq & Hd' & Hrow).
  specialize (Hrow 20002 0.0%float Hz).
  change ((0 =? 0)%float) with true in Hrow. cbv iota in Hrow.
  unfold double_entry. rewrite Hesq, Hd'. exact Hrow.
Defined.

(** C6 on [large_table]: 10000 acentric and 10001 centric reflections give
    10 shells. *)
Lemma calc_normE2_shell_count_witness :
  exists rt ma t' log,
    example_statistics_subset large_table p121_experiment = OK (rt, ma, 10001%Z, 10000%Z)
    /\ example_calc_normE2 large_table p121_experiment = OK (t', log)
    /\ shells_used example_space_group example_is_centric uniform_binner
         uniform_setup_binner ub_limits uniform_mean example_pow
         large_table rt ma 10001 10000 10 t' log.
Proof.
  destruct large_table_run as [Hph Hok].
  destruct (example_statistics_subset large_table p121_experiment)
    as [[[[rt ma] nc] na]|] eqn:Hsub; [|contradiction].
  destruct Hph as (-> & -> & Hbin).
  destruct (example_calc_normE2 large_table p121_experiment) as [[t' log]|] eqn:Hrun;
    [|discriminate].
  exists rt, ma, t', log. split; [reflexivity|]. split; [reflexivity|].
  apply (calc_normE2_shell_count example_space_group example_is_centric
           uniform_binner uniform_setup_binner ub_limits uniform_mean
           example_pow example_bad_for_scaling large_table p121_experiment rt ma
           10001%Z 10000%Z t' log Hsub Hrun); lia.
Defined.

Lemma large_limits_lowest : forall l, l ∈ large_limits -> (l <? 64)%float = false.
Proof.
  intros l Hl. apply list_elem_of_In in Hl. vm_compute in Hl.
  repeat (destruct Hl as [<-|Hl]; [vm_compute; reflexivity|]). contradiction.
Qed.

Lemma large_limits_above_144 (i : nat) :
  4 < i ->
  in_shell large_limits i (sentinel_resolution example_pow (d_of_index (12, 0, 0)%Z)) = false.
Proof.
  intros Hi. do 5 (destruct i as [|i]; [lia|]).
  do 6 (destruct i as [|i]; [vm_compute; reflexivity|]). reflexivity.
Qed.

(** C9 on [large_table]: the centric reflection (8,0,0) of row 0 has the
    resolution 64, the lowest centric limit, and keeps [Esq] 0; the centric
    reflection (12,0,0) of row 4000 passes the test of the fifth centric
    shell and has its intensity 0.5 over the mean of that shell. *)
Lemma calc_normE2_no_shell_witness :
  sentinel_resolution example_pow 0.125 = 64%float
  /\ large_limits !! 0 = Some 64%float
  /\ in_shell large_limits 4 (sentinel_resolution example_pow (d_of_index (12, 0, 0)%Z)) = true
  /\ large_centric_means !! 4 = Some (Some (500 / 1001)%float)
  /\ exists t' log,
       example_calc_normE2 large_table p121_experiment = OK (t', log)
       /\ double_entry t' "Esq" 0 = Some 0.0%float
       /\ double_entry t' "Esq" 4000 = Some (0.5 / (500 / 1001))%float.
Proof.
  split; [vm_compute; reflexivity|]. split; [vm_compute; reflexivity|].
  split; [vm_compute; reflexivity|]. split; [reflexivity|].
  destruct large_table_run as [Hph Hok].
  destruct large_table_columns
    as (fl & hs & ds & ints & Hfl & Hhs & Hd & Hints & Hh0 & Hd0 & Hi0 & Hh4 & Hd4 & Hi4 & _).
  destruct (example_statistics_subset large_table p121_experiment)
    as [[[[rt ma] nc] na]|] eqn:Hsub; [|contradiction].
  destruct Hph as (-> & -> & Hbin).
  destruct (example_calc_normE2 large_table p121_experiment) as [[t' log]|] eqn:Hrun;
    [|discriminate].
  exists t', log. split; [reflexivity|].
  destruct (calc_normE2_no_shell example_space_group example_is_centric
              uniform_binner uniform_setup_binner ub_limits uniform_mean
              example_pow example_bad_for_scaling large_table p121_experiment hs ds ints
              rt ma 10001%Z 10000%Z 10%Z _ _ t' log
              (table_of_rows_wf large_rows) Hhs Hd Hints Hsub eq_refl Hbin Hrun)
    as (esq' & Hesq & Hrow).
  destruct (Hrow 0 (8, 0, 0)%Z 0.125%float 0.5%float Hh0 Hd0 Hi0) as (_ & _ & Hlow).
  destruct (Hrow 4000 (12, 0, 0)%Z _ 0.5%float Hh4 Hd4 Hi4) as (Hassigned & _).
  unfold double_entry. rewrite Hesq. split.
  - apply (Hlow large_centric_means large_limits 64%float);
      [reflexivity | reflexivity | exact large_limits_lowest | vm_compute; reflexivity].
  - destruct (Hassigned large_centric_means large_limits 4) as (m & Hm & Hx);
      [reflexivity | vm_compute; reflexivity | vm_compute; reflexivity
      | intros i' Hi'; apply large_limits_above_144; lia |].
    injection Hm as <-. exact Hx.
Defined.

Lemma large_centric_means_positive :
  means_positive_finite (Some (large_centric_means, large_limits)).
Proof.
  intros mv bl i m [= <- <-] Hm.
  do 10 (destruct i as [|i]; [injection Hm as <-; vm_compute; auto|]).
  discriminate.
Qed.

(** C2 (amended) on [large_table]: the centric reflection (12,0,0) of row
    4000, of intensity 0.5, gets the [Esq] of 0.5 over the mean of the fifth
    centric shell, which is not below zero. *)
Lemma calc_normE2_esq_value_witness :
  exists t' log x,
    example_calc_normE2 large_table p121_experiment = OK (t', log)
    /\ double_entry t' "Esq" 4000 = Some x
    /\ x = (0.5 / (500 / 1001))%float
    /\ (0 <=? x)%float = true.
Proof.
  destruct large_table_run as [Hph Hok].
  destruct large_table_columns
    as (fl & hs & ds & ints & Hfl & Hhs & Hd & Hints & _ & _ & _ & Hh & Hdj & Hi & _).
  destruct (example_statistics_subset large_table p121_experiment)
    as [[[[rt ma] nc] na]|] eqn:Hsub; [|contradiction].
  destruct Hph as (-> & -> & Hbin).
  destruct (example_calc_normE2 large_table p121_experiment) as [[t' log]|] eqn:Hrun;
    [|discriminate].
  destruct (calc_normE2_esq_value example_space_group example_is_centric
              uniform_binner uniform_setup_binner ub_limits uniform_mean
              example_pow example_bad_for_scaling large_table p121_experiment hs ds ints
              rt ma 10001%Z 10000%Z 10%Z _ _ t' log
              (table_of_rows_wf large_rows) Hhs Hd Hints Hsub eq_refl Hbin Hrun)
    as (esq' & Hesq & Hrow).
  destruct (Hrow 4000 (12, 0, 0)%Z _ 0.5%float Hh Hdj Hi)
    as (x & Hx & _ & Hassigned & Hnonneg).
  exists t', log, x. split; [reflexivity|]. split; [|split].
  - unfold double_entry. rewrite Hesq. exact Hx.
  - destruct (Hassigned large_centric_means large_limits 4) as (m & Hm & ->);
      [reflexivity | vm_compute; reflexivity | vm_compute; reflexivity
      | intros i' Hi'; apply large_limits_above_144; lia |].
    injection Hm as <-. reflexivity.
  - apply Hnonneg; [vm_compute; reflexivity|exact large_centric_means_positive].
Defined.

(** C2 as stated fails on [large_table]: both classes have at least 10000
    members, yet the unflagged centric reflection of row 20000 (d = 1/12,
    intensity -2.0) gets a negative [Esq], and the flagged reflection of
    row 20001 (intensity 1.7e308) gets an infinite one. *)
Lemma calc_normE2_negative_esq :
  (fun s => (s.1.2, s.2)) <$$> example_statistics_subset large_table p121_experiment
  = OK (10001%Z, 10000%Z)
  /\ (fun d => (d =? 0)%float) <$> double_entry large_table "d" 20000 = Some false
  /\ double_entry large_table "intensity" 20000 = Some (-2.0)%float
  /\ (fun r => double_entry r.1 "Esq" 20000)
       <$$> example_calc_normE2 large_table p121_experiment
     = OK (Some (-4.0039999999999996)%float)
  /\ (-4.0039999999999996 <? 0)%float = true
  /\ (fun d => (d =? 0)%float) <$> double_entry large_table "d" 20001 = Some false
  /\ (fun r => double_entry r.1 "Esq" 20001)
       <$$> example_calc_normE2 large_table p121_experiment
     = OK (Some infinity).
Proof. vm_compute. repeat split. Qed.

(** C5 fails on the table with one unflagged reflection of [d = 0]: the
    statistics subset computes its resolution as 1.0/0.0**2 with no sentinel
    substituted, whatever the classifier, the flag mask and the power
    function; the power of 0.0 being 0.0, as libm gives it, this is a
    division by zero (here [infinity]). *)
Theorem statistics_subset_divides_by_zero
    (space_group : Type)
    (is_centric : crystal_symmetry space_group -> miller_index -> bool)
    (libm_pow : float -> float -> float)
    (bad_for_scaling : Z) (experiments : experiment space_group) :
  double_entry zero_distance_table "d" 0 = Some 0.0%float
  /\ (fun s => double_entry s.1.1.1 "resolution" 0)
       <$$> statistics_subset space_group is_centric libm_pow bad_for_scaling
              zero_distance_table experiments
     = OK (Some (1.0 / libm_pow 0.0 2.0)%float)
  /\ ((libm_pow 0.0 2.0 = 0.0)%float -> (1.0 / libm_pow 0.0 2.0)%float = infinity).
Proof.
  split; [reflexivity|]. split; [vm_compute; reflexivity|].
  intros ->. reflexivity.
Qed.

(** C3 on four reflections: centric with Esq 24.0 (flagged), centric with
    Esq 20.0 and the flag already set (kept), acentric with Esq 14.0
    (flagged, bit 0 kept), acentric with Esq 13.0 (untouched); and on the
    same reflections in a table without a ["flags"] column, where the first
    and the third are flagged. *)
Lemma set_wilson_outliers_flags_witness :
  (exists t' log (fl' : list Z),
     set_wilson_outliers example_outlier_in_scaling outlier_table = OK (t', log)
     /\ columns t' !! "flags" = Some (flex_size_t fl')
     /\ fl' !! 0 = Some 8388608%Z /\ fl' !! 1 = Some 8388608%Z
     /\ fl' !! 2 = Some 8388609%Z /\ fl' !! 3 = Some 1%Z)
  /\ columns unflagged_outlier_table !! "flags" = None
  /\ exists t' log (fl' : list Z),
       set_wilson_outliers example_outlier_in_scaling unflagged_outlier_table = OK (t', log)
       /\ columns t' !! "flags" = Some (flex_size_t fl')
       /\ fl' !! 0 = Some 8388608%Z /\ fl' !! 2 = Some 8388608%Z.
Proof.
  split; [|split; [reflexivity|]].
  2:{ destruct (set_wilson_outliers_flags example_outlier_in_scaling unflagged_outlier_table
                  [true; true; false; false] [24.0; 20.0; 14.0; 13.0]%float
                  (replicate 4 0%Z)
                  unflagged_outlier_table_wf eq_refl eq_refl
                  (or_intror (conj eq_refl eq_refl)))
        as (t' & log & fl' & Hrun & _ & Hcols & _ & Hrow).
      exists t', log, fl'. split; [exact Hrun|].
      split; [rewrite Hcols; apply lookup_insert_eq|].
      destruct (Hrow 0 true 24.0%float 0%Z eq_refl eq_refl eq_refl) as (f0 & H0 & Hset0 & _).
      destruct (Hrow 2 false 14.0%float 0%Z eq_refl eq_refl eq_refl) as (f2 & H2 & Hset2 & _).
      rewrite H0, H2.
      rewrite Hset0 by (left; split; reflexivity).
      rewrite Hset2 by (right; split; reflexivity).
      split; reflexivity. }
  destruct (set_wilson_outliers_flags example_outlier_in_scaling outlier_table
              [true; true; false; false] [24.0; 20.0; 14.0; 13.0]%float
              [0; example_outlier_in_scaling; 1; 1]%Z
              outlier_table_wf eq_refl eq_refl (or_introl eq_refl))
    as (t' & log & fl' & Hrun & _ & Hcols & _ & Hrow).
  exists t', log, fl'. split; [exact Hrun|].
  split; [rewrite Hcols; apply lookup_insert_eq|].
  destruct (Hrow 0 true 24.0%float 0%Z eq_refl eq_refl eq_refl) as (f0 & H0 & Hset0 & _).
  destruct (Hrow 1 true 20.0%float example_outlier_in_scaling eq_refl eq_refl eq_refl)
    as (f1 & H1 & _ & Hkeep1 & _).
  destruct (Hrow 2 false 14.0%float 1%Z eq_refl eq_refl eq_refl) as (f2 & H2 & Hset2 & _).
  destruct (Hrow 3 false 13.0%float 1%Z eq_refl eq_refl eq_refl) as (f3 & H3 & _ & Hkeep3 & _).
  rewrite H0, H1, H2, H3.
  rewrite Hset0 by (left; split; reflexivity).
  rewrite Hset2 by (right; split; reflexivity).
  rewrite Hkeep1 by (intros [[_ H]|[H _]]; discriminate H).
  rewrite Hkeep3 by (intros [[H _]|[_ H]]; discriminate H).
  repeat split.
Defined.

(** C7 (amended) on the canonical axis. *)
Lemma align_rotation_axis_along_z_canonical_axis_witness :
  example_align_rotation_axis_along_z [(0.0, 0.0, 1.0)%float] [(1.0, 2.0, 3.0)%float]
  = OK [(1.0, 2.0, 3.0)%float].
Proof.
  apply (align_rotation_axis_along_z_canonical_axis example_rotate example_acos).
  reflexivity.
Defined.

(** C7 as stated fails: the axes (0,0,0), (0,0,-1) and (0,0,2) have a zero
    cross product with (0,0,1) and are not special-cased.  For (0,0,0) the
    angle computation divides by zero; for the other two the angle is
    computed and the rotator is called with the zero vector as its axis.
    This holds for every rotator and arc cosine. *)
Lemma align_rotation_axis_along_z_zero_cross_product :
  vec3_eqb (cross_prod_uz (0.0, 0.0, 0.0)%float) (0.0, 0.0, 0.0)%float = true
  /\ (fun rotate acos =>
        align_rotation_axis_along_z rotate acos [(0.0, 0.0, 0.0)%float] [(1.0, 2.0, 3.0)%float])
     = (fun _ _ => Raise ZeroDivisionError)
  /\ vec3_eqb (cross_prod_uz (0.0, 0.0, -1.0)%float) (0.0, 0.0, 0.0)%float = true
  /\ (fun rotate acos =>
        align_rotation_axis_along_z rotate acos [(0.0, 0.0, -1.0)%float] [(1.0, 2.0, 3.0)%float])
     = (fun rotate acos =>
          OK (rotate [cross_prod_uz (0.0, 0.0, -1.0)%float] [(1.0, 2.0, 3.0)%float]
                [(1.0 * acos (-1.0))%float]))
  /\ vec3_eqb (cross_prod_uz (0.0, 0.0, 2.0)%float) (0.0, 0.0, 0.0)%float = true
  /\ (fun rotate acos =>
        align_rotation_axis_along_z rotate acos [(0.0, 0.0, 2.0)%float] [(1.0, 2.0, 3.0)%float])
     = (fun rotate acos =>
          OK (rotate [cross_prod_uz (0.0, 0.0, 2.0)%float] [(1.0, 2.0, 3.0)%float]
                [(1.0 * acos 1.0)%float])).
Proof. repeat split. Qed.

(** C8 on [frame_table] with the axis (0,0,1). *)
Lemma calc_crystal_frame_vectors_canonical_axis_witness :
  exists t',
    example_calc_crystal_frame_vectors frame_table p121_experiment = OK t'
    /\ columns t' !! "s1c"
       = Some (flex_vec3_double
                 (example_rotate [(0.0, 0.0, 1.0)%float]
                    [(1.0, 0.0, 0.0); (0.0, 1.0, 0.0)]%float
                    [(0.0 * -1.0 * math_pi / 180); (90.0 * -1.0 * math_pi / 180)]%float)).
Proof.
  destruct (calc_crystal_frame_vectors_canonical_axis example_space_group
              example_rotate example_acos example_rotate_length
              frame_table p121_experiment
              [0.0; 90.0]%float [(1.0, 0.0, 0.0); (0.0, 1.0, 0.0)]%float
              frame_table_wf eq_refl eq_refl eq_refl)
    as (t' & Hrun & _ & Hs1c & _).
  exists t'. split; [exact Hrun|exact Hs1c].
Defined.

(** C10 (amended) on [frame_table] with the axis (0,1,0). *)
Lemma calc_crystal_frame_vectors_frame_witness :
  exists t',
    example_calc_crystal_frame_vectors frame_table
      (example_experiment P1 (0.0, 1.0, 0.0)%float) = OK t'
    /\ nrows t' = 2
    /\ columns t' !! "intensity" = Some (flex_double [1.0; 2.0]%float).
Proof.
  destruct (calc_crystal_frame_vectors_frame example_space_group
              example_rotate example_acos example_rotate_length
              frame_table (example_experiment P1 (0.0, 1.0, 0.0)%float)
              [0.0; 90.0]%float [(1.0, 0.0, 0.0); (0.0, 1.0, 0.0)]%float
              frame_table_wf eq_refl eq_refl (or_intror eq_refl))
    as (t' & Hrun & Hrows & _ & Hframe).
  exists t'. split; [exact Hrun|]. split; [exact Hrows|].
  rewrite Hframe; [reflexivity|]. vm_compute. intros H. discriminate H.
Defined.

(** C10 as stated fails on a table that already has an [s0] column: the
    column is overwritten with the beam vector. *)
Lemma calc_crystal_frame_vectors_overwrites_s0 :
  columns frame_table_with_s0 !! "s0"
  = Some (flex_vec3_double [(1.0, 0.0, 0.0); (1.0, 0.0, 0.0)]%float)
  /\ (fun t' => columns t' !! "s0")
       <$$> example_calc_crystal_frame_vectors frame_table_with_s0 p121_experiment
     = OK (Some (flex_vec3_double [(0.0, 0.0, -1.0); (0.0, 0.0, -1.0)]%float)).
Proof. vm_compute. repeat split. Qed.

(** ** The further results on concrete inputs *)

Abbreviation example_set_wilson_outliers := (set_wilson_outliers example_outlier_in_scaling).
Abbreviation example_sph_harm_table :=
  (sph_harm_table example_space_group example_rotate example_acos
     example_calc_theta_phi example_sparse_matrix example_create_sph_harm_table).

Lemma small_table_run :
  is_ok (example_calc_normE2 small_table p121_experiment) = true.
Proof. vm_compute. reflexivity. Qed.

(** X1 on the 25-reflection table: the fallback keeps the 25 rows and the
    flag words and leaves no [centric_flag] column. *)
Lemma calc_normE2_frame_witness :
  exists t' log,
    example_calc_normE2 small_table p121_experiment = OK (t', log)
    /\ nrows t' = 25
    /\ columns t' !! "flags" = columns small_table !! "flags"
    /\ columns t' !! "centric_flag" = None.
Proof.
  pose proof small_table_run as Hok.
  destruct (example_calc_normE2 small_table p121_experiment) as [[t' log]|] eqn:Hrun;
    [|discriminate Hok].
  exists t', log. split; [reflexivity|].
  destruct (calc_normE2_frame example_space_group example_is_centric
              uniform_binner uniform_setup_binner ub_limits uniform_mean
              example_pow example_bad_for_scaling small_table p121_experiment t' log Hrun)
    as (Hn & Hfl & _ & _ & _ & _ & Hcf & _).
  split; [exact Hn|]. split; [exact Hfl|exact Hcf].
Defined.

(** X2 on the 25-reflection table. *)
Lemma set_wilson_outliers_after_calc_normE2_witness :
  exists t' log,
    example_calc_normE2 small_table p121_experiment = OK (t', log)
    /\ example_set_wilson_outliers t' = Raise (KeyError "centric_flag").
Proof.
  pose proof small_table_run as Hok.
  destruct (example_calc_normE2 small_table p121_experiment) as [[t' log]|] eqn:Hrun;
    [|discriminate Hok].
  exists t', log. split; [reflexivity|].
  exact (set_wilson_outliers_after_calc_normE2 example_space_group example_is_centric
           uniform_binner uniform_setup_binner ub_limits uniform_mean
           example_pow example_bad_for_scaling example_outlier_in_scaling
           small_table p121_experiment t' log Hrun).
Defined.

(** The run of [calc_normE2] on [gap_table] up to the bin averages. *)
Lemma gap_table_run :
  match example_statistics_subset gap_table p121_experiment with
  | OK (rt, ma, nc, na) =>
      nc = 0%Z /\ na = 10000%Z
      /\ example_bin_averages rt ma nc na 10 = OK (None, Some (gap_means, large_limits))
  | Raise _ => False
  end.
Proof. vm_compute. auto. Qed.

(** X3 on [gap_table]: 10000 acentric reflections give 10 shells, of which
    the second is empty. *)
Lemma calc_normE2_empty_shell_witness :
  example_calc_normE2 gap_table p121_experiment = Raise TypeError.
Proof.
  pose proof gap_table_run as Hph.
  destruct (example_statistics_subset gap_table p121_experiment)
    as [[[[rt ma] nc] na]|] eqn:Hsub; [|contradiction].
  destruct Hph as (-> & -> & Hbin).
  apply (calc_normE2_empty_shell example_space_group example_is_centric
           uniform_binner uniform_setup_binner ub_limits uniform_mean
           example_pow example_bad_for_scaling gap_table p121_experiment _ _ _ _
           rt ma 0%Z 10000%Z 10%Z None (Some (gap_means, large_limits))
           (table_of_rows_wf gap_rows)
           (proj1 (table_of_rows_columns gap_rows))
           (proj1 (proj2 (table_of_rows_columns gap_rows)))
           (proj1 (proj2 (proj2 (table_of_rows_columns gap_rows))))
           (proj2 (proj2 (proj2 (table_of_rows_columns gap_rows))))
           Hsub eq_refl Hbin).
  - intros mv bl i H. discriminate H.
  - intros mv bl i [= <- <-] Hi.
    do 10 (destruct i as [|i]; [eexists; reflexivity|]).
    exfalso. change (length large_limits) with 11 in Hi. lia.
  - right. exists gap_means, large_limits, 1. split; [reflexivity|].
    split; [change (length large_limits) with 11; lia|reflexivity].
Defined.

Lemma large_means_complete :
  class_means_complete (Some (large_centric_means, large_limits))
  /\ class_means_complete (Some (large_acentric_means, large_limits)).
Proof.
  split; intros mv bl i [= <- <-] Hi;
    (do 10 (destruct i as [|i]; [eexists; reflexivity|]));
    exfalso; change (length large_limits) with 11 in Hi; lia.
Qed.

(** X4 on [large_table]: every one of the 10 shells of both classes has a
    mean. *)
Lemma calc_normE2_returns_when_binned_witness :
  exists t' log, example_calc_normE2 large_table p121_experiment = OK (t', log).
Proof.
  destruct large_table_run as [Hph _].
  apply (calc_normE2_returns_when_binned example_space_group example_is_centric
           uniform_binner uniform_setup_binner ub_limits uniform_mean
           example_pow example_bad_for_scaling large_table p121_experiment _ _ _ _
           (table_of_rows_wf large_rows)
           (proj1 (table_of_rows_columns large_rows))
           (proj1 (proj2 (table_of_rows_columns large_rows)))
           (proj1 (proj2 (proj2 (table_of_rows_columns large_rows))))
           (proj2 (proj2 (proj2 (table_of_rows_columns large_rows))))).
  intros rt ma nc na n Hsub Hn. rewrite Hsub in Hph. destruct Hph as (-> & -> & Hbin).
  injection Hn as <-.
  exists (Some (large_centric_means, large_limits)),
    (Some (large_acentric_means, large_limits)).
  split; [exact Hbin|]. exact large_means_complete.
Defined.

(** X5 on the four reflections of [outlier_table]. *)
Lemma set_wilson_outliers_idempotent_witness :
  exists t' log,
    example_set_wilson_outliers outlier_table = OK (t', log)
    /\ example_set_wilson_outliers t' = OK (t', log).
Proof.
  exact (set_wilson_outliers_idempotent example_outlier_in_scaling outlier_table
           [true; true; false; false] [24.0; 20.0; 14.0; 13.0]%float
           [0; example_outlier_in_scaling; 1; 1]%Z
           outlier_table_wf eq_refl eq_refl eq_refl).
Defined.

(** X6 on [outlier_table]: two reflections meet the condition and a third
    had the flag before, so 3 outliers are logged; on the same reflections
    without a ["flags"] column 2 are logged. *)
Lemma set_wilson_outliers_count_witness :
  (exists t',
     example_set_wilson_outliers outlier_table
     = OK (t', [Log_info (Outliers_identified 3 23.91 13.82)]))
  /\ columns unflagged_outlier_table !! "flags" = None
  /\ exists t',
       example_set_wilson_outliers unflagged_outlier_table
       = OK (t', [Log_info (Outliers_identified 2 23.91 13.82)]).
Proof.
  split; [|split; [reflexivity|]].
  - destruct (set_wilson_outliers_count example_outlier_in_scaling outlier_table
                [true; true; false; false] [24.0; 20.0; 14.0; 13.0]%float
                [0; example_outlier_in_scaling; 1; 1]%Z
                outlier_table_wf eq_refl eq_refl (or_introl eq_refl)) as (t' & Hrun & _).
    exists t'. exact Hrun.
  - destruct (set_wilson_outliers_count example_outlier_in_scaling unflagged_outlier_table
                [true; true; false; false] [24.0; 20.0; 14.0; 13.0]%float
                (replicate 4 0%Z)
                unflagged_outlier_table_wf eq_refl eq_refl (or_intror (conj eq_refl eq_refl)))
      as (t' & Hrun & Hcount).
    exists t'. rewrite Hrun, Hcount; [reflexivity|reflexivity|discriminate].
Defined.

Lemma axis_010_alignable : axis_alignable example_acos (0.0, 1.0, 0.0)%float.
Proof. right. vm_compute. reflexivity. Qed.

(** X7 on [frame_table] with the axis (0,1,0). *)
Lemma calc_crystal_frame_vectors_idempotent_witness :
  exists t',
    example_calc_crystal_frame_vectors frame_table
      (example_experiment P1 (0.0, 1.0, 0.0)%float) = OK t'
    /\ example_calc_crystal_frame_vectors t'
         (example_experiment P1 (0.0, 1.0, 0.0)%float) = OK t'.
Proof.
  exact (calc_crystal_frame_vectors_idempotent example_space_group example_rotate
           example_acos example_rotate_length frame_table
           (example_experiment P1 (0.0, 1.0, 0.0)%float)
           [0.0; 90.0]%float [(1.0, 0.0, 0.0); (0.0, 1.0, 0.0)]%float
           frame_table_wf eq_refl eq_refl axis_010_alignable).
Defined.

Lemma frame_table_sph_run :
  is_ok (example_sph_harm_table frame_table (example_experiment P1 (0.0, 1.0, 0.0)%float) 4)
  = true.
Proof. vm_compute. reflexivity. Qed.

(** X8 on [frame_table] with the axis (0,1,0) and [lmax] 4. *)
Lemma sph_harm_table_repeat_witness :
  exists m t',
    example_sph_harm_table frame_table (example_experiment P1 (0.0, 1.0, 0.0)%float) 4
    = OK (m, t')
    /\ example_sph_harm_table t' (example_experiment P1 (0.0, 1.0, 0.0)%float) 4
       = OK (m, t').
Proof.
  pose proof frame_table_sph_run as Hok.
  destruct (example_sph_harm_table frame_table
              (example_experiment P1 (0.0, 1.0, 0.0)%float) 4) as [[m t']|] eqn:Hrun;
    [|discriminate Hok].
  exists m, t'. split; [reflexivity|].
  exact (proj2 (proj2
           (sph_harm_table_repeat example_space_group example_rotate example_acos
              example_rotate_length example_calc_theta_phi example_sparse_matrix
              example_create_sph_harm_table frame_table
              (example_experiment P1 (0.0, 1.0, 0.0)%float) 4
              [0.0; 90.0]%float [(1.0, 0.0, 0.0); (0.0, 1.0, 0.0)]%float m t'
              frame_table_wf eq_refl eq_refl axis_010_alignable Hrun))).
Defined.

Abbreviation example_assign_unique_identifiers :=
  (assign_unique_identifiers example_space_group example_consistent example_recursion_limit).
Abbreviation example_select_datasets_on_ids := (select_datasets_on_ids example_space_group).
Abbreviation example_parse_multiple_datasets :=
  (parse_multiple_datasets example_set_iter example_select_identifiers).

(** X9: with the ids 0, 1 and 3 used, the next id from 0 on is 2. *)
Lemma get_next_unique_id_least_witness :
  exists r : Z,
    _get_next_unique_id 5 0 ["0"; "1"; "3"] = OK r
    /\ (0 <= r <= 0 + Z.of_nat (length ["0"; "1"; "3"]))%Z
    /\ (str r ∉ ["0"; "1"; "3"])
    /\ forall k : Z, (0 <= k < r)%Z -> str k ∈ ["0"; "1"; "3"].
Proof.
  apply (get_next_unique_id_least 5 0 ["0"; "1"; "3"]). simpl. lia.
Defined.

(** X10: with the ids 0, 1 and 2 used and three frames left, the search
    from 0 on runs out of frames. *)
Lemma get_next_unique_id_recursion_limit_witness :
  _get_next_unique_id 3 0 ["0"; "1"; "2"] = Raise RuntimeError.
Proof.
  apply (get_next_unique_id_recursion_limit 3 0 ["0"; "1"; "2"]).
  intros k Hk.
  assert (Hcase : k = 0%Z \/ k = 1%Z \/ k = 2%Z) by lia.
  destruct Hcase as [-> | [-> | ->]]; apply list_elem_of_In; simpl; auto.
Defined.

Lemma three_experiments_run :
  identifiers example_space_group
    (match example_assign_unique_identifiers three_experiments three_tables with
     | Returned (exps', _) => exps'
     | _ => []
     end) = ["1"; "0"; "2"].
Proof. vm_compute. reflexivity. Qed.

(** X11 on the three experiments: the first table gets the id 0 in its two
    rows and the identifier "1" at key 0. *)
Lemma assign_unique_identifiers_stamps_witness :
  exists exps' refls' r',
    example_assign_unique_identifiers three_experiments three_tables
    = Returned (exps', refls')
    /\ refls' !! 0 = Some r'
    /\ table_id r' = Some [0; 0]%Z
    /\ table_experiment_identifiers r' !! 0%Z = Some "1".
Proof.
  pose proof three_experiments_run as Hids.
  destruct (example_assign_unique_identifiers three_experiments three_tables)
    as [[exps' refls']| |] eqn:Hrun; try discriminate Hids.
  destruct (assign_unique_identifiers_stamps example_space_group example_consistent
              example_recursion_limit three_experiments three_tables exps' refls' Hrun)
    as [_ Hrow].
  destruct (Hrow 0 (dataset_table_of [7; 7]%Z ∅) eq_refl) as (r' & Hr' & _ & Hstamp & _).
  destruct exps' as [|e' exps']; [discriminate Hids|].
  destruct (Hstamp e' eq_refl) as [Hid Hmap].
  exists (e' :: exps'), refls', r'. split; [reflexivity|]. split; [exact Hr'|].
  split; [exact Hid|].
  rewrite Hmap. injection Hids as -> _. apply lookup_insert_eq.
Defined.

(** X12 on the three experiments: the identifier "0" of the second is
    kept. *)
Lemma assign_unique_identifiers_keeps_witness :
  exists exps' refls',
    example_assign_unique_identifiers three_experiments three_tables
    = Returned (exps', refls')
    /\ length exps' = 3
    /\ exps' !! 1 = three_experiments !! 1.
Proof.
  pose proof three_experiments_run as Hids.
  destruct (example_assign_unique_identifiers three_experiments three_tables)
    as [[exps' refls']| |] eqn:Hrun; try discriminate Hids.
  destruct (assign_unique_identifiers_keeps example_space_group example_consistent
              example_recursion_limit three_experiments three_tables exps' refls' Hrun)
    as (Hlen & _ & Hkeep).
  exists exps', refls'. split; [reflexivity|]. split; [exact Hlen|].
  apply (Hkeep 1 _ eq_refl). left. discriminate.
Defined.

(** X13 on the three experiments: the identifiers become "1", "0", "2". *)
Lemma assign_unique_identifiers_distinct_witness :
  exists exps' refls',
    example_assign_unique_identifiers three_experiments three_tables
    = Returned (exps', refls')
    /\ NoDup (identifiers example_space_group exps')
    /\ "" ∉ identifiers example_space_group exps'.
Proof.
  pose proof three_experiments_run as Hids.
  destruct (example_assign_unique_identifiers three_experiments three_tables)
    as [[exps' refls']| |] eqn:Hrun; try discriminate Hids.
  exists exps', refls'. split; [reflexivity|].
  apply (assign_unique_identifiers_distinct example_space_group example_consistent
           example_recursion_limit three_experiments three_tables exps' refls');
    [reflexivity| |exact Hrun].
  apply (NoDup_singleton "0").
Defined.

(** X14: an experiment with the identifier "a" over a table that is not
    consistent fails the assertion. *)
Lemma assign_unique_identifiers_assertion_witness :
  example_assign_unique_identifiers (experiments_of ["a"]) [inconsistent_table]
  = AssertionError.
Proof.
  apply (assign_unique_identifiers_assertion example_space_group example_consistent
           example_recursion_limit).
  exists 0, (example_dataset_experiment "a" (0.0, 0.0, 1.0)%float), inconsistent_table.
  split; [reflexivity|]. split; [reflexivity|]. split; [discriminate|].
  vm_compute. reflexivity.
Defined.

(** X15 on the three experiments. *)
Lemma assign_unique_identifiers_returns_witness :
  exists exps' refls',
    example_assign_unique_identifiers three_experiments three_tables
    = Returned (exps', refls').
Proof.
  apply (assign_unique_identifiers_returns example_space_group example_consistent
           example_recursion_limit three_experiments three_tables).
  - intros i e r He Hr Hne.
    destruct i as [|[|[|i]]]; simpl in He, Hr; try discriminate;
      injection He as <-; injection Hr as <-; try (by destruct Hne).
    vm_compute. reflexivity.
  - vm_compute. lia.
Defined.

Lemma twelve_identifiers :
  identifiers example_space_group twelve_experiments
  = ["0"; "1"; "2"; "3"; "4"; "5"; "6"; "7"; "8"; "9"; "10"; "11"].
Proof. vm_compute. reflexivity. Qed.

Lemma twelve_identifiers_NoDup : NoDup (identifiers example_space_group twelve_experiments).
Proof.
  rewrite twelve_identifiers.
  apply (bool_decide_unpack _). vm_compute. exact I.
Qed.

(** X16: the id "12" is the identifier of none of the twelve
    experiments. *)
Lemma select_datasets_on_ids_assertion_witness :
  example_select_datasets_on_ids twelve_experiments twelve_tables None (Some ["3"; "12"])
  = AssertionError.
Proof.
  apply (select_datasets_on_ids_assertion example_space_group).
  right. exists "12". split; [apply list_elem_of_In; simpl; tauto|].
  rewrite twelve_identifiers. apply (bool_decide_unpack _). vm_compute. exact I.
Defined.

(** X17: using the datasets "10" and then "2" returns the experiments of
    positions 10 and 2, in this order. *)
Lemma select_datasets_on_ids_use_witness :
  exists exps' refls',
    example_select_datasets_on_ids twelve_experiments twelve_tables None (Some ["10"; "2"])
    = Returned (exps', refls', using_log ["10"; "2"])
    /\ identifiers example_space_group exps' = ["10"; "2"]
    /\ length refls' = 2.
Proof.
  destruct (select_datasets_on_ids_use example_space_group twelve_experiments twelve_tables
              None ["10"; "2"] eq_refl)
    as (exps' & refls' & Hrun & Hids & Hlen & _).
  - discriminate.
  - intros x Hx. rewrite twelve_identifiers.
    apply elem_of_cons in Hx as [->|Hx]; [apply list_elem_of_In; simpl; tauto|].
    apply list_elem_of_singleton in Hx as ->. apply list_elem_of_In. simpl. tauto.
  - vm_compute. lia.
  - exists exps', refls'. split; [exact Hrun|]. split; [exact Hids|exact Hlen].
Defined.

(** X18: excluding the datasets "3" and "1", whose strings are in the
    order of their positions, leaves the ten others. *)
Lemma select_datasets_on_ids_exclude_witness :
  exists exps' refls' log,
    example_select_datasets_on_ids twelve_experiments twelve_tables (Some ["1"; "3"]) None
    = Returned (exps', refls', log)
    /\ identifiers example_space_group exps'
       = ["0"; "2"; "4"; "5"; "6"; "7"; "8"; "9"; "10"; "11"].
Proof.
  eexists _, _, _. split.
  - apply (select_datasets_on_ids_exclude example_space_group twelve_experiments
             twelve_tables ["1"; "3"] None eq_refl).
    + discriminate.
    + apply (bool_decide_unpack _). vm_compute. exact I.
    + exact twelve_identifiers_NoDup.
    + intros x Hx. rewrite twelve_identifiers.
      apply elem_of_cons in Hx as [->|Hx]; [apply list_elem_of_In; simpl; tauto|].
      apply list_elem_of_singleton in Hx as ->. apply list_elem_of_In. simpl. tauto.
    + reflexivity.
    + intros a b pa pb Ha Hb Hpa Hpb Hlt. rewrite twelve_identifiers in Hpa, Hpb.
      apply elem_of_cons in Ha as [->|Ha];
        [|apply list_elem_of_singleton in Ha as ->];
        (apply elem_of_cons in Hb as [->|Hb];
         [|apply list_elem_of_singleton in Hb as ->]);
        try discriminate Hlt.
      pose proof twelve_identifiers_NoDup as Hnd. rewrite twelve_identifiers in Hnd.
      pose proof (NoDup_lookup _ pa 1 "1" Hnd Hpa eq_refl).
      pose proof (NoDup_lookup _ pb 3 "3" Hnd Hpb eq_refl). lia.
  - vm_compute. reflexivity.
Defined.

(** X19: excluding the datasets "2" and "10" deletes the dataset "2" and
    then, at the stale position 10, the dataset "11": the dataset "10"
    stays. *)
Lemma select_datasets_on_ids_exclude_out_of_order_witness :
  exists exps' refls' log,
    example_select_datasets_on_ids twelve_experiments twelve_tables (Some ["2"; "10"]) None
    = Returned (exps', refls', log)
    /\ identifiers example_space_group exps'
       = ["0"; "1"; "3"; "4"; "5"; "6"; "7"; "8"; "9"; "10"].
Proof.
  destruct (select_datasets_on_ids_exclude_out_of_order example_space_group
              twelve_experiments twelve_tables ["2"; "10"] "2" "10" 2 10 None
              eq_refl (reflexivity _) eq_refl twelve_identifiers_NoDup)
    as [Hrun _].
  - rewrite twelve_identifiers. reflexivity.
  - rewrite twelve_identifiers. reflexivity.
  - lia.
  - reflexivity.
  - rewrite Hrun. eexists _, _, _. split; [reflexivity|]. vm_compute. reflexivity.
Defined.

Lemma mixed_tables_run :
  match example_parse_multiple_datasets mixed_tables with
  | OK (tables, ids, _) => length tables = 3 /\ ids = [0; 1; 2]%Z
  | Raise _ => False
  end.
Proof. vm_compute. auto. Qed.

(** X20 on [mixed_tables]: the dataset 1 comes twice, and the ids are
    renumbered 0, 1, 2. *)
Lemma parse_multiple_datasets_ids_distinct_witness :
  exists tables ids log,
    example_parse_multiple_datasets mixed_tables = OK (tables, ids, log)
    /\ NoDup ids.
Proof.
  pose proof mixed_tables_run as Hok.
  destruct (example_parse_multiple_datasets mixed_tables) as [[[tables ids] log]|] eqn:Hrun;
    [|contradiction].
  exists tables, ids, log. split; [reflexivity|].
  exact (parse_multiple_datasets_ids_distinct example_set_iter example_select_identifiers
           mixed_tables tables ids log Hrun).
Defined.

(** X21 on [single_tables]. *)
Lemma parse_multiple_datasets_single_witness :
  exists ids log, example_parse_multiple_datasets single_tables = OK (single_tables, ids, log).
Proof.
  apply (parse_multiple_datasets_single example_set_iter example_select_identifiers
           single_tables).
  intros t Ht.
  apply elem_of_cons in Ht as [->|Ht]; [|apply list_elem_of_singleton in Ht as ->];
    (eexists; split; [reflexivity|vm_compute; lia]).
Defined.

Lemma dataset_table_of_wf ids m : dataset_table_wf (dataset_table_of ids m).
Proof. by exists ids. Qed.

(** X22 on [mixed_tables], and on [mixed_tables] followed by a table
    without an ['id'] column. *)
Lemma parse_multiple_datasets_returns_witness :
  (exists tables ids log, example_parse_multiple_datasets mixed_tables = OK (tables, ids, log))
  /\ example_parse_multiple_datasets
       (mixed_tables
        ++ [{| table_id := None; table_experiment_identifiers := ∅;
               table_data := table_data (dataset_table_of [] ∅) |}])
     = Raise (KeyError "id").
Proof.
  split.
  - apply (proj1 (parse_multiple_datasets_returns example_set_iter
                    example_select_identifiers mixed_tables)).
    repeat constructor; apply dataset_table_of_wf.
  - apply (proj2 (parse_multiple_datasets_returns example_set_iter
                    example_select_identifiers _) mixed_tables _ [] eq_refl);
      [repeat constructor; apply dataset_table_of_wf|reflexivity].
Defined.

(** X23 on [disjoint_tables]: the ids of the first table, which its set
    yields as 1 and 0, and the id 2 of the second. *)
Lemma parse_multiple_datasets_disjoint_witness :
  exists tables ids log,
    example_parse_multiple_datasets disjoint_tables = OK (tables, ids, log)
    /\ ids = [1; 0; 2]%Z.
Proof.
  destruct (proj1 (parse_multiple_datasets_returns example_set_iter
                     example_select_identifiers disjoint_tables))
    as (tables & ids & log & Hrun);
    [repeat constructor; apply dataset_table_of_wf|].
  exists tables, ids, log. split; [exact Hrun|].
  rewrite (parse_multiple_datasets_disjoint example_set_iter example_select_identifiers
             disjoint_tables tables ids log); [vm_compute; reflexivity| |exact Hrun].
  apply (bool_decide_unpack _). vm_compute. exact I.
Defined.

Lemma example_set_iter_elements : forall s : gset Z, example_set_iter s ≡ₚ elements s.
Proof. reflexivity. Qed.

(** X24 on [mixed_tables]: each of the three returned tables holds at most
    one dataset. *)
Lemma parse_multiple_datasets_tables_witness :
  exists tables ids log,
    example_parse_multiple_datasets mixed_tables = OK (tables, ids, log)
    /\ forall t', t' ∈ tables -> size (table_dataset_ids t') <= 1.
Proof.
  pose proof mixed_tables_run as Hok.
  destruct (example_parse_multiple_datasets mixed_tables) as [[[tables ids] log]|] eqn:Hrun;
    [|contradiction].
  exists tables, ids, log. split; [reflexivity|]. intros t' Ht'.
  exact (proj1 (parse_multiple_datasets_tables example_set_iter example_select_identifiers
                  example_set_iter_elements mixed_tables tables ids log Hrun t' Ht')).
Defined.

(** X25 on [mixed_tables]: 2 + 1 dataset ids and 2 + 1 tables. *)
Lemma parse_multiple_datasets_counts_witness :
  exists tables ids log,
    example_parse_multiple_datasets mixed_tables = OK (tables, ids, log)
    /\ length ids = 3 /\ length tables = 3.
Proof.
  pose proof mixed_tables_run as Hok.
  destruct (example_parse_multiple_datasets mixed_tables) as [[[tables ids] log]|] eqn:Hrun;
    [|contradiction].
  exists tables, ids, log. split; [reflexivity|].
  destruct (parse_multiple_datasets_counts example_set_iter example_select_identifiers
              example_set_iter_elements mixed_tables tables ids log Hrun) as [H1 H2].
  rewrite H1, H2. vm_compute. auto.
Defined.
